(** * Seat reservation core of the booking backend (src/index.ts)

    A shallow embedding of the seat inventory, the seat initializer, the
    booking route, the registration-closing route, the two seat-listing
    routes, the event registry routes and the account routes, followed by
    their properties.

    Conventions of the embedding.
    - A JavaScript string is the [string] of its UTF-8 bytes: comparison,
      search and the patterns of the handlers, which name ASCII
      characters and white space only, read the same on the bytes, and
      [Js.length] counts UTF-16 code units as [.length] does. A field
      that is missing from a request body and a field that holds the
      empty string are both falsy in every test the handlers make, so
      both are the empty string here; the optional phone is an
      [option string].
    - The two MongoDB collections are lists in natural (insertion) order.
      A loaded Mongoose document stands for the stored record it was
      read from, and [save] overwrites that record.
    - An [_id] is an ObjectId and is kept as the string it reads as. A
      query on [_id] ([findById], [findByIdAndDelete]) casts the
      identifier it is given to an ObjectId first ([castObjectId]); a
      query on a seat's [eventId], a String path, compares the string as
      it is given.
    - An [async] handler that answers is [Some response]; a handler whose
      promise rejects before any answer is written is [None].
    - The seat schema's settings are part of the model: [trim] on the
      three [bookedBy] strings is applied when a booking is pushed, and
      the [required] string paths are checked when a seat is saved.
    - The requester is the user the authentication middleware resolved;
      the admin-only routes are modelled behind [restrictToAdmin].
    - The calendar ([today]), the ObjectId syntax check of Mongoose, the
      mail transport and the driver's reaction to aborting a committed
      transaction are parameters of the development. *)

From Stdlib Require Import String Ascii List Arith Bool Lia PeanoNat.
From Stdlib Require Import DecimalString.
From Stdlib Require Import ZArith Sorted Permutation.
Import ListNotations.
Open Scope string_scope.
Open Scope list_scope.
Open Scope nat_scope.

(** ** JavaScript library functions used by the handlers *)

Module Js.

(** [s.startsWith(p)] *)
Fixpoint startsWith (p s : string) : bool :=
  match p, s with
  | EmptyString, _ => true
  | String a p', String b s' => Ascii.eqb a b && startsWith p' s'
  | String _ _, EmptyString => false
  end.

(** [s.includes(sub)] *)
Fixpoint includes (s sub : string) : bool :=
  startsWith sub s ||
  match s with
  | EmptyString => false
  | String _ s' => includes s' sub
  end.

(** [l.join(sep)] *)
Definition join (sep : string) (l : list string) : string :=
  String.concat sep l.

(** [l.includes(x)] on an array of strings *)
Definition mem (x : string) (l : list string) : bool :=
  existsb (String.eqb x) l.

(** [new Set(l).size] *)
Definition setSize (l : list string) : nat :=
  List.length (nodup string_dec l).

(** Template-literal rendering of a small non-negative integer. *)
Definition ofNat (n : nat) : string :=
  NilEmpty.string_of_uint (Nat.to_uint n).

(** The white space of [String.prototype.trim] and of the pattern class
    [\s] that takes one byte: TAB, LF, VT, FF, CR and SPACE. *)
Definition isSpace (c : ascii) : bool :=
  let n := nat_of_ascii c in ((9 <=? n) && (n <=? 13)) || (n =? 32).

(** The white space that takes two bytes: U+00A0. *)
Definition isSpace2 (a b : ascii) : bool :=
  (nat_of_ascii a =? 194) && (nat_of_ascii b =? 160).

(** The white space that takes three bytes: U+1680, U+2000 to U+200A,
    U+2028, U+2029, U+202F, U+205F, U+3000 and U+FEFF. *)
Definition isSpace3 (a b c : ascii) : bool :=
  let x := nat_of_ascii a in
  let y := nat_of_ascii b in
  let z := nat_of_ascii c in
  ((x =? 225) && ((y =? 154) && (z =? 128)))
  || ((x =? 226)
      && (((y =? 128)
           && (((128 <=? z) && (z <=? 138)) || (z =? 168) || (z =? 169)
               || (z =? 175)))
          || ((y =? 129) && (z =? 159))))
  || ((x =? 227) && ((y =? 128) && (z =? 128)))
  || ((x =? 239) && ((y =? 187) && (z =? 191))).

(** Drop the white space a string starts with; [two] and [three] tell
    the white space of two and of three bytes. *)
Fixpoint dropSpace (two : ascii -> ascii -> bool)
         (three : ascii -> ascii -> ascii -> bool) (s : string) : string :=
  match s with
  | EmptyString => EmptyString
  | String a s1 =>
      if isSpace a then dropSpace two three s1
      else
        match s1 with
        | EmptyString => s
        | String b s2 =>
            if two a b then dropSpace two three s2
            else
              match s2 with
              | EmptyString => s
              | String c s3 =>
                  if three a b c then dropSpace two three s3 else s
              end
        end
  end.

Fixpoint revAppend (s acc : string) : string :=
  match s with
  | EmptyString => acc
  | String c s' => revAppend s' (String c acc)
  end.

Definition reverse (s : string) : string := revAppend s EmptyString.

Definition trimStart (s : string) : string := dropSpace isSpace2 isSpace3 s.

(** The same from the end: on the reversed string the bytes of a
    character come last byte first. *)
Definition trimEnd (s : string) : string :=
  reverse (dropSpace (fun a b => isSpace2 b a) (fun a b c => isSpace3 c b a)
                     (reverse s)).

(** [s.trim()] *)
Definition trim (s : string) : string := trimEnd (trimStart s).

(** [s.length]: the UTF-16 code units of the string. A byte below 128
    and the first byte of a character of two or three bytes stand for one
    unit, the first byte of a character of four bytes for the two units
    of its surrogate pair, a continuation byte for none. *)
Definition units (c : ascii) : nat :=
  let n := nat_of_ascii c in
  if n <? 128 then 1 else if n <? 192 then 0 else if n <? 240 then 1 else 2.

Fixpoint length (s : string) : nat :=
  match s with
  | EmptyString => 0
  | String c s' => units c + length s'
  end.

(** [l.find(p)] *)
Definition find {A} (p : A -> bool) (l : list A) : option A := List.find p l.

(** A string is truthy when it is not empty. *)
Definition truthy (s : string) : bool := negb (String.eqb s "").

(** Regular expressions, matched over the whole input as the source's
    patterns are all anchored with [^] and [$]. *)
Inductive Re : Type :=
| Void
| Eps
| Cls (p : ascii -> bool)
| Cat (r s : Re)
| Alt (r s : Re)
| Star (r : Re).

Fixpoint nullable (r : Re) : bool :=
  match r with
  | Void => false
  | Eps => true
  | Cls _ => false
  | Cat r s => nullable r && nullable s
  | Alt r s => nullable r || nullable s
  | Star _ => true
  end.

Fixpoint deriv (c : ascii) (r : Re) : Re :=
  match r with
  | Void => Void
  | Eps => Void
  | Cls p => if p c then Eps else Void
  | Cat r s =>
      if nullable r then Alt (Cat (deriv c r) s) (deriv c s)
      else Cat (deriv c r) s
  | Alt r s => Alt (deriv c r) (deriv c s)
  | Star r => Cat (deriv c r) (Star r)
  end.

(** [/^r$/.test(s)] *)
Fixpoint test (r : Re) (s : string) : bool :=
  match s with
  | EmptyString => nullable r
  | String c s' => test (deriv c r) s'
  end.

Definition range (lo hi : ascii) : ascii -> bool :=
  fun c => (nat_of_ascii lo <=? nat_of_ascii c)
           && (nat_of_ascii c <=? nat_of_ascii hi).
Definition oneOf (cs : string) : ascii -> bool :=
  fun c => existsb (Ascii.eqb c) (list_ascii_of_string cs).
Definition orC (p q : ascii -> bool) : ascii -> bool :=
  fun c => p c || q c.
Definition opt (r : Re) : Re := Alt Eps r.
Definition plus (r : Re) : Re := Cat r (Star r).
Definition lit (c : ascii) : Re := Cls (Ascii.eqb c).
Definition digit : Re := Cls (range "0" "9").
(** The byte [n]. *)
Definition byte (n : nat) : Re := Cls (fun a => nat_of_ascii a =? n).
(** The class [\s]: one white-space character. *)
Definition space : Re :=
  Alt (Cls isSpace)
    (Alt (Cat (byte 194) (byte 160))
      (Alt (Cat (byte 225) (Cat (byte 154) (byte 128)))
        (Alt (Cat (byte 226)
                (Alt (Cat (byte 128)
                          (Cls (fun c =>
                                  let z := nat_of_ascii c in
                                  ((128 <=? z) && (z <=? 138)) || (z =? 168)
                                  || (z =? 169) || (z =? 175))))
                     (Cat (byte 129) (byte 159))))
          (Alt (Cat (byte 227) (Cat (byte 128) (byte 128)))
               (Cat (byte 239) (Cat (byte 187) (byte 191))))))).

End Js.

(** ** Data model (the interfaces and schemas of the source) *)

(** [IBooking.bookedBy] *)
Record BookedBy : Type := mkBookedBy
  { name : string;
    email : string;
    phone : option string }.

(** The literal type ["booked"] of [IBooking.status]. *)
Inductive BookingStatus : Type := booked.

Record IBooking : Type := mkBooking
  { date : string;
    bookedBy : BookedBy;
    status : BookingStatus }.

Record ISeat : Type := mkSeat
  { seatId : string;
    row : string;
    column : nat;
    price : nat;
    eventId : string;
    bookings : list IBooking }.

(** [IEvent], with the fields the reservation core reads or writes; the
    descriptive fields (name, time, description, venue, password,
    createdAt) are never consulted by it. *)
Record IEvent : Type := mkEvent
  { _id : string;
    eventDate : string;
    totalSeats : nat;
    registrationClosed : bool }.

(** The resolved requester attached to the request by the authentication
    middleware. *)
Record IUser : Type := mkUser
  { isAdmin : bool }.

(** The database: the Event and the Seat collections. *)
Record DB : Type := mkDB
  { Events : list IEvent;
    Seats : list ISeat }.

(** ** Seat initialization *)

Definition rows : list string :=
  map (fun c => String c EmptyString)
      (list_ascii_of_string "ABCDEFGHIJKLMNOPQRSTUVWXYZ").

(** [Array.from({ length: 10 }, (_, i) => i + 1)] *)
Definition columns : list nat := map (fun i => i + 1) (seq 0 10).

Definition newSeat (eid rw : string) (col : nat) : ISeat :=
  {| seatId := (rw ++ Js.ofNat col)%string;
     row := rw;
     column := col;
     price := 200;
     eventId := eid;
     bookings := [] |}.

(** The inner [for (const col of columns)] loop; the state is the array
    [seats] and the counter [seatsGenerated]. *)
Fixpoint columnLoop (eid : string) (total : nat) (rw : string)
         (cols : list nat) (st : list ISeat * nat) : list ISeat * nat :=
  match cols with
  | [] => st
  | col :: cols' =>
      if total <=? snd st then st (* break *)
      else columnLoop eid total rw cols'
             (fst st ++ [newSeat eid rw col], S (snd st))
  end.

(** The outer [for (const row of rows)] loop. *)
Fixpoint rowLoop (eid : string) (total : nat) (rws : list string)
         (st : list ISeat * nat) : list ISeat * nat :=
  match rws with
  | [] => st
  | rw :: rws' =>
      let st' := columnLoop eid total rw columns st in
      if total <=? snd st' then st' (* break *)
      else rowLoop eid total rws' st'
  end.

Definition generateSeats (eid : string) (total : nat) : list ISeat :=
  fst (rowLoop eid total rows ([], 0)).

Definition ofEvent (eid : string) (s : ISeat) : bool :=
  String.eqb (eventId s) eid.

(** [initializeSeats(eventId, totalSeats, session)] on the Seat collection. *)
Definition initializeSeats (eid : string) (total : nat)
           (seats : list ISeat) : list ISeat :=
  let existingSeats := List.length (filter (ofEvent eid) seats) in
  if total <=? existingSeats then seats
  else
    let cleared := filter (fun s => negb (ofEvent eid s)) seats in
    cleared ++ generateSeats eid total.


(** The seat set the specification describes: rows A..Z, columns 1..10,
    row-major. *)
Definition rowMajorSeatIds : list string :=
  flat_map (fun rw => map (fun col => (rw ++ Js.ofNat col)%string) columns) rows.

(** The compound unique index [{ seatId: 1, eventId: 1 }] of the Seat
    collection. *)
Definition seatKey (s : ISeat) : string * string := (seatId s, eventId s).
Definition uniqueIndex (seats : list ISeat) : Prop := NoDup (map seatKey seats).

(** ** Exceptions *)

(** A computation that may [throw new Error(msg)]. *)
Definition Throws (A : Type) : Type := (string + A)%type.

Definition ret {A} (a : A) : Throws A := inr a.
Definition throw {A} (msg : string) : Throws A := inl msg.
Definition bind {A B} (c : Throws A) (k : A -> Throws B) : Throws B :=
  match c with
  | inl msg => inl msg
  | inr a => k a
  end.

Notation "x <- c ;; k" := (bind c (fun x => k))
  (at level 61, c at next level, right associativity).
Notation "c ;;; k" := (bind c (fun _ => k))
  (at level 61, right associativity).

(** [if (cond) throw new Error(msg);] *)
Definition throwIf (cond : bool) (msg : string) : Throws unit :=
  if cond then throw msg else ret tt.

(** ** Requests and responses *)

Module Req.
(** One element of [req.body.bookings]. *)
Record Booking : Type := mkBooking
  { seatId : string;
    name : string;
    email : string;
    phone : option string;
    bookingDate : string }.

(** [req.body] of [POST /api/seats/book]. *)
Record Book : Type := mkBook
  { bookings : list Booking;
    eventId : string }.

(** [req.query.seatIds] of [GET /api/seats/by-ids]. *)
Inductive SeatIds : Type :=
| Missing
| Many (ids : list string)
| One (ids : string).
End Req.

(** A seat as listed by the read routes:
    [{ ...seat.toObject(), status, bookedBy }]. *)
Record SeatWithStatus : Type := mkSeatWithStatus
  { seat : ISeat;
    seatStatus : string;
    seatBookedBy : option BookedBy }.

Inductive Body : Type :=
| ErrorBody (error : string)
| MessageBody (message : string)
| BookedBody (message : string) (seats : list ISeat)
| SeatsBody (seats : list SeatWithStatus).

Record Response : Type := mkResponse
  { statusCode : nat;
    body : Body }.

Definition jsonError (code : nat) (msg : string) : Response :=
  {| statusCode := code; body := ErrorBody msg |}.

(** ** Collaborators *)

(** What [sendBookingConfirmation] hands to [transporter.sendMail]: the
    recipient, the subject and the values the message is rendered from. *)
Record MailOptions : Type := mkMail
  { mailTo : string;
    mailSubject : string;
    mailName : string;
    mailSeatIds : list string;
    mailBookingDate : string;
    mailPrice : nat }.

Record Env : Type := mkEnv
  { (** [isValidObjectId] of Mongoose *)
    isValidObjectId : string -> bool;
    (** [transporter.sendMail]: [None] when the mail is accepted,
        [Some msg] when the promise rejects with that message *)
    sendMail : MailOptions -> option string;
    (** whether [session.abortTransaction()] rejects once the
        transaction has been committed *)
    abortAfterCommitRejects : bool;
    (** how the message of Mongoose's validation error goes on after
        "Seat validation failed" for the documents [save] refused: it
        names the failing paths *)
    seatValidationDetail : list ISeat -> string }.

(** ** Patterns of the source *)

(** [/^[A-Z][1-9][0-9]?$/] *)
Definition seatIdRe : Js.Re :=
  Js.Cat (Js.Cls (Js.range "A" "Z"))
         (Js.Cat (Js.Cls (Js.range "1" "9")) (Js.opt Js.digit)).

(** [/^\d{4}-\d{2}-\d{2}$/] *)
Definition dateRe : Js.Re :=
  let d := Js.digit in
  let dash := Js.lit "-" in
  Js.Cat d (Js.Cat d (Js.Cat d (Js.Cat d (Js.Cat dash
    (Js.Cat d (Js.Cat d (Js.Cat dash (Js.Cat d d)))))))).

(** [/^[a-zA-Z0-9._%+-]+@[a-zA-Z0-9.-]+\.[a-zA-Z]{2,}$/] *)
Definition emailRe : Js.Re :=
  let letter := Js.orC (Js.range "a" "z") (Js.range "A" "Z") in
  let alnum := Js.orC letter (Js.range "0" "9") in
  let localC := Js.Cls (Js.orC alnum (Js.oneOf "._%+-")) in
  let domainC := Js.Cls (Js.orC alnum (Js.oneOf ".-")) in
  Js.Cat (Js.plus localC)
    (Js.Cat (Js.lit "@")
      (Js.Cat (Js.plus domainC)
        (Js.Cat (Js.lit ".")
          (Js.Cat (Js.Cls letter) (Js.Cat (Js.Cls letter) (Js.Star (Js.Cls letter))))))).

(** [/^(\+?\d{1,3}[-.\s]?)?\d{10}$/] *)
Definition phoneRe : Js.Re :=
  let d := Js.digit in
  let sep := Js.Alt (Js.Cls (Js.oneOf "-.")) Js.space in
  let prefix :=
    Js.Cat (Js.opt (Js.lit "+"))
      (Js.Cat d (Js.Cat (Js.opt d) (Js.Cat (Js.opt d) (Js.opt sep)))) in
  Js.Cat (Js.opt prefix)
    (Js.Cat d (Js.Cat d (Js.Cat d (Js.Cat d (Js.Cat d
      (Js.Cat d (Js.Cat d (Js.Cat d (Js.Cat d d))))))))).


(** ** Validation middleware *)

(** [validateDateFormat] on a [POST] whose body carries [bookings] (and
    no [date] or [bookingDate] of its own, as the booking route's body). *)
Definition validateDateFormatPost (b : Req.Book) : option Response :=
  if existsb (fun bk => Js.truthy (Req.bookingDate bk)
                        && negb (Js.test dateRe (Req.bookingDate bk)))
             (Req.bookings b)
  then Some (jsonError 400 "Invalid booking date format. Use YYYY-MM-DD")
  else None.

(** [validateDateFormat] on a [GET] with [req.query.date]. *)
Definition validateDateFormatGet (d : string) : option Response :=
  if Js.truthy d && negb (Js.test dateRe d)
  then Some (jsonError 400 "Invalid date format. Use YYYY-MM-DD")
  else None.

Definition validateEmail (b : Req.Book) : option Response :=
  match Js.find (fun bk => Js.truthy (Req.email bk)
                           && negb (Js.test emailRe (Req.email bk)))
                (Req.bookings b) with
  | Some bk =>
      Some (jsonError 400 ("Invalid email format for seat " ++ Req.seatId bk))
  | None => None
  end.

Definition phoneTruthy (p : option string) : bool :=
  match p with
  | Some s => Js.truthy s
  | None => false
  end.

Definition validatePhone (b : Req.Book) : option Response :=
  match Js.find (fun bk => phoneTruthy (Req.phone bk)
                           && negb (match Req.phone bk with
                                    | Some s => Js.test phoneRe s
                                    | None => false
                                    end))
                (Req.bookings b) with
  | Some bk =>
      Some (jsonError 400
              ("Invalid phone number format for seat " ++ Req.seatId bk
               ++ ". Use 10 digits or +[country code][10 digits]"))
  | None => None
  end.

(** ** Queries *)

(** The hexadecimal digits of a byte. *)
Definition hexDigit (n : nat) : ascii :=
  nth n (list_ascii_of_string "0123456789abcdef") "0"%char.

Definition hexOfByte (c : ascii) : string :=
  let n := nat_of_ascii c in
  String (hexDigit (n / 16)) (String (hexDigit (n mod 16)) EmptyString).

Fixpoint hexOfBytes (s : string) : string :=
  match s with
  | EmptyString => EmptyString
  | String c s' => (hexOfByte c ++ hexOfBytes s')%string
  end.

Fixpoint lowerHex (s : string) : string :=
  match s with
  | EmptyString => EmptyString
  | String c s' =>
      String (if Js.range "A" "F" c then ascii_of_nat (nat_of_ascii c + 32) else c)
             (lowerHex s')
  end.

(** [new ObjectId(id).toString()], the cast Mongoose applies to an
    identifier in a query on [_id], for the strings [isValidObjectId]
    lets through: twenty-four hexadecimal digits in either case name the
    ObjectId of their lower-case spelling, twelve bytes the ObjectId of
    these bytes. A stored [_id] is an ObjectId and reads as its
    lower-case hexadecimal digits. The [eventId] of a seat is a String
    path: a query on it compares the string as it is sent. *)
Definition castObjectId (id : string) : string :=
  if String.length id =? 12 then hexOfBytes id else lowerHex id.

(** The string an ObjectId reads as, which is what [_id.toString()] and
    the [_id] of a stored document are: twenty-four lower-case
    hexadecimal digits. *)
Definition objectIdString (id : string) : bool :=
  (String.length id =? 24)
  && forallb (fun c => Js.range "0" "9" c || Js.range "a" "f" c)
             (list_ascii_of_string id).

(** [Event.findById(id)] *)
Definition findById (id : string) (events : list IEvent) : option IEvent :=
  Js.find (fun e => String.eqb (_id e) (castObjectId id)) events.

(** [Event.findOne({ date })] *)
Definition findOneByDate (d : string) (events : list IEvent) : option IEvent :=
  Js.find (fun e => String.eqb (eventDate e) d) events.

(** The filter [{ seatId: { $in: seatIds }, eventId }] *)
Definition inBatch (seatIds : list string) (eid : string) (s : ISeat) : bool :=
  Js.mem (seatId s) seatIds && ofEvent eid s.

(** The filter [{ seatId: { $in: seatIds } }] *)
Definition inIds (seatIds : list string) (s : ISeat) : bool :=
  Js.mem (seatId s) seatIds.

(** [seat.bookings.find((b) => b.date === d)] *)
Definition bookingOn (d : string) (s : ISeat) : option IBooking :=
  Js.find (fun b => String.eqb (date b) d) (bookings s).

(** Overwrite the first element satisfying [p], the stored record a loaded
    document stands for. *)
Fixpoint updateFirst {A} (p : A -> bool) (f : A -> A) (l : list A) : list A :=
  match l with
  | [] => []
  | x :: l' => if p x then f x :: l' else x :: updateFirst p f l'
  end.

(** [docs.map((d) => d.save())] for the documents [docs] loaded with the
    filter [q]: each stored record matching [q] is overwritten by its
    document. *)
Fixpoint saveAll (q : ISeat -> bool) (store docs : list ISeat) : list ISeat :=
  match store with
  | [] => []
  | s :: store' =>
      if q s then
        match docs with
        | d :: docs' => d :: saveAll q store' docs'
        | [] => s :: saveAll q store' []
        end
      else s :: saveAll q store' docs
  end.

(** ** Booking confirmation mail *)

Definition sendBookingConfirmation (env : Env) (db : DB) (to : string)
           (seatIds : list string) (nm : string) (bookingDate : string)
  : Throws unit :=
  let attempt : Throws unit :=
    throwIf (negb (forallb (Js.test seatIdRe) seatIds))
            ("Invalid seatId format: " ++ Js.join ", " seatIds) ;;;
    let seats := filter (inIds seatIds) (Seats db) in
    throwIf (negb (List.length seats =? List.length seatIds))
            ("Not all seats found for seatIds: " ++ Js.join ", " seatIds) ;;;
    match seats with
    | [] => throw "Cannot read properties of undefined (reading 'eventId')"
    | first :: _ =>
        let eid := eventId first in
        throwIf (negb (forallb (fun s => String.eqb (eventId s) eid) seats))
                ("Seats belong to different events: " ++ Js.join ", " seatIds) ;;;
        throwIf (negb (isValidObjectId env eid))
                ("Invalid eventId format: " ++ eid) ;;;
        match findById eid (Events db) with
        | None => throw ("Event not found for eventId: " ++ eid)
        | Some _ =>
            throwIf (negb (Js.test dateRe bookingDate))
                    ("Invalid bookingDate format: " ++ bookingDate) ;;;
            let total :=
              fold_left (fun sum s => sum + (if price s =? 0 then 200 else price s))
                        seats 0 in
            match sendMail env
                    {| mailTo := to;
                       mailSubject := "Your Seat Booking Confirmation";
                       mailName := nm;
                       mailSeatIds := seatIds;
                       mailBookingDate := bookingDate;
                       mailPrice := total |} with
            | Some msg => throw msg
            | None => ret tt
            end
        end
    end in
  match attempt with
  | inl msg => throw ("Failed to send booking confirmation email: " ++ msg)
  | inr _ => ret tt
  end.

(** ** The booking route, [POST /api/seats/book] *)

(** The subdocument Mongoose builds from the pushed object: the schema
    trims [bookedBy.name], [bookedBy.email] and [bookedBy.phone]. *)
Definition castBooking (bk : Req.Booking) : IBooking :=
  {| date := Req.bookingDate bk;
     bookedBy := {| name := Js.trim (Req.name bk);
                    email := Js.trim (Req.email bk);
                    phone := option_map Js.trim (Req.phone bk) |};
     status := booked |}.

Definition pushBooking (b : IBooking) (s : ISeat) : ISeat :=
  {| seatId := seatId s;
     row := row s;
     column := column s;
     price := price s;
     eventId := eventId s;
     bookings := bookings s ++ [b] |}.

(** [emailToSeats], an object keyed by e-mail address whose entries are
    enumerated in insertion order. *)
Definition EmailToSeats : Type := list (string * (string * list string)).

Fixpoint recordSeat (mail nm sid : string) (m : EmailToSeats) : EmailToSeats :=
  match m with
  | [] => [(mail, (nm, [sid]))]
  | (k, (n, ids)) :: m' =>
      if String.eqb k mail then (k, (n, ids ++ [sid])) :: m'
      else (k, (n, ids)) :: recordSeat mail nm sid m'
  end.

(** The loop [for (const seat of seats)] that looks for a booking already
    held on the event's date. *)
Fixpoint checkAvailable (d : string) (seats : list ISeat) : Throws unit :=
  match seats with
  | [] => ret tt
  | s :: seats' =>
      match bookingOn d s with
      | Some _ =>
          throw ("Seat " ++ seatId s ++ " is already booked for this date")
      | None => checkAvailable d seats'
      end
  end.

(** One turn of the loop [for (const booking of bookings)] over the loaded
    documents and [emailToSeats]. *)
Definition applyBooking (st : list ISeat * EmailToSeats) (bk : Req.Booking)
  : list ISeat * EmailToSeats :=
  let sameId := fun s => String.eqb (seatId s) (Req.seatId bk) in
  match Js.find sameId (fst st) with
  | Some _ =>
      (updateFirst sameId (pushBooking (castBooking bk)) (fst st),
       recordSeat (Req.email bk) (Req.name bk) (Req.seatId bk) (snd st))
  | None => st
  end.

(** Schema validation run by [save]: the [required] string paths. A
    failure rejects with Mongoose's validation error, whose message begins
    "Seat validation failed" and goes on to name the path. *)
Definition validBooking (b : IBooking) : bool :=
  Js.truthy (date b) && Js.truthy (name (bookedBy b))
  && Js.truthy (email (bookedBy b)).

Definition validSeat (s : ISeat) : bool :=
  Js.truthy (seatId s) && Js.truthy (row s) && Js.truthy (eventId s)
  && forallb validBooking (bookings s).

(** What the transaction has done when [commitTransaction] returns. *)
Record Committed : Type := mkCommitted
  { savedSeats : list ISeat;       (* the Seat collection after the commit *)
    bookedDocs : list ISeat;       (* the documents [seats] *)
    emailToSeats : EmailToSeats;
    bookedDate : string }.         (* [event.date] *)

(** The body of the [try] block up to and including
    [session.commitTransaction()]. *)
Definition bookTransaction (env : Env) (db : DB) (b : Req.Book) (user : IUser)
  : Throws Committed :=
  match findById (Req.eventId b) (Events db) with
  | None => throw "No event found for this eventId"
  | Some event =>
      throwIf (existsb (fun bk => negb (String.eqb (Req.bookingDate bk)
                                                   (eventDate event)))
                       (Req.bookings b))
              "All booking dates must match event date" ;;;
      throwIf (registrationClosed event && negb (isAdmin user))
              "Registration for this event is closed" ;;;
      let seatIds := map Req.seatId (Req.bookings b) in
      throwIf (negb (Js.setSize seatIds =? List.length seatIds))
              "Duplicate seatIds provided" ;;;
      let q := inBatch seatIds (_id event) in
      let seats := filter q (Seats db) in
      throwIf (negb (List.length seats =? List.length seatIds))
              ("Seats not found: "
               ++ Js.join ", "
                    (filter (fun id => negb (Js.mem id (map seatId seats)))
                            seatIds)) ;;;
      checkAvailable (eventDate event) seats ;;;
      let st := fold_left applyBooking (Req.bookings b) (seats, []) in
      throwIf (negb (forallb validSeat (fst st)))
              ("Seat validation failed" ++ seatValidationDetail env (fst st)) ;;;
      ret {| savedSeats := saveAll q (Seats db) (fst st);
             bookedDocs := fst st;
             emailToSeats := snd st;
             bookedDate := eventDate event |}
  end.

(** The loop over [Object.entries(emailToSeats)] after the commit. *)
Fixpoint notifyAll (env : Env) (db : DB) (m : EmailToSeats) (d : string)
  : Throws unit :=
  match m with
  | [] => ret tt
  | (mail, (nm, ids)) :: m' =>
      sendBookingConfirmation env db mail ids nm d ;;;
      notifyAll env db m' d
  end.

(** The status chosen in the [catch] block from the error message. *)
Definition bookErrorStatus (msg : string) : nat :=
  if Js.includes msg "already booked"
     || Js.includes msg "not found"
     || Js.includes msg "Registration closed"
     || Js.includes msg "Duplicate seatIds"
  then 400 else 500.

Definition bookErrorResponse (msg : string) : Response :=
  jsonError (bookErrorStatus msg)
            (if Js.truthy msg then msg else "Failed to book seats").

(** The first field test of the loop over [bookings]. *)
Definition missingFields (bk : Req.Booking) : bool :=
  negb (Js.truthy (Req.seatId bk)) || negb (Js.truthy (Req.name bk))
  || negb (Js.truthy (Req.email bk)) || negb (Js.truthy (Req.bookingDate bk)).

(** The loop over [bookings] ahead of the transaction. *)
Fixpoint checkFields (bks : list Req.Booking) : option Response :=
  match bks with
  | [] => None
  | bk :: bks' =>
      if missingFields bk then
        Some (jsonError 400
                ("seatId, name, email, and bookingDate are required for seat "
                 ++ (if Js.truthy (Req.seatId bk) then Req.seatId bk
                     else "unknown")))
      else if negb (Js.test seatIdRe (Req.seatId bk)) then
        Some (jsonError 400 ("Invalid seatId format: " ++ Req.seatId bk))
      else checkFields bks'
  end.

(** The requests the handler turns away before it opens a transaction. *)
Definition bookPrecheck (env : Env) (today : string) (b : Req.Book)
  : option Response :=
  if match Req.bookings b with [] => true | _ => false end
     || negb (Js.truthy (Req.eventId b))
  then Some (jsonError 400 "bookings array and eventId are required")
  else if negb (isValidObjectId env (Req.eventId b))
  then Some (jsonError 400 "Invalid eventId")
  else
    match checkFields (Req.bookings b) with
    | Some r => Some r
    | None =>
        if existsb (fun bk => String.eqb (Req.bookingDate bk) today)
                   (Req.bookings b)
        then Some (jsonError 400 "Cannot book seats for the current date")
        else None
    end.

(** The handler of the route. *)
Definition bookHandler (env : Env) (today : string) (db : DB) (b : Req.Book)
           (user : IUser) : DB * option Response :=
  match bookPrecheck env today b with
  | Some r => (db, Some r)
  | None =>
      match bookTransaction env db b user with
      | inl msg =>
          (* abortTransaction discards the session's writes *)
          (db, Some (bookErrorResponse msg))
      | inr c =>
          let db' := {| Events := Events db; Seats := savedSeats c |} in
          match notifyAll env db' (emailToSeats c) (bookedDate c) with
          | inr _ =>
              (db', Some {| statusCode := 200;
                            body := BookedBody "Seats booked successfully"
                                               (bookedDocs c) |})
          | inl msg =>
              (* the catch block runs on a committed transaction *)
              (db', if abortAfterCommitRejects env then None
                    else Some (bookErrorResponse msg))
          end
      end
  end.

(** [validateDateFormat], [validateEmail] and [validatePhone] in the order
    the route lists them. *)
Definition bookMiddleware (b : Req.Book) : option Response :=
  match validateDateFormatPost b with
  | Some r => Some r
  | None =>
      match validateEmail b with
      | Some r => Some r
      | None => validatePhone b
      end
  end.

(** The route: the validation middleware, then the handler. *)
Definition book (env : Env) (today : string) (db : DB) (b : Req.Book)
           (user : IUser) : DB * option Response :=
  match bookMiddleware b with
  | Some r => (db, Some r)
  | None => bookHandler env today db b user
  end.

(** ** Closing registration, [POST /api/events/:id/end-registration] *)

(** A row of the roster handed to the notifier. *)
Record Roster : Type := mkRoster
  { rosterSeatId : string;
    rosterName : string;
    rosterEmail : string;
    rosterPhone : string }.

(** The bookings of the event's date over the seats [seats]. *)
Definition rosterOf (d : string) (seats : list ISeat) : list Roster :=
  flat_map
    (fun s =>
       map (fun b => {| rosterSeatId := seatId s;
                        rosterName := name (bookedBy b);
                        rosterEmail := email (bookedBy b);
                        rosterPhone := match phone (bookedBy b) with
                                       | Some p => if Js.truthy p then p else "N/A"
                                       | None => "N/A"
                                       end |})
           (filter (fun b => String.eqb (date b) d) (bookings s)))
    (filter (fun s => negb (List.length (bookings s) =? 0)) seats).

Definition closeEvent (e : IEvent) : IEvent :=
  {| _id := _id e;
     eventDate := eventDate e;
     totalSeats := totalSeats e;
     registrationClosed := true |}.

(** The handler of the route (the requester has passed [restrictToAdmin]).
    Every mail it sends sits in a [try] whose [catch] only logs, so the
    mails decide neither the stored state nor the answer. *)
Definition closeRegistration (env : Env) (db : DB) (id : string)
  : DB * option Response :=
  if negb (isValidObjectId env id)
  then (db, Some (jsonError 400 "Invalid event ID"))
  else
    match findById id (Events db) with
    | None => (db, Some (jsonError 404 "Event not found"))
    | Some event =>
        if registrationClosed event
        then (db, Some (jsonError 400 "Registration is already closed"))
        else
          let roster := rosterOf (eventDate event) (filter (ofEvent id) (Seats db)) in
          let db' :=
            {| Events := updateFirst
                           (fun e => String.eqb (_id e) (castObjectId id))
                           closeEvent (Events db);
               Seats := Seats db |} in
          let _ := map (fun r => sendBookingConfirmation env db' (rosterEmail r)
                                   [rosterSeatId r] (rosterName r)
                                   (eventDate event))
                       roster in
          (db', Some {| statusCode := 200;
                        body := MessageBody "Registration closed successfully" |})
    end.

(** ** Seat administration, [POST /api/seats/initialize] *)

(** The handler of the route (the requester has passed [restrictToAdmin];
    [total] is the integer of the body, [0] standing for a value that fails
    [totalSeats < 1]). *)
Definition initializeRoute (env : Env) (db : DB) (eid : string) (total : nat)
  : DB * option Response :=
  if negb (isValidObjectId env eid) || (total <? 1)
  then (db, Some (jsonError 400
                    "Valid eventId and positive integer totalSeats are required"))
  else
    match findById eid (Events db) with
    | None => (db, Some (jsonError 404 "Event not found"))
    | Some _ =>
        ({| Events := Events db;
            Seats := initializeSeats eid total (Seats db) |},
         Some {| statusCode := 201;
                 body := MessageBody "Seats initialized successfully" |})
    end.

(** ** Seat listing, [GET /api/seats] and [GET /api/seats/by-ids] *)

(** The mapping applied to every listed seat. *)
Definition withStatus (d : string) (s : ISeat) : SeatWithStatus :=
  let booking := bookingOn d s in
  {| seat := s;
     seatStatus := match booking with Some _ => "booked" | None => "available" end;
     seatBookedBy := match booking with Some b => Some (bookedBy b) | None => None end |}.

Definition getSeats (today : string) (db : DB) (d : string)
  : DB * option Response :=
  match validateDateFormatGet d with
  | Some r => (db, Some r)
  | None =>
      if negb (Js.truthy d)
      then (db, Some (jsonError 400 "Date is required"))
      else if String.eqb d today
      then (db, Some (jsonError 400 "Cannot book seats for the current date"))
      else
        match findOneByDate d (Events db) with
        | None => (db, Some (jsonError 400 "No event scheduled for this date"))
        | Some event =>
            let seats := filter (ofEvent (_id event)) (Seats db) in
            let db' :=
              if List.length seats <? totalSeats event
              then {| Events := Events db;
                      Seats := initializeSeats (_id event) (totalSeats event)
                                               (Seats db) |}
              else db in
            let seats' := filter (ofEvent (_id event)) (Seats db') in
            (db', Some {| statusCode := 200;
                          body := SeatsBody (map (withStatus d) seats') |})
        end
  end.

(** [s.split(",")] *)
Fixpoint splitComma (s : string) : list string :=
  match s with
  | EmptyString => [EmptyString]
  | String c s' =>
      if Ascii.eqb c "," then EmptyString :: splitComma s'
      else match splitComma s' with
           | hd :: tl => String c hd :: tl
           | [] => [String c EmptyString]
           end
  end.

Definition getSeatsByIds (today : string) (db : DB) (ids : Req.SeatIds)
           (d : string) : DB * option Response :=
  match validateDateFormatGet d with
  | Some r => (db, Some r)
  | None =>
      let missing :=
        match ids with
        | Req.Missing => true
        | Req.Many _ => false
        | Req.One s => negb (Js.truthy s)
        end in
      if missing || negb (Js.truthy d)
      then (db, Some (jsonError 400 "seatIds and date are required"))
      else
        let seatIdArray :=
          match ids with
          | Req.Missing => []
          | Req.Many l => l
          | Req.One s => splitComma s
          end in
        if negb (forallb (Js.test seatIdRe) seatIdArray)
        then (db, Some (jsonError 400 ("Invalid seatId format in: "
                                       ++ Js.join ", " seatIdArray)))
        else if String.eqb d today
        then (db, Some (jsonError 400 "Cannot fetch seats for the current date"))
        else
          match findOneByDate d (Events db) with
          | None => (db, Some (jsonError 400 ("No event found for date: " ++ d)))
          | Some event =>
              let seats := filter (inBatch seatIdArray (_id event)) (Seats db) in
              if (List.length seats =? 0)
                 || negb (List.length seats =? List.length seatIdArray)
              then (db, Some (jsonError 404
                                ("Not all seats found for seatIds: "
                                 ++ Js.join ", " seatIdArray
                                 ++ " and date: " ++ d)))
              else (db, Some {| statusCode := 200;
                                body := SeatsBody (map (withStatus d) seats) |})
          end
  end.

(** ** Exposed operations and runs *)

Inductive Call : Type :=
| Book (today : string) (b : Req.Book) (user : IUser)
| CloseRegistration (id : string)
| InitializeSeats (eid : string) (total : nat)
| GetSeats (today : string) (d : string)
| GetSeatsByIds (today : string) (ids : Req.SeatIds) (d : string).

Definition call (env : Env) (db : DB) (c : Call) : DB * option Response :=
  match c with
  | Book today b user => book env today db b user
  | CloseRegistration id => closeRegistration env db id
  | InitializeSeats eid total => initializeRoute env db eid total
  | GetSeats today d => getSeats today db d
  | GetSeatsByIds today ids d => getSeatsByIds today db ids d
  end.

(** The database after a sequence of calls. *)
Definition run (env : Env) (db : DB) (cs : list Call) : DB :=
  fold_left (fun db c => fst (call env db c)) cs db.

(** ** Predicates of the properties *)

(** The double-booking guard: no seat holds two entries of one date. *)
Definition ledgerUnique (seats : list ISeat) : Prop :=
  forall s, In s seats -> NoDup (map date (bookings s)).

(** A call that answered with an error. *)
Definition failed (r : option Response) : Prop :=
  exists code msg, r = Some (jsonError code msg) /\ 400 <= code.

(** A call that answered [200] with the booked seats. *)
Definition succeeded (r : option Response) : Prop :=
  exists docs,
    r = Some {| statusCode := 200;
                body := BookedBody "Seats booked successfully" docs |}.

(** The seat [(eid, sid)] holds an entry dated [d]. *)
Definition bookedOn (eid sid d : string) (seats : list ISeat) : Prop :=
  exists s, In s seats /\ eventId s = eid /\ seatId s = sid
            /\ In d (map date (bookings s)).

(** The batch asks for seat [sid] on date [d]. *)
Definition requests (b : Req.Book) (sid d : string) : Prop :=
  exists bk, In bk (Req.bookings b) /\ Req.seatId bk = sid
             /\ Req.bookingDate bk = d.

(** The entries a committed batch adds to the seat [sid]. *)
Definition entriesFor (sid : string) (bks : list Req.Booking) : list IBooking :=
  map castBooking (filter (fun bk => String.eqb sid (Req.seatId bk)) bks).

(** A seat with the entries of the batch appended to its ledger. *)
Definition bookInto (bks : list Req.Booking) (s : ISeat) : ISeat :=
  {| seatId := seatId s;
     row := row s;
     column := column s;
     price := price s;
     eventId := eventId s;
     bookings := bookings s ++ entriesFor (seatId s) bks |}.

(** What one turn of the booking loop does to a loaded document. *)
Definition stepDoc (bk : Req.Booking) (s : ISeat) : ISeat :=
  if String.eqb (seatId s) (Req.seatId bk)
  then pushBooking (castBooking bk) s else s.

(** The seats a batch refers to: those of the event its [eventId]
    names. *)
Definition referenced (b : Req.Book) (s : ISeat) : bool :=
  inBatch (map Req.seatId (Req.bookings b)) (castObjectId (Req.eventId b)) s.

(** The routes that may run the seat initializer. *)
Definition callsInitializer (c : Call) : bool :=
  match c with
  | InitializeSeats _ _ | GetSeats _ _ => true
  | _ => false
  end.

(** The stored seats respect the unique index and the double-booking
    guard. *)
Definition wellFormed (db : DB) : Prop :=
  uniqueIndex (Seats db) /\ ledgerUnique (Seats db).

(** The event the identifier [id] names with its registration flag set
    to [flag], every other field and every other event as before. *)
Definition setRegistration (flag : bool) (id : string) (e : IEvent) : IEvent :=
  if String.eqb (_id e) (castObjectId id)
  then {| _id := _id e;
          eventDate := eventDate e;
          totalSeats := totalSeats e;
          registrationClosed := flag |}
  else e.

Definition withRegistration (flag : bool) (id : string) (db : DB) : DB :=
  {| Events := map (setRegistration flag id) (Events db);
     Seats := Seats db |}.

(** ** Sample data for the concrete runs *)

(** A 24-digit hexadecimal string, the usual textual ObjectId. *)
Definition isHex24 (s : string) : bool :=
  (String.length s =? 24)
  && forallb (Js.orC (Js.range "0" "9") (Js.orC (Js.range "a" "f") (Js.range "A" "F")))
             (list_ascii_of_string s).

Definition mkEnvWith (mail : MailOptions -> option string) (rejects : bool) : Env :=
  {| isValidObjectId := isHex24;
     sendMail := mail;
     abortAfterCommitRejects := rejects;
     seatValidationDetail :=
       fun _ => ": bookings.0.bookedBy.name: Path `bookedBy.name` is required." |}.

(** A transport that accepts every mail. *)
Definition sampleEnv : Env := mkEnvWith (fun _ => None) true.

Definition eventJune : IEvent :=
  {| _id := "64b7f3a2c1d4e5f6a7b8c9d0";
     eventDate := "2025-06-01";
     totalSeats := 15;
     registrationClosed := false |}.

Definition eventJuly : IEvent :=
  {| _id := "64b7f3a2c1d4e5f6a7b8c9d1";
     eventDate := "2025-07-01";
     totalSeats := 15;
     registrationClosed := false |}.

(** The database as the creation of [eventJune] leaves it. *)
Definition dbJune : DB :=
  {| Events := [eventJune];
     Seats := initializeSeats (_id eventJune) (totalSeats eventJune) [] |}.

(** The same event after its registration was closed. *)
Definition dbJuneClosed : DB :=
  {| Events := [closeEvent eventJune];
     Seats := Seats dbJune |}.

(** Two events, each with its own seats A1..B5. *)
Definition dbTwoEvents : DB :=
  {| Events := [eventJune; eventJuly];
     Seats := initializeSeats (_id eventJuly) (totalSeats eventJuly)
                (initializeSeats (_id eventJune) (totalSeats eventJune) []) |}.

(** An event whose capacity exceeds the 260 seats the generator can
    emit, as its creation leaves it. *)
Definition eventLarge : IEvent :=
  {| _id := "64b7f3a2c1d4e5f6a7b8c9d2";
     eventDate := "2025-08-01";
     totalSeats := 261;
     registrationClosed := false |}.

Definition dbLarge : DB :=
  {| Events := [eventLarge];
     Seats := initializeSeats (_id eventLarge) (totalSeats eventLarge) [] |}.

Definition request (nm d sid : string) : Req.Booking :=
  {| Req.seatId := sid;
     Req.name := nm;
     Req.email := "a@x.com";
     Req.phone := None;
     Req.bookingDate := d |}.

Definition batch (e : IEvent) (nm : string) (sids : list string) : Req.Book :=
  {| Req.bookings := map (request nm (eventDate e)) sids;
     Req.eventId := _id e |}.

Definition admin : IUser := {| isAdmin := true |}.
Definition member : IUser := {| isAdmin := false |}.

(** The string of the given UTF-8 bytes. *)
Definition utf8 (bytes : list nat) : string :=
  string_of_list_ascii (map ascii_of_nat bytes).

(** U+00A0 NO-BREAK SPACE, U+FEFF BYTE ORDER MARK, U+2028 LINE SEPARATOR
    and U+200B ZERO WIDTH SPACE, which is no white space. *)
Definition nbsp : string := utf8 [194; 160].
Definition bom : string := utf8 [239; 187; 191].
Definition lineSeparator : string := utf8 [226; 128; 168].
Definition zeroWidthSpace : string := utf8 [226; 128; 139].

(** * The event registry routes *)

(** An unanchored side of a pattern: any characters. *)
Definition anyChars : Js.Re := Js.Star (Js.Cls (fun _ => true)).

(** [/^[0-1]?[0-9]|2[0-3]:[0-5][0-9]$/]: the alternation splits the pattern
    into a left side anchored at the start only and a right side anchored
    at the end only. *)
Definition timeRe : Js.Re :=
  Js.Alt
    (Js.Cat (Js.Cat (Js.opt (Js.Cls (Js.range "0" "1"))) Js.digit) anyChars)
    (Js.Cat anyChars
       (Js.Cat (Js.lit "2")
          (Js.Cat (Js.Cls (Js.range "0" "3"))
             (Js.Cat (Js.lit ":")
                (Js.Cat (Js.Cls (Js.range "0" "5")) Js.digit))))).

Module ReqEvent.
(** [req.body] of [POST /api/events]; [totalSeats] is the integer of the
    body, [0] standing also for a missing one. *)
Record Create : Type := mkCreate
  { name : string;
    date : string;
    time : string;
    description : string;
    venue : string;
    password : string;
    totalSeats : Z }.
End ReqEvent.

Inductive EventBody : Type :=
| EventError (error : string)
| EventMessage (message : string)
| EventCreated (message : string) (event : IEvent)
| EventOne (event : IEvent)
| EventList (events : list IEvent)
| BookingRows (rows : list Roster).

Record EventResponse : Type := mkEventResponse
  { eventStatus : nat;
    eventBody : EventBody }.

Definition eventError (code : nat) (msg : string) : EventResponse :=
  {| eventStatus := code; eventBody := EventError msg |}.

(** [restrictToAdmin] *)
Definition restrictToAdmin (user : IUser) : option EventResponse :=
  if negb (isAdmin user)
  then Some (eventError 403 "Forbidden: Admin access required")
  else None.

(** [validateDateFormat] on a [POST] whose body carries [date]. *)
Definition validateDateFormatBody (d : string) : option EventResponse :=
  if Js.truthy d && negb (Js.test dateRe d)
  then Some (eventError 400 "Invalid date format. Use YYYY-MM-DD")
  else None.

(** The checks of the creation handler ahead of its transaction;
    [adminPassword] is [process.env.ADMIN_PASSWORD]. *)
Definition createEventCheck (adminPassword today : string) (events : list IEvent)
           (b : ReqEvent.Create) : option EventResponse :=
  if negb (Js.truthy (ReqEvent.name b)) || negb (Js.truthy (ReqEvent.date b))
     || negb (Js.truthy (ReqEvent.time b))
     || negb (Js.truthy (ReqEvent.description b))
     || negb (Js.truthy (ReqEvent.venue b))
     || negb (Js.truthy (ReqEvent.password b))
     || (ReqEvent.totalSeats b =? 0)%Z
  then Some (eventError 400 "All fields are required")
  else if negb (Js.test timeRe (ReqEvent.time b))
  then Some (eventError 400 "Invalid time format. Use HH:MM")
  else if (ReqEvent.totalSeats b <? 1)%Z
  then Some (eventError 400 "Total seats must be a positive integer")
  else if negb (String.eqb (ReqEvent.password b) adminPassword)
  then Some (eventError 401 "Invalid password")
  else
    match findOneByDate (ReqEvent.date b) events with
    | Some _ => Some (eventError 400 "An event already exists for this date")
    | None =>
        if String.eqb (ReqEvent.date b) today
        then Some (eventError 400 "Cannot create event for the current date")
        else None
    end.

(** [new Event({...})] with the identifier MongoDB assigns. *)
Definition newEvent (newId : string) (b : ReqEvent.Create) : IEvent :=
  {| _id := newId;
     eventDate := ReqEvent.date b;
     totalSeats := Z.to_nat (ReqEvent.totalSeats b);
     registrationClosed := false |}.

(** [event.save()]: the schema trims [name], [description] and [venue]
    and requires them, and the index on [date] is unique. *)
Definition saveNewEvent (b : ReqEvent.Create) (e : IEvent)
           (events : list IEvent) : Throws (list IEvent) :=
  throwIf (negb (Js.truthy (Js.trim (ReqEvent.name b))
                 && Js.truthy (Js.trim (ReqEvent.description b))
                 && Js.truthy (Js.trim (ReqEvent.venue b))))
          "Event validation failed" ;;;
  throwIf (existsb (fun e' => String.eqb (eventDate e') (eventDate e)) events)
          "E11000 duplicate key error" ;;;
  ret (events ++ [e]).

(** The route [POST /api/events]. *)
Definition createEvent (adminPassword today newId : string) (db : DB)
           (user : IUser) (b : ReqEvent.Create) : DB * option EventResponse :=
  match restrictToAdmin user with
  | Some r => (db, Some r)
  | None =>
      match validateDateFormatBody (ReqEvent.date b) with
      | Some r => (db, Some r)
      | None =>
          match createEventCheck adminPassword today (Events db) b with
          | Some r => (db, Some r)
          | None =>
              let event := newEvent newId b in
              match saveNewEvent b event (Events db) with
              | inl _ =>
                  (* abortTransaction, then the outer catch *)
                  (db, Some (eventError 500 "Failed to create event"))
              | inr events' =>
                  ({| Events := events';
                      Seats := initializeSeats (_id event) (totalSeats event)
                                               (Seats db) |},
                   Some {| eventStatus := 201;
                           eventBody := EventCreated "Event created successfully"
                                                     event |})
              end
          end
      end
  end.

(** Remove the first element satisfying [p], as [findByIdAndDelete] does
    with the document it finds. *)
Fixpoint removeFirst {A} (p : A -> bool) (l : list A) : list A :=
  match l with
  | [] => []
  | x :: l' => if p x then l' else x :: removeFirst p l'
  end.

(** The filter [{ eventId: id, bookings: { $ne: [] } }] *)
Definition bookedSeatOf (id : string) (s : ISeat) : bool :=
  ofEvent id s && negb (List.length (bookings s) =? 0).

(** The route [DELETE /api/events/:id]. *)
Definition deleteEvent (env : Env) (adminPassword : string) (db : DB)
           (user : IUser) (id password : string) : DB * option EventResponse :=
  match restrictToAdmin user with
  | Some r => (db, Some r)
  | None =>
      if negb (isValidObjectId env id)
      then (db, Some (eventError 400 "Invalid event ID"))
      else if negb (Js.truthy password)
      then (db, Some (eventError 400 "Password is required"))
      else if negb (String.eqb password adminPassword)
      then (db, Some (eventError 401 "Invalid password"))
      else
        match findById id (Events db) with
        | None => (db, Some (eventError 404 "Event not found"))
        | Some _ =>
            match filter (bookedSeatOf id) (Seats db) with
            | _ :: _ =>
                (db, Some (eventError 400
                             "Cannot delete event with existing bookings"))
            | [] =>
                ({| Events := removeFirst
                                (fun e => String.eqb (_id e) (castObjectId id))
                                (Events db);
                    Seats := filter (fun s => negb (ofEvent id s)) (Seats db) |},
                 Some {| eventStatus := 200;
                         eventBody :=
                           EventMessage
                             "Event and associated seats deleted successfully" |})
            end
        end
  end.

(** [.sort({ date: 1 })]: ascending by the binary order of strings. *)
Fixpoint insertByDate (e : IEvent) (l : list IEvent) : list IEvent :=
  match l with
  | [] => [e]
  | x :: l' =>
      if String.leb (eventDate e) (eventDate x) then e :: l
      else x :: insertByDate e l'
  end.

Definition sortByDate (l : list IEvent) : list IEvent :=
  fold_right insertByDate [] l.

(** The filter [{ date: { $gte: today, $ne: today }, registrationClosed:
    false }] *)
Definition upcoming (today : string) (e : IEvent) : bool :=
  String.leb today (eventDate e) && negb (String.eqb (eventDate e) today)
  && Bool.eqb (registrationClosed e) false.

(** The filter [{ $or: [{ date: { $lt: today } }, { registrationClosed:
    true }] }] *)
Definition past (today : string) (e : IEvent) : bool :=
  String.ltb (eventDate e) today || Bool.eqb (registrationClosed e) true.

(** The route [GET /api/events]. *)
Definition listUpcoming (today : string) (db : DB) : EventResponse :=
  {| eventStatus := 200;
     eventBody := EventList (sortByDate (filter (upcoming today) (Events db))) |}.

(** The route [GET /api/events/past]; [.sort({ date: -1 })] is the
    ascending order reversed. *)
Definition listPast (today : string) (db : DB) (user : IUser) : EventResponse :=
  match restrictToAdmin user with
  | Some r => r
  | None =>
      {| eventStatus := 200;
         eventBody := EventList (rev (sortByDate (filter (past today) (Events db)))) |}
  end.

(** The route [GET /api/events/:id]. *)
Definition getEvent (env : Env) (today : string) (db : DB) (id : string)
  : EventResponse :=
  if negb (isValidObjectId env id)
  then eventError 400 "Invalid event ID"
  else
    match findById id (Events db) with
    | None => eventError 404 "Event not found"
    | Some event =>
        if String.eqb (eventDate event) today
        then eventError 400 "Cannot access event scheduled for today"
        else {| eventStatus := 200; eventBody := EventOne event |}
    end.

(** The route [GET /api/events/:id/bookings]. *)
Definition getEventBookings (env : Env) (db : DB) (user : IUser) (id : string)
  : EventResponse :=
  match restrictToAdmin user with
  | Some r => r
  | None =>
      if negb (isValidObjectId env id)
      then eventError 400 "Invalid event ID"
      else
        match findById id (Events db) with
        | None => eventError 404 "Event not found"
        | Some event =>
            {| eventStatus := 200;
               eventBody := BookingRows
                              (rosterOf (eventDate event)
                                        (filter (ofEvent id) (Seats db))) |}
        end
  end.

(** Every state-changing operation: the calls above, event creation and
    event deletion. *)
Inductive Op : Type :=
| Core (c : Call)
| CreateEvent (today newId : string) (user : IUser) (b : ReqEvent.Create)
| DeleteEvent (user : IUser) (id password : string).

Definition step (env : Env) (adminPassword : string) (db : DB) (o : Op) : DB :=
  match o with
  | Core c => fst (call env db c)
  | CreateEvent today newId user b =>
      fst (createEvent adminPassword today newId db user b)
  | DeleteEvent user id password =>
      fst (deleteEvent env adminPassword db user id password)
  end.

Definition runOps (env : Env) (adminPassword : string) (db : DB)
           (os : list Op) : DB :=
  fold_left (step env adminPassword) os db.

(** An event listing shows the event [e]. *)
Definition listed (r : EventResponse) (e : IEvent) : Prop :=
  match eventBody r with
  | EventList l => In e l
  | _ => False
  end.

(** Every event keeps as many seats as its capacity, which the generator
    can supply. *)
Definition seatsCover (db : DB) : Prop :=
  forall e, In e (Events db) ->
            totalSeats e <= 260
            /\ totalSeats e <= List.length (filter (ofEvent (_id e)) (Seats db)).

(** Event identifiers are ObjectIds. *)
Definition idsCast (db : DB) : Prop :=
  forall e, In e (Events db) -> objectIdString (_id e) = true.

(** The stored state is well formed, event identifiers are distinct
    ObjectIds, and the seats cover the capacities. *)
Definition registryOk (db : DB) : Prop :=
  wellFormed db /\ NoDup (map _id (Events db)) /\ seatsCover db /\ idsCast db.

(** What the callers owe: a creation stays within the 260 seats the
    generator can emit and comes with an ObjectId no stored event has. *)
Definition opOk (db : DB) (o : Op) : Prop :=
  match o with
  | CreateEvent _ newId _ b =>
      (ReqEvent.totalSeats b <= 260)%Z /\ ~ In newId (map _id (Events db))
      /\ objectIdString newId = true
  | _ => True
  end.

Fixpoint runOk (env : Env) (adminPassword : string) (db : DB) (os : list Op)
  : Prop :=
  match os with
  | [] => True
  | o :: os' => opOk db o /\ runOk env adminPassword (step env adminPassword db o) os'
  end.

(** The admin's explicit seat initialisation. *)
Definition reinitializes (o : Op) : bool :=
  match o with
  | Core (InitializeSeats _ _) => true
  | _ => false
  end.

(** An event creation to which the database gives the identifier [eid]. *)
Definition createsAs (eid : string) (o : Op) : bool :=
  match o with
  | CreateEvent _ newId _ _ => String.eqb newId eid
  | _ => false
  end.

(** The row the booking listing shows for a booking request once it is
    stored. *)
Definition rosterRow (bk : Req.Booking) : Roster :=
  {| rosterSeatId := Req.seatId bk;
     rosterName := Js.trim (Req.name bk);
     rosterEmail := Js.trim (Req.email bk);
     rosterPhone := match Req.phone bk with
                    | Some p => if Js.truthy (Js.trim p) then Js.trim p else "N/A"
                    | None => "N/A"
                    end |}.

(** The shape the seatId pattern describes: a capital letter, a digit
    from 1 to 9 and at most one more digit. *)
Definition seatIdShape (s : string) : bool :=
  match s with
  | String a (String b EmptyString) =>
      Js.range "A" "Z" a && Js.range "1" "9" b
  | String a (String b (String c EmptyString)) =>
      Js.range "A" "Z" a && Js.range "1" "9" b && Js.range "0" "9" c
  | _ => false
  end.

(** A pattern that matches nothing. *)
Fixpoint isVoid (r : Js.Re) : bool :=
  match r with
  | Js.Void => true
  | Js.Cat r s => isVoid r || isVoid s
  | Js.Alt r s => isVoid r && isVoid s
  | _ => false
  end.

(** The strings a pattern denotes. *)
Inductive Matches : Js.Re -> string -> Prop :=
| MEps : Matches Js.Eps EmptyString
| MCls p c : p c = true -> Matches (Js.Cls p) (String c EmptyString)
| MCat r s u v : Matches r u -> Matches s v -> Matches (Js.Cat r s) (u ++ v)
| MAltL r s u : Matches r u -> Matches (Js.Alt r s) u
| MAltR r s u : Matches s u -> Matches (Js.Alt r s) u
| MStar0 r : Matches (Js.Star r) EmptyString
| MStarS r u v : Matches r u -> Matches (Js.Star r) v ->
                 Matches (Js.Star r) (u ++ v).

(** The string ends with a character of the class [p]. *)
Definition endsIn (p : ascii -> bool) (w : string) : Prop :=
  exists u c, w = (u ++ String c EmptyString)%string /\ p c = true.

(** The string starts with a character of the class [p]. *)
Definition startsIn (p : ascii -> bool) (w : string) : Prop :=
  exists c v, w = String c v /\ p c = true.

(** An ASCII byte that is no white space: no white-space character
    starts or ends with it. *)
Definition plainByte (c : ascii) : bool :=
  (nat_of_ascii c <? 128) && negb (Js.isSpace c).

Definition letterC : ascii -> bool :=
  Js.orC (Js.range "a" "z") (Js.range "A" "Z").
Definition localC : ascii -> bool :=
  Js.orC (Js.orC letterC (Js.range "0" "9")) (Js.oneOf "._%+-").
Definition phoneStartC : ascii -> bool :=
  Js.orC (Ascii.eqb "+") (Js.range "0" "9").

Ltac by_ascii_cases c :=
  destruct c as [[] [] [] [] [] [] [] []]; vm_compute;
  let H := fresh in intros H; first [reflexivity | discriminate H].

(** The seatIds a batch names under the address [mail], in batch order. *)
Definition seatsFor (mail : string) (bks : list Req.Booking) : list string :=
  map Req.seatId (filter (fun bk => String.eqb (Req.email bk) mail) bks).

(** The name of the first request of the batch under the address [mail]. *)
Definition nameFor (mail : string) (bks : list Req.Booking) : string :=
  match Js.find (fun bk => String.eqb (Req.email bk) mail) bks with
  | Some bk => Req.name bk
  | None => EmptyString
  end.

(** The price the confirmation adds up over the seats it finds. *)
Definition priceOf (seats : list ISeat) : nat :=
  fold_left (fun sum s => sum + (if price s =? 0 then 200 else price s)) seats 0.

(** The loop over the batch as it fills [emailToSeats] when every request
    finds its document. *)
Definition recordAll (bks : list Req.Booking) (m : EmailToSeats) : EmailToSeats :=
  fold_left (fun m bk => recordSeat (Req.email bk) (Req.name bk) (Req.seatId bk) m)
            bks m.

(** [emailToSeats] groups the first requests of a batch. *)
Definition groups (m : EmailToSeats) (bks : list Req.Booking) : Prop :=
  NoDup (map fst m)
  /\ (forall mail, In mail (map fst m) <-> In mail (map Req.email bks))
  /\ (forall mail nm ids, In (mail, (nm, ids)) m ->
                          nm = nameFor mail bks /\ ids = seatsFor mail bks).

(** * Accounts *)

(** The account routes read their fields from the request body; a field
    is a string, empty when it is missing. An address reaches a query
    only after it passed [validateEmail], whose pattern allows no white
    space around it, so the address of a query and the trimmed address of
    a stored document are compared as they are. Times are in
    milliseconds. *)

(** A stored [User] document; [createdAt] is never consulted. *)
Module Account.
Record t : Type := mk
  { _id : string;
    name : string;
    email : string;
    password : string;
    isVerified : bool;
    isAdmin : bool }.
End Account.

(** The literal type ["register" | "reset-password"] of [IOtp.type]. *)
Inductive OtpType : Type := ForRegister | ForResetPassword.

(** A stored [Otp] document; [expiresAt] in milliseconds. *)
Module Otp.
Record t : Type := mk
  { email : string;
    otp : string;
    expiresAt : Z;
    type : OtpType }.
End Otp.

(** The User and the Otp collections. *)
Record Accounts : Type := mkAccounts
  { Users : list Account.t;
    Otps : list Otp.t }.

(** The libraries the account routes call: [bcrypt.hash] with the salt it
    draws, [bcrypt.compare], [jwt.sign] and [jwt.verify] at a time (an
    error message or the [userId] of the payload), the outcome of the
    transport's [sendMail] for a one-time password ([Some msg] when it
    rejects), Mongoose's [isValidObjectId] and the message of its cast
    error. *)
Record AuthEnv : Type := mkAuthEnv
  { bcryptHash : string -> string -> string;
    bcryptCompare : string -> string -> bool;
    jwtSign : string -> Z -> string;
    jwtVerify : string -> Z -> string + string;
    otpTransport : string -> string -> OtpType -> option string;
    validUserId : string -> bool;
    castError : string -> string }.

(** The [user] object of the login and verification answers. *)
Record UserView : Type := mkUserView
  { viewId : string;
    viewName : string;
    viewEmail : string;
    viewIsAdmin : bool }.

Inductive AuthBody : Type :=
| AuthError (error : string)
| AuthMessage (message : string)
| AuthLogged (message : string) (user : UserView)
| AuthMe (user : UserView)
| AuthIsAdmin.

(** An answer of an account route, with the [token] cookie it sets. *)
Record AuthResponse : Type := mkAuthResponse
  { authStatus : nat;
    authBody : AuthBody;
    authCookie : option string }.

Definition authError (code : nat) (msg : string) : AuthResponse :=
  {| authStatus := code; authBody := AuthError msg; authCookie := None |}.

Definition authMessage (code : nat) (msg : string) : AuthResponse :=
  {| authStatus := code; authBody := AuthMessage msg; authCookie := None |}.

Definition viewOf (u : Account.t) : UserView :=
  {| viewId := Account._id u;
     viewName := Account.name u;
     viewEmail := Account.email u;
     viewIsAdmin := Account.isAdmin u |}.

(** [validateEmail] on a body that carries [email] and no [bookings]. *)
Definition validateEmailBody (mail : string) : option AuthResponse :=
  if Js.truthy mail && negb (Js.test emailRe mail)
  then Some (authError 400 "Invalid email format")
  else None.

(** [User.findOne({ email })] *)
Definition findUser (mail : string) (users : list Account.t) : option Account.t :=
  Js.find (fun u => String.eqb (Account.email u) mail) users.

(** [User.findById(id)] *)
Definition findUserById (id : string) (users : list Account.t) : option Account.t :=
  Js.find (fun u => String.eqb (Account._id u) (castObjectId id)) users.

(** [Otp.findOne({ email, otp, type })] *)
Definition otpTypeEqb (a b : OtpType) : bool :=
  match a, b with
  | ForRegister, ForRegister => true
  | ForResetPassword, ForResetPassword => true
  | _, _ => false
  end.

Definition findOtp (mail code : string) (ty : OtpType) (otps : list Otp.t)
  : option Otp.t :=
  Js.find (fun r => String.eqb (Otp.email r) mail && String.eqb (Otp.otp r) code
                    && otpTypeEqb (Otp.type r) ty) otps.

(** [Otp.deleteOne({ email, otp })]: the first match of any type. *)
Definition deleteOtp (mail code : string) (otps : list Otp.t) : list Otp.t :=
  removeFirst (fun r => String.eqb (Otp.email r) mail
                        && String.eqb (Otp.otp r) code) otps.

(** The [required] paths of the user schema, checked by [save]. *)
Definition validUser (u : Account.t) : bool :=
  Js.truthy (Account.name u) && Js.truthy (Account.email u)
  && Js.truthy (Account.password u).

(** [Otp.create] on the Otp collection: the schema trims [email] and
    requires [email] and [otp]. *)
Definition createOtp (now : Z) (mail code : string) (ty : OtpType)
           (otps : list Otp.t) : Throws (list Otp.t) :=
  let record := {| Otp.email := Js.trim mail;
                   Otp.otp := code;
                   Otp.expiresAt := (now + 5 * 60 * 1000)%Z;
                   Otp.type := ty |} in
  throwIf (negb (Js.truthy (Otp.email record) && Js.truthy (Otp.otp record)))
          "Otp validation failed" ;;;
  ret (otps ++ [record]).

(** [sendOtpEmail] *)
Definition sendOtpEmail (env : AuthEnv) (mail code : string) (ty : OtpType)
  : Throws unit :=
  match otpTransport env mail code ty with
  | Some msg => throw ("Failed to send OTP email: " ++ msg)
  | None => ret tt
  end.

Module ReqAuth.
(** [req.body] of [POST /api/auth/register]. *)
Record Register : Type := mkRegister
  { name : string;
    email : string;
    password : string }.
End ReqAuth.

(** [POST /api/auth/register]; [newId] is the [_id] given to the new
    document, [salt] what [bcrypt.hash] draws, [code] what [generateOtp]
    returns and [now] the value of [Date.now()]. *)
Definition register (env : AuthEnv) (now : Z) (newId salt code : string)
           (st : Accounts) (b : ReqAuth.Register) : Accounts * AuthResponse :=
  match validateEmailBody (ReqAuth.email b) with
  | Some r => (st, r)
  | None =>
      if negb (Js.truthy (ReqAuth.name b)) || negb (Js.truthy (ReqAuth.email b))
         || negb (Js.truthy (ReqAuth.password b))
      then (st, authError 400 "Name, email, and password are required")
      else if Js.length (ReqAuth.password b) <? 6
      then (st, authError 400 "Password must be at least 6 characters")
      else
        match findUser (ReqAuth.email b) (Users st) with
        | Some _ => (st, authError 400 "Email already registered")
        | None =>
            let user :=
              {| Account._id := newId;
                 Account.name := Js.trim (ReqAuth.name b);
                 Account.email := Js.trim (ReqAuth.email b);
                 Account.password := bcryptHash env (ReqAuth.password b) salt;
                 Account.isVerified := false;
                 Account.isAdmin := false |} in
            (* [user.save()]: validation, then the unique index on [email] *)
            if negb (validUser user)
               || Js.mem (Account.email user) (map Account.email (Users st))
            then (st, authError 500 "Failed to register")
            else
              let users := Users st ++ [user] in
              match createOtp now (ReqAuth.email b) code ForRegister (Otps st) with
              | inl _ => ({| Users := users; Otps := Otps st |},
                          authError 500 "Failed to register")
              | inr otps =>
                  let st' := {| Users := users; Otps := otps |} in
                  match sendOtpEmail env (ReqAuth.email b) code ForRegister with
                  | inl _ => (st', authError 500 "Failed to register")
                  | inr _ =>
                      (st', authMessage 201
                              "Registration successful. OTP sent to email for verification")
                  end
              end
        end
  end.

Definition verifyAccount (u : Account.t) : Account.t :=
  {| Account._id := Account._id u;
     Account.name := Account.name u;
     Account.email := Account.email u;
     Account.password := Account.password u;
     Account.isVerified := true;
     Account.isAdmin := Account.isAdmin u |}.

Definition setPassword (hashed : string) (u : Account.t) : Account.t :=
  {| Account._id := Account._id u;
     Account.name := Account.name u;
     Account.email := Account.email u;
     Account.password := hashed;
     Account.isVerified := Account.isVerified u;
     Account.isAdmin := Account.isAdmin u |}.

(** The answer that logs a user in: the signed token in the cookie. *)
Definition loggedIn (env : AuthEnv) (now : Z) (msg : string) (u : Account.t)
  : AuthResponse :=
  {| authStatus := 200;
     authBody := AuthLogged msg (viewOf u);
     authCookie := Some (jwtSign env (Account._id u) now) |}.

(** [POST /api/auth/verify-otp] *)
Definition verifyOtp (env : AuthEnv) (now : Z) (st : Accounts)
           (mail code : string) : Accounts * AuthResponse :=
  match validateEmailBody mail with
  | Some r => (st, r)
  | None =>
      if negb (Js.truthy mail) || negb (Js.truthy code)
      then (st, authError 400 "Email and OTP are required")
      else
        match findOtp mail code ForRegister (Otps st) with
        | None => (st, authError 400 "Invalid or expired OTP")
        | Some record =>
            if (Otp.expiresAt record <? now)%Z
            then (st, authError 400 "Invalid or expired OTP")
            else
              match findUser mail (Users st) with
              | None => (st, authError 404 "User not found")
              | Some user =>
                  let user' := verifyAccount user in
                  ({| Users := updateFirst
                                 (fun u => String.eqb (Account.email u) mail)
                                 verifyAccount (Users st);
                      Otps := deleteOtp mail code (Otps st) |},
                   loggedIn env now "Email verified successfully" user')
              end
        end
  end.

(** [POST /api/auth/login] *)
Definition login (env : AuthEnv) (now : Z) (st : Accounts)
           (mail pass : string) : Accounts * AuthResponse :=
  match validateEmailBody mail with
  | Some r => (st, r)
  | None =>
      if negb (Js.truthy mail) || negb (Js.truthy pass)
      then (st, authError 400 "Email and password are required")
      else
        match findUser mail (Users st) with
        | None => (st, authError 401 "Invalid credentials")
        | Some user =>
            if negb (Account.isVerified user)
            then (st, authError 401 "Please verify your email first")
            else if negb (bcryptCompare env pass (Account.password user))
            then (st, authError 401 "Invalid credentials")
            else (st, loggedIn env now "Login successful" user)
        end
  end.

(** [POST /api/auth/forgot-password] *)
Definition forgotPassword (env : AuthEnv) (now : Z) (code : string)
           (st : Accounts) (mail : string) : Accounts * AuthResponse :=
  match validateEmailBody mail with
  | Some r => (st, r)
  | None =>
      if negb (Js.truthy mail)
      then (st, authError 400 "Invalid email")
      else
        match findUser mail (Users st) with
        | None => (st, authError 404 "User not found")
        | Some _ =>
            match createOtp now mail code ForResetPassword (Otps st) with
            | inl _ => (st, authError 500 "Failed to send OTP")
            | inr otps =>
                let st' := {| Users := Users st; Otps := otps |} in
                match sendOtpEmail env mail code ForResetPassword with
                | inl _ => (st', authError 500 "Failed to send OTP")
                | inr _ => (st', authMessage 200 "OTP sent to email for password reset")
                end
            end
        end
  end.

(** [POST /api/auth/reset-password] *)
Definition resetPassword (env : AuthEnv) (now : Z) (salt : string)
           (st : Accounts) (mail code newPassword : string)
  : Accounts * AuthResponse :=
  match validateEmailBody mail with
  | Some r => (st, r)
  | None =>
      if negb (Js.truthy mail) || negb (Js.truthy code)
         || negb (Js.truthy newPassword)
      then (st, authError 400 "Email, OTP, and new password are required")
      else if Js.length newPassword <? 6
      then (st, authError 400 "New password must be at least 6 characters")
      else
        match findOtp mail code ForResetPassword (Otps st) with
        | None => (st, authError 400 "Invalid or expired OTP")
        | Some record =>
            if (Otp.expiresAt record <? now)%Z
            then (st, authError 400 "Invalid or expired OTP")
            else
              match findUser mail (Users st) with
              | None => (st, authError 404 "User not found")
              | Some user =>
                  let hashed := bcryptHash env newPassword salt in
                  (* [user.save()] validates the modified path *)
                  if negb (Js.truthy hashed)
                  then (st, authError 500 "Failed to reset password")
                  else
                    ({| Users := updateFirst
                                   (fun u => String.eqb (Account.email u) mail)
                                   (setPassword hashed) (Users st);
                        Otps := deleteOtp mail code (Otps st) |},
                     authMessage 200 "Password reset successfully")
              end
        end
  end.

(** [authenticateToken] up to the answer it sends or the user it attaches
    to the request; [token] is the cookie or the bearer token, empty when
    there is none. *)
Definition authenticateToken (env : AuthEnv) (now : Z) (st : Accounts)
           (token : string) : AuthResponse + Account.t :=
  if negb (Js.truthy token)
  then inl (authError 401 "Authentication required: No token provided")
  else
    match jwtVerify env token now with
    | inl msg => inl (authError 401 ("Invalid token: " ++ msg))
    | inr userId =>
        if negb (validUserId env userId)
        then inl (authError 401 ("Invalid token: " ++ castError env userId))
        else
          match findUserById userId (Users st) with
          | None => inl (authError 401 "Authentication failed: User not found")
          | Some user =>
              if negb (Account.isVerified user)
              then inl (authError 401 "User email not verified")
              else inr user
          end
    end.

(** The requester the seat and event routes see. *)
Definition requester (u : Account.t) : IUser :=
  {| isAdmin := Account.isAdmin u |}.

(** [GET /api/auth/me] *)
Definition me (env : AuthEnv) (now : Z) (st : Accounts) (token : string)
  : AuthResponse :=
  match authenticateToken env now st token with
  | inl r => r
  | inr user =>
      {| authStatus := 200; authBody := AuthMe (viewOf user); authCookie := None |}
  end.

(** [GET /api/auth/is-admin] *)
Definition isAdminRoute (env : AuthEnv) (now : Z) (st : Accounts)
           (token : string) : AuthResponse :=
  match authenticateToken env now st token with
  | inl r => r
  | inr user =>
      if negb (Account.isAdmin user)
      then authError 403 "Forbidden: Admin access required"
      else {| authStatus := 200; authBody := AuthIsAdmin; authCookie := None |}
  end.

(** The calls that change the account store, each at its time, and the
    TTL index on [expiresAt], which lets the database drop expired
    one-time passwords: [keep] tells which of them it has not dropped
    yet. *)
Inductive AuthCall : Type :=
| CallRegister (now : Z) (newId salt code : string) (b : ReqAuth.Register)
| CallVerifyOtp (now : Z) (mail code : string)
| CallLogin (now : Z) (mail pass : string)
| CallForgotPassword (now : Z) (code mail : string)
| CallResetPassword (now : Z) (salt mail code newPassword : string)
| Expire (now : Z) (keep : Otp.t -> bool).

Definition callTime (c : AuthCall) : Z :=
  match c with
  | CallRegister now _ _ _ _ => now
  | CallVerifyOtp now _ _ => now
  | CallLogin now _ _ => now
  | CallForgotPassword now _ _ => now
  | CallResetPassword now _ _ _ _ => now
  | Expire now _ => now
  end.

Definition authStep (env : AuthEnv) (st : Accounts) (c : AuthCall) : Accounts :=
  match c with
  | CallRegister now newId salt code b => fst (register env now newId salt code st b)
  | CallVerifyOtp now mail code => fst (verifyOtp env now st mail code)
  | CallLogin now mail pass => fst (login env now st mail pass)
  | CallForgotPassword now code mail => fst (forgotPassword env now code st mail)
  | CallResetPassword now salt mail code newPassword =>
      fst (resetPassword env now salt st mail code newPassword)
  | Expire now keep =>
      {| Users := Users st;
         Otps := filter (fun r => negb (Otp.expiresAt r <=? now)%Z || keep r)
                        (Otps st) |}
  end.

Definition authRun (env : AuthEnv) (st : Accounts) (cs : list AuthCall) : Accounts :=
  fold_left (authStep env) cs st.

(** The address has an account, no account of the address is verified,
    and every registration password stored for it expired before [now]. *)
Definition lapsed (now : Z) (mail : string) (st : Accounts) : Prop :=
  (exists u, In u (Users st) /\ Account.email u = mail)
  /\ (forall u, In u (Users st) -> Account.email u = mail ->
                Account.isVerified u = false)
  /\ (forall r, In r (Otps st) -> Otp.email r = mail ->
                Otp.type r = ForRegister -> (Otp.expiresAt r < now)%Z).

(** What the account routes rely on from bcrypt and jsonwebtoken: a
    password compares with its own hash, a hash and a token are not
    empty, and a token is accepted until a second before the day it is
    signed for is over. *)
Definition librariesBehave (env : AuthEnv) : Prop :=
  (forall pass salt, bcryptCompare env pass (bcryptHash env pass salt) = true)
  /\ (forall pass salt, Js.truthy (bcryptHash env pass salt) = true)
  /\ (forall id t, Js.truthy (jwtSign env id t) = true)
  /\ (forall id t t', (t <= t' <= t + 86399000)%Z ->
                      jwtVerify env (jwtSign env id t) t' = inr id).

(** Every one-time password stored belongs to an account. *)
Definition otpsOfAccounts (st : Accounts) : Prop :=
  forall r, In r (Otps st) -> In (Otp.email r) (map Account.email (Users st)).

(** The account [u] is the account [u0] as a later store holds it. *)
Definition sameAccount (u0 u : Account.t) : Prop :=
  Account._id u = Account._id u0 /\ Account.name u = Account.name u0
  /\ Account.email u = Account.email u0
  /\ Account.isAdmin u = Account.isAdmin u0
  /\ (Account.isVerified u0 = true -> Account.isVerified u = true).

(** Sample libraries and stores. *)
Definition sampleAuthEnv : AuthEnv :=
  {| bcryptHash := fun pass _ => ("h:" ++ pass)%string;
     bcryptCompare := fun pass hashed => String.eqb hashed ("h:" ++ pass);
     jwtSign := fun id _ => ("jwt." ++ id)%string;
     jwtVerify := fun token _ =>
                    if Js.startsWith "jwt." token
                    then inr (String.substring 4 (String.length token - 4) token)
                    else inl "jwt malformed";
     otpTransport := fun _ _ _ => None;
     validUserId := isHex24;
     castError := fun _ => "Cast to ObjectId failed" |}.

(** The same libraries with a transport that rejects every mail. *)
Definition mailDownEnv : AuthEnv :=
  {| bcryptHash := bcryptHash sampleAuthEnv;
     bcryptCompare := bcryptCompare sampleAuthEnv;
     jwtSign := jwtSign sampleAuthEnv;
     jwtVerify := jwtVerify sampleAuthEnv;
     otpTransport := fun _ _ _ => Some "connect ETIMEDOUT";
     validUserId := validUserId sampleAuthEnv;
     castError := castError sampleAuthEnv |}.

Definition noAccounts : Accounts := {| Users := []; Otps := [] |}.

Definition asha : ReqAuth.Register :=
  {| ReqAuth.name := "Asha";
     ReqAuth.email := "asha@x.com";
     ReqAuth.password := "secret1" |}.

Definition ashaId : string := "64b7f3a2c1d4e5f6a7b8c9e0".

(** ** The default accounts *)

(** The environment variables [initializeDefaultUser] reads. *)
Record Config : Type := mkConfig
  { USER_EMAIL : string;
    USER_PASSWORD : string;
    USER_NAME : string;
    ADMIN_EMAIL : string;
    ADMIN_PASSWORD : string }.

(** [new User(u).save()]: the schema trims [name] and [email], validation
    checks the required paths, the unique index refuses a second account
    of an address. *)
Definition saveNewUser (u : Account.t) (users : list Account.t)
  : Throws (list Account.t) :=
  let doc := {| Account._id := Account._id u;
                Account.name := Js.trim (Account.name u);
                Account.email := Js.trim (Account.email u);
                Account.password := Account.password u;
                Account.isVerified := Account.isVerified u;
                Account.isAdmin := Account.isAdmin u |} in
  throwIf (negb (validUser doc)) "User validation failed" ;;;
  throwIf (Js.mem (Account.email doc) (map Account.email users))
          "E11000 duplicate key error" ;;;
  ret (users ++ [doc]).

Definition makeAdmin (u : Account.t) : Account.t :=
  {| Account._id := Account._id u;
     Account.name := Account.name u;
     Account.email := Account.email u;
     Account.password := Account.password u;
     Account.isVerified := Account.isVerified u;
     Account.isAdmin := true |}.

(** [initializeDefaultUser], run once the database is connected and
    before the server listens; [id1], [id2] are the ids given to the
    documents it creates and [salt1], [salt2] what [bcrypt.hash] draws.
    An error is thrown on to the caller. *)
Definition initializeDefaultUser (env : AuthEnv) (cfg : Config)
           (id1 id2 salt1 salt2 : string) (st : Accounts) : Throws Accounts :=
  let mail := USER_EMAIL cfg in
  let adminEmail := ADMIN_EMAIL cfg in
  users <- match findUser mail (Users st) with
           | None =>
               saveNewUser {| Account._id := id1;
                              Account.name := USER_NAME cfg;
                              Account.email := mail;
                              Account.password :=
                                bcryptHash env (USER_PASSWORD cfg) salt1;
                              Account.isVerified := true;
                              Account.isAdmin := String.eqb mail adminEmail |}
                           (Users st)
           | Some _ => ret (Users st)
           end ;;
  users' <- match findUser adminEmail users with
            | None =>
                saveNewUser {| Account._id := id2;
                               Account.name := "Admin";
                               Account.email := adminEmail;
                               Account.password :=
                                 bcryptHash env (ADMIN_PASSWORD cfg) salt2;
                               Account.isVerified := true;
                               Account.isAdmin := true |}
                            users
            | Some existingAdmin =>
                if negb (Account.isAdmin existingAdmin)
                then ret (updateFirst
                            (fun u => String.eqb (Account.email u) adminEmail)
                            makeAdmin users)
                else ret users
            end ;;
  ret {| Users := users'; Otps := Otps st |}.

(** The configuration names two addresses without surrounding white
    space and a user name that is not blank. *)
Definition wellConfigured (cfg : Config) : Prop :=
  Js.truthy (USER_EMAIL cfg) = true /\ Js.trim (USER_EMAIL cfg) = USER_EMAIL cfg
  /\ Js.truthy (ADMIN_EMAIL cfg) = true
  /\ Js.trim (ADMIN_EMAIL cfg) = ADMIN_EMAIL cfg
  /\ Js.truthy (Js.trim (USER_NAME cfg)) = true.

(** The account [u] is the account [u0], possibly made an admin. *)
Definition keptAccount (u0 u : Account.t) : Prop :=
  Account._id u = Account._id u0 /\ Account.name u = Account.name u0
  /\ Account.email u = Account.email u0
  /\ Account.password u = Account.password u0
  /\ Account.isVerified u = Account.isVerified u0
  /\ (Account.isAdmin u0 = true -> Account.isAdmin u = true).

Definition sampleConfig : Config :=
  {| USER_EMAIL := "user@x.com";
     USER_PASSWORD := "userpass";
     USER_NAME := "Default User";
     ADMIN_EMAIL := "asha@x.com";
     ADMIN_PASSWORD := "adminpass" |}.

(** Sample requests for the event registry and the account routes. *)
Definition julyId : string := "64b7f3a2c1d4e5f6a7b8c9d1".

Definition julyShow : ReqEvent.Create :=
  {| ReqEvent.name := "Summer show";
     ReqEvent.date := "2025-07-01";
     ReqEvent.time := "18:30";
     ReqEvent.description := "Annual show";
     ReqEvent.venue := "Main hall";
     ReqEvent.password := "letmein";
     ReqEvent.totalSeats := 15%Z |}.

(** The June event with seat A1 booked by a member. *)
Definition dbBooked : DB :=
  fst (book sampleEnv "2025-05-01" dbJune (batch eventJune "Asha" ["A1"]) member).

(** A day at the registry: an event is created, seats are booked and
    listed, registration is closed, an event is deleted, and the June
    event is deleted under its identifier in capitals. *)
Definition sampleOps : list Op :=
  [CreateEvent "2025-05-01" julyId admin julyShow;
   Core (Book "2025-05-02" (batch eventJune "Ravi" ["A2"; "A3"]) member);
   Core (GetSeats "2025-05-02" "2025-06-01");
   Core (CloseRegistration julyId);
   DeleteEvent admin julyId "letmein";
   DeleteEvent admin "64B7F3A2C1D4E5F6A7B8C9D0" "letmein"].

(** Asha registered and the mail with her one-time password went out. *)
Definition ashaRegistered : Accounts :=
  fst (register sampleAuthEnv 0%Z ashaId "salt" "A1B2C3" noAccounts asha).

(** Asha registered and verified her address a second later. *)
Definition ashaVerified : Accounts :=
  fst (verifyOtp sampleAuthEnv 1000%Z ashaRegistered "asha@x.com" "A1B2C3").

(** Asha registered while the mail transport was down. *)
Definition ashaStranded : Accounts :=
  fst (register mailDownEnv 0%Z ashaId "salt" "A1B2C3" noAccounts asha).

Definition sampleAuthCalls : list AuthCall :=
  [CallVerifyOtp 300001%Z "asha@x.com" "A1B2C3";
   CallForgotPassword 300002%Z "C0FFEE" "asha@x.com";
   CallResetPassword 300003%Z "salt" "asha@x.com" "C0FFEE" "secret2";
   CallLogin 300004%Z "asha@x.com" "secret2";
   Expire 700000%Z (fun _ => false);
   CallRegister 700001%Z ashaId "salt" "D4E5F6" asha].

(** * Properties *)

(** ** The seat initializer *)

Section Initializer.

Variable eid : string.
Variable total : nat.

(** Every seat the two loops can emit, in emission order. *)
Let rowSeats (rw : string) : list ISeat := map (newSeat eid rw) columns.
Let allSeats (rws : list string) : list ISeat := flat_map rowSeats rws.

Lemma columnLoop_firstn (rw : string) (cols : list nat) :
  forall acc n,
    columnLoop eid total rw cols (acc, n)
    = (acc ++ firstn (total - n) (map (newSeat eid rw) cols),
       n + Nat.min (total - n) (List.length cols)).
Proof.
  induction cols as [|col cols IH]; intros acc n; simpl.
  - rewrite firstn_nil, app_nil_r, Nat.min_0_r, Nat.add_0_r. reflexivity.
  - destruct (Nat.leb_spec total n) as [Hle|Hlt].
    + replace (total - n) with 0 by lia. simpl.
      rewrite app_nil_r, Nat.add_0_r. reflexivity.
    + rewrite IH. destruct (total - n) as [|k] eqn:Hk; [lia|].
      replace (total - S n) with k by lia. simpl.
      rewrite <- app_assoc. simpl. f_equal. lia.
Qed.

Lemma rowLoop_firstn (rws : list string) :
  forall acc n,
    rowLoop eid total rws (acc, n)
    = (acc ++ firstn (total - n) (allSeats rws),
       n + Nat.min (total - n) (List.length (allSeats rws))).
Proof.
  induction rws as [|rw rws IH]; intros acc n.
  - simpl. rewrite firstn_nil, app_nil_r, Nat.min_0_r, Nat.add_0_r. reflexivity.
  - cbn [rowLoop]. rewrite columnLoop_firstn. cbv zeta. unfold snd at 1.
    fold (rowSeats rw).
    change (allSeats (rw :: rws)) with (rowSeats rw ++ allSeats rws).
    assert (Hlen : List.length (rowSeats rw) = List.length columns)
      by (unfold rowSeats; apply length_map).
    rewrite firstn_app, length_app, Hlen.
    destruct (Nat.leb_spec total (n + Nat.min (total - n) (List.length columns)))
      as [Hle|Hlt].
    + replace (total - n - List.length columns) with 0 by lia.
      rewrite firstn_O, app_nil_r. f_equal. lia.
    + rewrite IH. rewrite app_assoc. f_equal.
      * f_equal. f_equal. lia.
      * lia.
Qed.

Lemma generateSeats_firstn :
  generateSeats eid total = firstn total (allSeats rows).
Proof.
  unfold generateSeats. rewrite rowLoop_firstn. simpl.
  rewrite Nat.sub_0_r. reflexivity.
Qed.

Lemma allSeats_ids : map seatId (allSeats rows) = rowMajorSeatIds.
Proof. reflexivity. Qed.

Lemma allSeats_ofEvent : forall s, In s (allSeats rows) -> eventId s = eid.
Proof.
  intros s Hin. unfold allSeats in Hin. apply in_flat_map in Hin.
  destruct Hin as [rw [_ Hin]]. unfold rowSeats in Hin.
  apply in_map_iff in Hin. destruct Hin as [col [<- _]]. reflexivity.
Qed.

Lemma generateSeats_ids :
  map seatId (generateSeats eid total) = firstn total rowMajorSeatIds.
Proof.
  rewrite generateSeats_firstn, <- allSeats_ids. symmetry. apply firstn_map.
Qed.

Lemma generateSeats_ofEvent :
  forall s, In s (generateSeats eid total) -> eventId s = eid.
Proof.
  intros s Hin. rewrite generateSeats_firstn in Hin.
  apply allSeats_ofEvent. rewrite <- (firstn_skipn total (allSeats rows)).
  apply in_or_app. left. exact Hin.
Qed.

Lemma generateSeats_unbooked :
  forall s, In s (generateSeats eid total) -> bookings s = [].
Proof.
  intros s Hin. rewrite generateSeats_firstn in Hin.
  assert (Hall : In s (allSeats rows)).
  { rewrite <- (firstn_skipn total (allSeats rows)).
    apply in_or_app. left. exact Hin. }
  unfold allSeats in Hall. apply in_flat_map in Hall.
  destruct Hall as [rw [_ Hrow]]. unfold rowSeats in Hrow.
  apply in_map_iff in Hrow. destruct Hrow as [col [<- _]]. reflexivity.
Qed.

End Initializer.

Lemma rowMajorSeatIds_length : List.length rowMajorSeatIds = 260.
Proof. reflexivity. Qed.

Lemma rowMajorSeatIds_NoDup : NoDup rowMajorSeatIds.
Proof.
  assert (H : nodup string_dec rowMajorSeatIds = rowMajorSeatIds)
    by (vm_compute; reflexivity).
  rewrite <- H. apply NoDup_nodup.
Qed.

Lemma NoDup_firstn {A} (n : nat) (l : list A) : NoDup l -> NoDup (firstn n l).
Proof.
  intros H. rewrite <- (firstn_skipn n l) in H.
  apply NoDup_app_remove_r in H. exact H.
Qed.

Lemma filter_all {A} (p : A -> bool) (l : list A) :
  (forall x, In x l -> p x = true) -> filter p l = l.
Proof.
  induction l as [|x l IH]; intros H; simpl; [reflexivity|].
  rewrite (H x (or_introl eq_refl)). f_equal. apply IH.
  intros y Hy. apply H. right. exact Hy.
Qed.

Lemma filter_none {A} (p : A -> bool) (l : list A) :
  (forall x, In x l -> p x = false) -> filter p l = [].
Proof.
  induction l as [|x l IH]; intros H; simpl; [reflexivity|].
  rewrite (H x (or_introl eq_refl)). apply IH.
  intros y Hy. apply H. right. exact Hy.
Qed.

Lemma filter_filter_neg {A} (p : A -> bool) (l : list A) :
  filter p (filter (fun x => negb (p x)) l) = [].
Proof.
  apply filter_none. intros x Hx. apply filter_In in Hx.
  destruct Hx as [_ Hx]. destruct (p x); [discriminate|reflexivity].
Qed.

Lemma filter_idem {A} (p : A -> bool) (l : list A) :
  filter p (filter p l) = filter p l.
Proof.
  apply filter_all. intros x Hx. apply filter_In in Hx. tauto.
Qed.

(** The seats of the event after a regeneration are exactly the generated
    ones; the seats of the other events stay. *)
Lemma initializeSeats_regenerates (eid : string) (total : nat) (seats : list ISeat) :
  List.length (filter (ofEvent eid) seats) < total ->
  filter (ofEvent eid) (initializeSeats eid total seats) = generateSeats eid total
  /\ filter (fun s => negb (ofEvent eid s)) (initializeSeats eid total seats)
     = filter (fun s => negb (ofEvent eid s)) seats.
Proof.
  intros Hlt. unfold initializeSeats.
  destruct (Nat.leb_spec total (List.length (filter (ofEvent eid) seats)));
    [lia|].
  rewrite !filter_app. split.
  - rewrite filter_filter_neg. simpl. apply filter_all.
    intros s Hs. unfold ofEvent. apply String.eqb_eq.
    eapply generateSeats_ofEvent; eauto.
  - rewrite filter_idem. rewrite (@filter_none _ _ (generateSeats eid total)).
    + apply app_nil_r.
    + intros s Hs. unfold ofEvent.
      rewrite (generateSeats_ofEvent _ _ _ Hs), String.eqb_refl. reflexivity.
Qed.

(** C6. For every capacity [c] between 1 and 260: when the event holds
    fewer than [c] seats, [initializeSeats] leaves it with exactly [c]
    seats whose seatIds are pairwise distinct and are the first [c] of the
    row-major enumeration A1..A10, B1..B10, ..., Z1..Z10 (the seats of the
    other events being untouched); when the event already holds at least
    [c] seats, the call changes nothing. *)
Theorem initializeSeats_row_major (eid : string) (c : nat) (seats : list ISeat) :
  1 <= c <= 260 ->
  (List.length (filter (ofEvent eid) seats) < c ->
   let seats' := initializeSeats eid c seats in
   List.length (filter (ofEvent eid) seats') = c
   /\ map seatId (filter (ofEvent eid) seats') = firstn c rowMajorSeatIds
   /\ NoDup (map seatId (filter (ofEvent eid) seats'))
   /\ filter (fun s => negb (ofEvent eid s)) seats'
      = filter (fun s => negb (ofEvent eid s)) seats)
  /\ (c <= List.length (filter (ofEvent eid) seats) ->
      initializeSeats eid c seats = seats).
Proof.
  intros Hc. split.
  - intros Hlt seats'. subst seats'.
    destruct (initializeSeats_regenerates eid c seats Hlt) as [Hgen Hrest].
    rewrite Hgen, generateSeats_ids.
    assert (Hlen : List.length (firstn c rowMajorSeatIds) = c).
    { rewrite length_firstn, rowMajorSeatIds_length. lia. }
    repeat split.
    + rewrite <- (length_map seatId), generateSeats_ids. exact Hlen.
    + apply NoDup_firstn, rowMajorSeatIds_NoDup.
    + exact Hrest.
  - intros Hge. unfold initializeSeats.
    destruct (Nat.leb_spec c (List.length (filter (ofEvent eid) seats)));
      [reflexivity|lia].
Qed.

(** ** Lists and documents *)

Lemma updateFirst_seatId (sid : string) (f : ISeat -> ISeat) (docs : list ISeat) :
  NoDup (map seatId docs) ->
  updateFirst (fun s => String.eqb (seatId s) sid) f docs
  = map (fun s => if String.eqb (seatId s) sid then f s else s) docs.
Proof.
  induction docs as [|x l IH]; intros Hnd; simpl; [reflexivity|].
  inversion Hnd as [|? ? Hnotin Hnd']; subst.
  destruct (String.eqb_spec (seatId x) sid) as [Heq|Hneq].
  - f_equal. rewrite <- (map_id l) at 1. apply map_ext_in.
    intros y Hy. destruct (String.eqb_spec (seatId y) sid) as [Hy'|]; [|reflexivity].
    exfalso. apply Hnotin. rewrite Heq, <- Hy'. apply in_map. exact Hy.
  - f_equal. apply IH. exact Hnd'.
Qed.

Lemma stepDoc_seatId bk s : seatId (stepDoc bk s) = seatId s.
Proof. unfold stepDoc. destruct (String.eqb _ _); reflexivity. Qed.

Lemma applyBooking_fst (st : list ISeat * EmailToSeats) (bk : Req.Booking) :
  NoDup (map seatId (fst st)) ->
  fst (applyBooking st bk) = map (stepDoc bk) (fst st).
Proof.
  intros Hnd. unfold applyBooking, Js.find.
  destruct (find _ (fst st)) eqn:Hfind; simpl.
  - apply updateFirst_seatId. exact Hnd.
  - rewrite <- (map_id (fst st)) at 1. apply map_ext_in.
    intros y Hy. unfold stepDoc.
    rewrite (find_none _ _ Hfind y Hy). reflexivity.
Qed.

Lemma bookInto_nil s : bookInto [] s = s.
Proof. destruct s. unfold bookInto. simpl. rewrite app_nil_r. reflexivity. Qed.

Lemma bookInto_cons bk bks s : bookInto bks (stepDoc bk s) = bookInto (bk :: bks) s.
Proof.
  unfold stepDoc, bookInto, entriesFor. simpl.
  destruct (String.eqb (seatId s) (Req.seatId bk)); simpl; [|reflexivity].
  rewrite <- app_assoc. reflexivity.
Qed.

Lemma applyBookings_fst (bks : list Req.Booking) :
  forall st, NoDup (map seatId (fst st)) ->
             fst (fold_left applyBooking bks st) = map (bookInto bks) (fst st).
Proof.
  induction bks as [|bk bks IH]; intros st Hnd; simpl.
  - rewrite <- (map_id (fst st)) at 1. apply map_ext. intros s.
    symmetry. apply bookInto_nil.
  - rewrite IH.
    + rewrite applyBooking_fst by exact Hnd. rewrite map_map.
      apply map_ext. intros s. apply bookInto_cons.
    + rewrite applyBooking_fst by exact Hnd. rewrite map_map.
      erewrite map_ext; [exact Hnd|]. intros s. apply stepDoc_seatId.
Qed.

Lemma saveAll_map (q : ISeat -> bool) (f : ISeat -> ISeat) (store : list ISeat) :
  saveAll q store (map f (filter q store))
  = map (fun s => if q s then f s else s) store.
Proof.
  induction store as [|s store IH]; simpl; [reflexivity|].
  destruct (q s); simpl; rewrite IH; reflexivity.
Qed.

Lemma NoDup_map_filter {K} (key : ISeat -> K) (q : ISeat -> bool)
      (seats : list ISeat) (Hnd : NoDup (map key seats)) :
  NoDup (map key (filter q seats)).
Proof.
  induction seats as [|s seats IH]; simpl; [constructor|].
  inversion Hnd as [|? ? Hnotin Hnd']; subst.
  destruct (q s); simpl; [|auto].
  constructor; [|auto].
  intros Hin. apply Hnotin. apply in_map_iff in Hin.
  destruct Hin as [y [Hy Hin]]. apply filter_In in Hin.
  rewrite <- Hy. apply in_map. tauto.
Qed.

Lemma NoDup_seatId_of_key (eid : string) (l : list ISeat) :
  NoDup (map seatKey l) -> (forall s, In s l -> eventId s = eid) ->
  NoDup (map seatId l).
Proof.
  induction l as [|x l IH]; intros Hnd Hev; simpl; [constructor|].
  inversion Hnd as [|? ? Hnotin Hnd']; subst.
  constructor.
  - intros Hin. apply Hnotin. apply in_map_iff in Hin.
    destruct Hin as [y [Hy Hin]]. apply in_map_iff. exists y. split; [|exact Hin].
    unfold seatKey. rewrite Hy, (Hev y (or_intror Hin)), (Hev x (or_introl eq_refl)).
    reflexivity.
  - apply IH; [exact Hnd'|]. intros s Hs. apply Hev. right. exact Hs.
Qed.

Lemma setSize_NoDup (l : list string) :
  Js.setSize l = List.length l -> NoDup l.
Proof.
  unfold Js.setSize.
  assert (Hle : forall l', List.length (nodup string_dec l') <= List.length l').
  { induction l' as [|x l' IH]; simpl; [lia|].
    destruct (in_dec string_dec x l'); simpl; lia. }
  induction l as [|x l IH]; simpl; intros H; [constructor|].
  destruct (in_dec string_dec x l) as [Hin|Hnotin].
  - specialize (Hle l). lia.
  - simpl in H. constructor; [exact Hnotin|]. apply IH. lia.
Qed.

Lemma filter_unique {A} (key : A -> string) (l : list A) (x : A) :
  NoDup (map key l) -> In x l ->
  filter (fun y => String.eqb (key x) (key y)) l = [x].
Proof.
  induction l as [|y l IH]; intros Hnd Hin; simpl; [destruct Hin|].
  inversion Hnd as [|? ? Hnotin Hnd']; subst.
  destruct Hin as [->|Hin].
  - rewrite String.eqb_refl. f_equal. apply filter_none.
    intros z Hz. apply String.eqb_neq. intros Heq. apply Hnotin.
    rewrite Heq. apply in_map. exact Hz.
  - destruct (String.eqb_spec (key x) (key y)) as [Heq|_].
    + exfalso. apply Hnotin. rewrite <- Heq. apply in_map. exact Hin.
    + apply IH; assumption.
Qed.

Lemma mem_In (x : string) (l : list string) : Js.mem x l = true <-> In x l.
Proof.
  unfold Js.mem. rewrite existsb_exists. split.
  - intros [y [Hy Heq]]. apply String.eqb_eq in Heq. subst. exact Hy.
  - intros H. exists x. split; [exact H|apply String.eqb_refl].
Qed.

Lemma findById_Some id events e :
  findById id events = Some e -> In e events /\ _id e = castObjectId id.
Proof.
  unfold findById, Js.find. intros H. apply find_some in H.
  destruct H as [Hin Heq]. apply String.eqb_eq in Heq. tauto.
Qed.

(** The cast leaves the string of an ObjectId as it is. *)
Lemma lowerHex_fixed (s : string) :
  forallb (fun c => Js.range "0" "9" c || Js.range "a" "f" c)
          (list_ascii_of_string s) = true ->
  lowerHex s = s.
Proof.
  induction s as [|c s IH]; simpl; [reflexivity|].
  intros H. apply andb_true_iff in H. destruct H as [Hc Hs].
  rewrite (IH Hs). f_equal.
  unfold Js.range in *. cbn [nat_of_ascii] in *.
  change (nat_of_ascii "A") with 65. change (nat_of_ascii "F") with 70.
  change (nat_of_ascii "0") with 48 in Hc. change (nat_of_ascii "9") with 57 in Hc.
  change (nat_of_ascii "a") with 97 in Hc. change (nat_of_ascii "f") with 102 in Hc.
  destruct (andb (65 <=? nat_of_ascii c) (nat_of_ascii c <=? 70)) eqn:Hup;
    [exfalso|reflexivity].
  apply andb_true_iff in Hup. destruct Hup as [H1 H2].
  apply Nat.leb_le in H1, H2.
  apply orb_true_iff in Hc.
  destruct Hc as [Hc|Hc]; apply andb_true_iff in Hc; destruct Hc as [H3 H4];
    apply Nat.leb_le in H3, H4; lia.
Qed.

Lemma castObjectId_objectIdString (id : string) :
  objectIdString id = true -> castObjectId id = id.
Proof.
  unfold objectIdString, castObjectId. intros H.
  apply andb_true_iff in H. destruct H as [Hlen Hhex].
  apply Nat.eqb_eq in Hlen. rewrite Hlen. cbn [Nat.eqb].
  apply lowerHex_fixed. exact Hhex.
Qed.

Lemma hexOfByte_hex (c : ascii) :
  forallb (fun c => Js.range "0" "9" c || Js.range "a" "f" c)
          (list_ascii_of_string (hexOfByte c)) = true.
Proof.
  destruct c as [[] [] [] [] [] [] [] []]; vm_compute; reflexivity.
Qed.

Lemma hexOfBytes_length (s : string) :
  String.length (hexOfBytes s) = 2 * String.length s.
Proof.
  induction s as [|c s IH]; [reflexivity|].
  cbn [hexOfBytes hexOfByte String.append String.length]. rewrite IH. lia.
Qed.

Lemma hexOfBytes_objectIdString (s : string) :
  String.length s = 12 -> objectIdString (hexOfBytes s) = true.
Proof.
  intros Hlen. unfold objectIdString. apply andb_true_iff. split.
  - apply Nat.eqb_eq. rewrite hexOfBytes_length, Hlen. reflexivity.
  - clear Hlen. induction s as [|c s IH]; [reflexivity|].
    pose proof (hexOfByte_hex c) as Hc. cbn [hexOfBytes].
    unfold hexOfByte in *. cbv zeta in *.
    cbn [String.append list_ascii_of_string forallb] in *.
    apply andb_true_iff in Hc. destruct Hc as [H1 Hc].
    apply andb_true_iff in Hc. destruct Hc as [H2 _].
    rewrite H1, H2, IH. reflexivity.
Qed.

Lemma lowerHex_length (s : string) : String.length (lowerHex s) = String.length s.
Proof.
  induction s as [|c s IH]; simpl; [reflexivity|]. rewrite IH. reflexivity.
Qed.

Lemma lowerHex_idem (s : string) : lowerHex (lowerHex s) = lowerHex s.
Proof.
  induction s as [|c s IH]; simpl; [reflexivity|]. rewrite IH. f_equal.
  destruct c as [[] [] [] [] [] [] [] []]; vm_compute; reflexivity.
Qed.

(** Casting a cast identifier changes nothing. *)
Lemma castObjectId_idem (id : string) :
  castObjectId (castObjectId id) = castObjectId id.
Proof.
  unfold castObjectId at 2 3.
  destruct (Nat.eqb_spec (String.length id) 12) as [Hlen|Hlen].
  - apply castObjectId_objectIdString. apply hexOfBytes_objectIdString.
    exact Hlen.
  - unfold castObjectId. rewrite lowerHex_length.
    destruct (Nat.eqb_spec (String.length id) 12); [contradiction|].
    apply lowerHex_idem.
Qed.

Lemma findById_cast (id : string) (events : list IEvent) :
  findById (castObjectId id) events = findById id events.
Proof.
  unfold findById. rewrite castObjectId_idem. reflexivity.
Qed.

Lemma bookingOn_None d s :
  bookingOn d s = None <-> ~ In d (map date (bookings s)).
Proof.
  unfold bookingOn, Js.find. split.
  - intros H Hin. apply in_map_iff in Hin. destruct Hin as [b [Hb Hin]].
    pose proof (find_none _ _ H b Hin) as Hf. simpl in Hf.
    rewrite Hb, String.eqb_refl in Hf. discriminate.
  - intros H. destruct (find _ (bookings s)) eqn:Hf; [|reflexivity].
    exfalso. apply find_some in Hf. destruct Hf as [Hin Heq].
    apply String.eqb_eq in Heq. apply H. rewrite <- Heq. apply in_map. exact Hin.
Qed.

Lemma checkAvailable_inr d seats u :
  checkAvailable d seats = inr u ->
  forall s, In s seats -> bookingOn d s = None.
Proof.
  induction seats as [|x l IH]; simpl; intros H s Hin; [destruct Hin|].
  destruct (bookingOn d x) eqn:Hx; [discriminate|].
  destruct Hin as [<-|Hin]; [exact Hx|]. apply IH; assumption.
Qed.

(** ** The booking transaction *)

Lemma bookTransaction_inr (env : Env) (db : DB) (b : Req.Book) (user : IUser) (c : Committed) :
  bookTransaction env db b user = inr c ->
  exists event,
    let q := inBatch (map Req.seatId (Req.bookings b)) (_id event) in
    let st := fold_left applyBooking (Req.bookings b) (filter q (Seats db), []) in
    findById (Req.eventId b) (Events db) = Some event
    /\ (forall bk, In bk (Req.bookings b) -> Req.bookingDate bk = eventDate event)
    /\ (registrationClosed event = true -> isAdmin user = true)
    /\ NoDup (map Req.seatId (Req.bookings b))
    /\ List.length (filter q (Seats db)) = List.length (Req.bookings b)
    /\ (forall s, In s (filter q (Seats db)) -> bookingOn (eventDate event) s = None)
    /\ forallb validSeat (fst st) = true
    /\ c = {| savedSeats := saveAll q (Seats db) (fst st);
              bookedDocs := fst st;
              emailToSeats := snd st;
              bookedDate := eventDate event |}.
Proof.
  unfold bookTransaction. intros H.
  destruct (findById (Req.eventId b) (Events db)) as [event|] eqn:Hev;
    [|discriminate].
  exists event. cbv zeta. unfold throwIf, bind in H.
  destruct (existsb _ (Req.bookings b)) eqn:Hdates; [discriminate|].
  destruct (registrationClosed event && negb (isAdmin user)) eqn:Hclosed;
    [discriminate|].
  destruct (Js.setSize (map Req.seatId (Req.bookings b))
            =? List.length (map Req.seatId (Req.bookings b))) eqn:Hdup;
    [|discriminate].
  simpl negb in H. cbv iota in H.
  destruct (List.length
              (filter (inBatch (map Req.seatId (Req.bookings b)) (_id event))
                      (Seats db))
            =? List.length (map Req.seatId (Req.bookings b))) eqn:Hlen;
    [|discriminate].
  simpl negb in H. cbv iota in H.
  destruct (checkAvailable (eventDate event) _) as [msg|u] eqn:Hfree;
    [discriminate|].
  destruct (forallb validSeat _) eqn:Hvalid; [|discriminate].
  simpl in H. injection H as <-.
  repeat split.
  - intros bk Hbk.
    destruct (String.eqb_spec (Req.bookingDate bk) (eventDate event)) as [|Hne];
      [assumption|].
    exfalso. rewrite <- not_true_iff_false in Hdates. apply Hdates.
    apply existsb_exists. exists bk. split; [exact Hbk|].
    apply negb_true_iff. apply String.eqb_neq. exact Hne.
  - intros Hc. rewrite Hc in Hclosed. simpl in Hclosed.
    apply negb_false_iff in Hclosed. exact Hclosed.
  - apply setSize_NoDup. apply Nat.eqb_eq. exact Hdup.
  - apply Nat.eqb_eq in Hlen. rewrite length_map in Hlen. exact Hlen.
  - intros s Hs. eapply checkAvailable_inr; eauto.
Qed.

(** The closed form of a committed batch: under the unique index, every
    referenced seat receives the entries of the batch and every other seat
    is stored as it was. *)
Lemma bookTransaction_saved (env : Env) (db : DB) (b : Req.Book) (user : IUser) (c : Committed) :
  uniqueIndex (Seats db) ->
  bookTransaction env db b user = inr c ->
  savedSeats c
  = map (fun s => if referenced b s then bookInto (Req.bookings b) s else s)
        (Seats db)
  /\ bookedDocs c
     = map (bookInto (Req.bookings b)) (filter (referenced b) (Seats db)).
Proof.
  intros Huniq H. apply bookTransaction_inr in H.
  destruct H as [event H]. cbv zeta in H.
  destruct H as (Hev & _ & _ & _ & _ & _ & _ & ->).
  apply findById_Some in Hev. destruct Hev as [_ Hid].
  unfold referenced. rewrite <- Hid. simpl.
  set (q := inBatch (map Req.seatId (Req.bookings b)) (_id event)).
  assert (Hnd : NoDup (map seatId (filter q (Seats db)))).
  { apply NoDup_seatId_of_key with (eid := _id event).
    - apply NoDup_map_filter. exact Huniq.
    - intros s Hs. apply filter_In in Hs. destruct Hs as [_ Hq].
      unfold q, inBatch, ofEvent in Hq. apply andb_true_iff in Hq.
      apply String.eqb_eq. tauto. }
  rewrite applyBookings_fst by exact Hnd.
  split; [apply saveAll_map|reflexivity].
Qed.

(** ** Answers of the booking route *)

Lemma bookMiddleware_400 b r :
  bookMiddleware b = Some r -> exists msg, r = jsonError 400 msg.
Proof.
  unfold bookMiddleware, validateDateFormatPost, validateEmail, validatePhone.
  destruct (existsb _ _); [intros [= <-]; eauto|].
  destruct (Js.find _ _); [intros [= <-]; eauto|].
  destruct (Js.find _ _); [intros [= <-]; eauto|discriminate].
Qed.

Lemma checkFields_400 bks r :
  checkFields bks = Some r -> exists msg, r = jsonError 400 msg.
Proof.
  induction bks as [|bk bks IH]; simpl; [discriminate|].
  destruct (missingFields bk); [intros [= <-]; eauto|].
  destruct (negb _); [intros [= <-]; eauto|exact IH].
Qed.

Lemma bookPrecheck_400 env today b r :
  bookPrecheck env today b = Some r -> exists msg, r = jsonError 400 msg.
Proof.
  unfold bookPrecheck.
  destruct (_ || _); [intros [= <-]; eauto|].
  destruct (negb _); [intros [= <-]; eauto|].
  destruct (checkFields _) eqn:Hf; [intros [= <-]; eapply checkFields_400; eauto|].
  destruct (existsb _ _); [intros [= <-]; eauto|discriminate].
Qed.

Lemma bookErrorResponse_failed msg : failed (Some (bookErrorResponse msg)).
Proof.
  unfold failed, bookErrorResponse. eexists. eexists. split; [reflexivity|].
  unfold bookErrorStatus. destruct (_ || _); lia.
Qed.

Lemma jsonError_400_failed msg : failed (Some (jsonError 400 msg)).
Proof. exists 400, msg. split; [reflexivity|lia]. Qed.

Lemma failed_not_succeeded r : failed r -> ~ succeeded r.
Proof.
  intros (code & msg & -> & _) [docs H]. unfold jsonError in H. discriminate.
Qed.

(** The two ways a call of the route ends: turned away with the database
    untouched, or committed. *)
Lemma book_outcome (env : Env) (today : string) (db : DB) (b : Req.Book)
      (user : IUser) :
  (fst (book env today db b user) = db
   /\ failed (snd (book env today db b user))
   /\ (bookMiddleware b <> None \/ bookPrecheck env today b <> None
       \/ exists msg, bookTransaction env db b user = inl msg))
  \/ (exists c,
        bookMiddleware b = None /\ bookPrecheck env today b = None
        /\ bookTransaction env db b user = inr c
        /\ fst (book env today db b user)
           = {| Events := Events db; Seats := savedSeats c |}).
Proof.
  unfold book, bookHandler.
  destruct (bookMiddleware b) as [r|] eqn:Hmw.
  { left. simpl. destruct (bookMiddleware_400 _ _ Hmw) as [msg ->].
    repeat split; [apply jsonError_400_failed|left; discriminate]. }
  destruct (bookPrecheck env today b) as [r|] eqn:Hpre.
  { left. simpl. destruct (bookPrecheck_400 _ _ _ _ Hpre) as [msg ->].
    repeat split; [apply jsonError_400_failed|right; left; discriminate]. }
  destruct (bookTransaction env db b user) as [msg|c] eqn:Htx.
  { left. simpl. repeat split; [apply bookErrorResponse_failed|].
    right. right. eauto. }
  right. exists c. repeat split.
  destruct (notifyAll _ _ _ _); reflexivity.
Qed.

Lemma book_succeeded (env : Env) (today : string) (db : DB) (b : Req.Book)
      (user : IUser) :
  succeeded (snd (book env today db b user)) ->
  exists c,
    bookMiddleware b = None /\ bookPrecheck env today b = None
    /\ bookTransaction env db b user = inr c
    /\ fst (book env today db b user)
       = {| Events := Events db; Seats := savedSeats c |}
    /\ snd (book env today db b user)
       = Some {| statusCode := 200;
                 body := BookedBody "Seats booked successfully" (bookedDocs c) |}.
Proof.
  intros Hs. destruct (book_outcome env today db b user) as [(_ & Hf & _)|(c & Hmw & Hpre & Htx & Hdb)].
  - exfalso. eapply failed_not_succeeded; eauto.
  - exists c. repeat split; try assumption.
    revert Hs. unfold book, bookHandler. rewrite Hmw, Hpre, Htx.
    destruct (notifyAll _ _ _ _); simpl.
    + destruct (abortAfterCommitRejects env); intros [docs H]; [discriminate|].
      unfold bookErrorResponse, jsonError in H. discriminate.
    + reflexivity.
Qed.

(** ** Enough for a 200 *)

Lemma checkAvailable_free d seats :
  (forall s, In s seats -> bookingOn d s = None) ->
  checkAvailable d seats = inr tt.
Proof.
  induction seats as [|x l IH]; simpl; intros H; [reflexivity|].
  rewrite (H x (or_introl eq_refl)). apply IH.
  intros s Hs. apply H. right. exact Hs.
Qed.

(** A batch that passes every check of the route, on an open event or from
    an admin, for stored seats that are free on the event's date, is
    committed and, when every confirmation mail goes out, answered 200. *)
Lemma book_succeeds (env : Env) (today : string) (db : DB) (b : Req.Book)
      (user : IUser) (event : IEvent) :
  let bks := Req.bookings b in
  let docs := filter (referenced b) (Seats db) in
  let saved := map (fun s => if referenced b s then bookInto bks s else s)
                   (Seats db) in
  uniqueIndex (Seats db) ->
  bookMiddleware b = None ->
  bookPrecheck env today b = None ->
  findById (Req.eventId b) (Events db) = Some event ->
  (forall bk, In bk bks -> Req.bookingDate bk = eventDate event) ->
  (registrationClosed event = true -> isAdmin user = true) ->
  NoDup (map Req.seatId bks) ->
  List.length docs = List.length bks ->
  (forall s, In s docs -> ~ In (eventDate event) (map date (bookings s))) ->
  forallb validSeat (map (bookInto bks) docs) = true ->
  notifyAll env {| Events := Events db; Seats := saved |}
            (snd (fold_left applyBooking bks (docs, []))) (eventDate event)
  = inr tt ->
  book env today db b user
  = ({| Events := Events db; Seats := saved |},
     Some {| statusCode := 200;
             body := BookedBody "Seats booked successfully"
                                (map (bookInto bks) docs) |}).
Proof.
  intros bks docs saved Huniq Hmw Hpre Hev Hdates Hadm Hnd Hlen Hfree Hvalid Hmail.
  pose proof (findById_Some _ _ _ Hev) as [_ Hid].
  assert (Hdocs : NoDup (map seatId docs)).
  { apply NoDup_seatId_of_key with (eid := castObjectId (Req.eventId b)).
    - apply NoDup_map_filter. exact Huniq.
    - intros s Hs. apply filter_In in Hs. destruct Hs as [_ Hq].
      unfold referenced, inBatch, ofEvent in Hq. apply andb_true_iff in Hq.
      apply String.eqb_eq. tauto. }
  assert (Htx : bookTransaction env db b user
                = inr {| savedSeats := saved;
                         bookedDocs := map (bookInto bks) docs;
                         emailToSeats := snd (fold_left applyBooking bks (docs, []));
                         bookedDate := eventDate event |}).
  { unfold bookTransaction. rewrite Hev, Hid. fold bks.
    change (filter (inBatch (map Req.seatId bks) (castObjectId (Req.eventId b)))
                   (Seats db))
      with docs.
    assert (H1 : existsb (fun bk => negb (String.eqb (Req.bookingDate bk)
                                                     (eventDate event))) bks
                 = false).
    { apply not_true_iff_false. intros H. apply existsb_exists in H.
      destruct H as [bk [Hbk H]]. rewrite (Hdates bk Hbk), String.eqb_refl in H.
      discriminate. }
    assert (H2 : registrationClosed event && negb (isAdmin user) = false).
    { destruct (registrationClosed event); [|reflexivity].
      rewrite (Hadm eq_refl). reflexivity. }
    assert (H3 : (Js.setSize (map Req.seatId bks)
                  =? List.length (map Req.seatId bks)) = true).
    { unfold Js.setSize. rewrite (nodup_fixed_point string_dec Hnd).
      apply Nat.eqb_refl. }
    assert (H4 : (List.length docs =? List.length (map Req.seatId bks)) = true).
    { rewrite length_map, Hlen. apply Nat.eqb_refl. }
    assert (H5 : checkAvailable (eventDate event) docs = inr tt).
    { apply checkAvailable_free. intros s Hs. apply bookingOn_None.
      apply Hfree. exact Hs. }
    assert (H6 : fst (fold_left applyBooking bks (docs, []))
                 = map (bookInto bks) docs)
      by (apply applyBookings_fst; exact Hdocs).
    rewrite H1, H2, H3, H4. cbn [throwIf negb bind]. rewrite H5. cbn [bind].
    rewrite H6, Hvalid. cbn [throwIf negb bind ret]. unfold saved.
    rewrite <- (saveAll_map (referenced b) (bookInto bks) (Seats db)).
    reflexivity. }
  unfold book, bookHandler. rewrite Hmw, Hpre, Htx.
  cbn [savedSeats emailToSeats bookedDate bookedDocs]. rewrite Hmail.
  reflexivity.
Qed.

(** ** Frame of a committed batch *)

Lemma Forall2_map_self {A} (R : A -> A -> Prop) (g : A -> A) (l : list A) :
  (forall x, In x l -> R x (g x)) -> Forall2 R l (map g l).
Proof.
  induction l as [|x l IH]; intros H; simpl; constructor.
  - apply H. left. reflexivity.
  - apply IH. intros y Hy. apply H. right. exact Hy.
Qed.

Lemma referenced_seatId b s :
  referenced b s = true ->
  exists bk, In bk (Req.bookings b) /\ Req.seatId bk = seatId s.
Proof.
  unfold referenced, inBatch. intros H. apply andb_true_iff in H.
  destruct H as [H _]. apply mem_In in H. apply in_map_iff in H.
  destruct H as [bk [Heq Hin]]. eauto.
Qed.

Lemma bookInto_single b bk s :
  NoDup (map Req.seatId (Req.bookings b)) ->
  In bk (Req.bookings b) -> Req.seatId bk = seatId s ->
  bookInto (Req.bookings b) s = pushBooking (castBooking bk) s.
Proof.
  intros Hnd Hin Heq. unfold bookInto, pushBooking, entriesFor.
  rewrite <- Heq. rewrite (filter_unique Req.seatId _ _ Hnd Hin). reflexivity.
Qed.

(** Every seat the batch names is stored, once the lengths agree. *)
Lemma referenced_all_found (db : DB) (b : Req.Book) :
  uniqueIndex (Seats db) ->
  NoDup (map Req.seatId (Req.bookings b)) ->
  List.length (filter (referenced b) (Seats db)) = List.length (Req.bookings b) ->
  forall bk, In bk (Req.bookings b) ->
             exists s, In s (Seats db) /\ referenced b s = true
                       /\ seatId s = Req.seatId bk.
Proof.
  intros Huniq Hnd Hlen bk Hbk.
  set (docs := filter (referenced b) (Seats db)) in *.
  assert (Hdocs : NoDup (map seatId docs)).
  { apply NoDup_seatId_of_key with (eid := castObjectId (Req.eventId b)).
    - apply NoDup_map_filter. exact Huniq.
    - intros s Hs. apply filter_In in Hs. destruct Hs as [_ Hq].
      unfold referenced, inBatch, ofEvent in Hq. apply andb_true_iff in Hq.
      apply String.eqb_eq. tauto. }
  assert (Hincl : incl (map seatId docs) (map Req.seatId (Req.bookings b))).
  { intros sid Hsid. apply in_map_iff in Hsid. destruct Hsid as [s [<- Hs]].
    apply filter_In in Hs. destruct Hs as [_ Hq].
    unfold referenced, inBatch in Hq. apply andb_true_iff in Hq.
    apply mem_In. tauto. }
  assert (Hback : incl (map Req.seatId (Req.bookings b)) (map seatId docs)).
  { apply NoDup_length_incl; [exact Hdocs| |exact Hincl].
    rewrite !length_map. lia. }
  assert (Hin : In (Req.seatId bk) (map seatId docs))
    by (apply Hback, in_map; exact Hbk).
  apply in_map_iff in Hin. destruct Hin as [s [Hs Hin]].
  apply filter_In in Hin. exists s. tauto.
Qed.

(** C9, as the code has it. A successful call of the booking route with a
    batch of [n] distinct seatIds appends exactly one entry to each of the
    [n] seats the batch names: the entry carries the batch date, status
    [booked], and the occupant's name, email and optional phone with
    leading and trailing white space removed, as the seat schema's [trim]
    setting prescribes. Every other seat, every earlier entry of the named
    seats and every event are stored as before. *)
Theorem book_appends_one_entry (env : Env) (today : string) (db : DB)
        (b : Req.Book) (user : IUser) :
  uniqueIndex (Seats db) ->
  succeeded (snd (book env today db b user)) ->
  let db' := fst (book env today db b user) in
  NoDup (map Req.seatId (Req.bookings b))
  /\ Events db' = Events db
  /\ List.length (filter (referenced b) (Seats db)) = List.length (Req.bookings b)
  /\ (forall bk, In bk (Req.bookings b) ->
                 exists s, In s (Seats db) /\ referenced b s = true
                           /\ seatId s = Req.seatId bk)
  /\ Forall2
       (fun s s' =>
          (referenced b s = false /\ s' = s)
          \/ (exists bk,
                In bk (Req.bookings b) /\ Req.seatId bk = seatId s
                /\ referenced b s = true
                /\ s' = pushBooking
                          {| date := Req.bookingDate bk;
                             bookedBy :=
                               {| name := Js.trim (Req.name bk);
                                  email := Js.trim (Req.email bk);
                                  phone := option_map Js.trim (Req.phone bk) |};
                             status := booked |} s))
       (Seats db) (Seats db').
Proof.
  intros Huniq Hs db'. subst db'.
  destruct (book_succeeded _ _ _ _ _ Hs) as (c & _ & _ & Htx & Hdb & _).
  destruct (bookTransaction_saved _ _ _ _ _ Huniq Htx) as [Hsaved _].
  destruct (bookTransaction_inr _ _ _ _ _ Htx) as [event Hinv]. cbv zeta in Hinv.
  destruct Hinv as (Hev & _ & _ & Hnd & Hlen & _).
  apply findById_Some in Hev. destruct Hev as [_ Hid].
  assert (Hlen' : List.length (filter (referenced b) (Seats db))
                  = List.length (Req.bookings b)).
  { unfold referenced. rewrite <- Hid. exact Hlen. }
  rewrite Hdb. simpl. rewrite Hsaved.
  split; [exact Hnd|]. split; [reflexivity|]. split; [exact Hlen'|].
  split; [apply referenced_all_found; assumption|].
  apply Forall2_map_self. intros s _.
  destruct (referenced b s) eqn:Href; [right|left; tauto].
  destruct (referenced_seatId _ _ Href) as [bk [Hbk Heq]].
  exists bk. repeat split; try assumption.
  apply bookInto_single; assumption.
Qed.

(** ** Invariants of the stored seats *)

Lemma generateSeats_keys (eid : string) (total : nat) :
  NoDup (map seatKey (generateSeats eid total)).
Proof.
  assert (H : NoDup (map seatId (generateSeats eid total))).
  { rewrite generateSeats_ids. apply NoDup_firstn, rowMajorSeatIds_NoDup. }
  apply NoDup_map_inv in H.
  apply NoDup_map_NoDup_ForallPairs; [|exact H].
  intros x y Hx Hy Hkey. unfold seatKey in Hkey. injection Hkey as Hid _.
  rewrite generateSeats_firstn in Hx, Hy.
  assert (Hall : forall z, In z (firstn total
                   (flat_map (fun rw => map (newSeat eid rw) columns) rows)) ->
                 exists rw col, z = newSeat eid rw col /\ In rw rows /\ In col columns).
  { intros z Hz.
    assert (Hz' : In z (flat_map (fun rw => map (newSeat eid rw) columns) rows)).
    { rewrite <- (firstn_skipn total (flat_map _ rows)).
      apply in_or_app. left. exact Hz. }
    apply in_flat_map in Hz'. destruct Hz' as [rw [Hrw Hz']].
    apply in_map_iff in Hz'. destruct Hz' as [col [<- Hcol]]. eauto. }
  destruct (Hall x Hx) as (rx & cx & -> & Hrx & Hcx).
  destruct (Hall y Hy) as (ry & cy & -> & Hry & Hcy).
  simpl in Hid.
  assert (Hinj : forall r1 c1 r2 c2,
             In r1 rows -> In c1 columns -> In r2 rows -> In c2 columns ->
             (r1 ++ Js.ofNat c1)%string = (r2 ++ Js.ofNat c2)%string ->
             r1 = r2 /\ c1 = c2).
  { clear. intros r1 c1 r2 c2 Hr1 Hc1 Hr2 Hc2 Heq.
    assert (Hrow : forall r, In r rows -> exists a, r = String a EmptyString).
    { intros r Hr. unfold rows in Hr. apply in_map_iff in Hr.
      destruct Hr as [a [<- _]]. eauto. }
    destruct (Hrow r1 Hr1) as [a1 ->]. destruct (Hrow r2 Hr2) as [a2 ->].
    simpl in Heq. injection Heq as Ha Hc. subst a2. split; [reflexivity|].
    simpl in Hc1, Hc2.
    repeat (destruct Hc1 as [<-|Hc1]);
      repeat (destruct Hc2 as [<-|Hc2]);
      try reflexivity; try discriminate; try contradiction. }
  destruct (Hinj rx cx ry cy Hrx Hcx Hry Hcy Hid) as [-> ->]. reflexivity.
Qed.

Lemma initializeSeats_uniqueIndex (eid : string) (total : nat) (seats : list ISeat) :
  uniqueIndex seats -> uniqueIndex (initializeSeats eid total seats).
Proof.
  unfold uniqueIndex, initializeSeats. intros H.
  destruct (total <=? _); [exact H|].
  rewrite map_app. apply NoDup_app.
  - apply NoDup_map_filter. exact H.
  - apply generateSeats_keys.
  - intros k Hk Hk'. apply in_map_iff in Hk. destruct Hk as [s [<- Hs]].
    apply in_map_iff in Hk'. destruct Hk' as [s' [Hkey Hs']].
    apply filter_In in Hs. destruct Hs as [_ Hs].
    unfold seatKey in Hkey. injection Hkey as _ He.
    rewrite (generateSeats_ofEvent _ _ _ Hs') in He.
    unfold ofEvent in Hs. rewrite <- He, String.eqb_refl in Hs. discriminate.
Qed.

Lemma initializeSeats_ledgerUnique (eid : string) (total : nat) (seats : list ISeat) :
  ledgerUnique seats -> ledgerUnique (initializeSeats eid total seats).
Proof.
  unfold ledgerUnique, initializeSeats. intros H s Hs.
  destruct (total <=? _); [auto|].
  apply in_app_or in Hs. destruct Hs as [Hs|Hs].
  - apply filter_In in Hs. apply H. tauto.
  - rewrite (generateSeats_unbooked _ _ _ Hs). constructor.
Qed.

(** What the booking route does to the Seat collection, whatever its
    answer. *)
Lemma book_seats (env : Env) (today : string) (db : DB) (b : Req.Book)
      (user : IUser) :
  uniqueIndex (Seats db) ->
  Events (fst (book env today db b user)) = Events db
  /\ (Seats (fst (book env today db b user)) = Seats db
      \/ exists event,
           findById (Req.eventId b) (Events db) = Some event
           /\ (forall bk, In bk (Req.bookings b) ->
                          Req.bookingDate bk = eventDate event)
           /\ NoDup (map Req.seatId (Req.bookings b))
           /\ (forall s, In s (Seats db) -> referenced b s = true ->
                         bookingOn (eventDate event) s = None)
           /\ Seats (fst (book env today db b user))
              = map (fun s => if referenced b s
                              then bookInto (Req.bookings b) s else s)
                    (Seats db)).
Proof.
  intros Huniq.
  destruct (book_outcome env today db b user)
    as [(Hdb & _ & _)|(c & _ & _ & Htx & Hdb)].
  - rewrite Hdb. split; [reflexivity|left; reflexivity].
  - rewrite Hdb. simpl. split; [reflexivity|right].
    destruct (bookTransaction_saved _ _ _ _ _ Huniq Htx) as [Hsaved _].
    destruct (bookTransaction_inr _ _ _ _ _ Htx) as [event Hinv].
    cbv zeta in Hinv. destruct Hinv as (Hev & Hdates & _ & Hnd & _ & Hfree & _).
    exists event. repeat split; try assumption.
    intros s Hs Href. apply Hfree. apply filter_In. split; [exact Hs|].
    apply findById_Some in Hev. destruct Hev as [_ Hid].
    rewrite Hid. exact Href.
Qed.

Lemma wellFormed_empty (events : list IEvent) :
  wellFormed {| Events := events; Seats := [] |}.
Proof. split; [constructor|intros s []]. Qed.

Lemma book_wellFormed (env : Env) (today : string) (db : DB) (b : Req.Book)
      (user : IUser) :
  wellFormed db -> wellFormed (fst (book env today db b user)).
Proof.
  intros [Huniq Hled].
  destruct (book_seats env today db b user Huniq)
    as [_ [Hsame|(event & _ & Hdates & Hnd & Hfree & Hsaved)]].
  - unfold wellFormed. rewrite Hsame. tauto.
  - unfold wellFormed. rewrite Hsaved. split.
    + unfold uniqueIndex. rewrite map_map.
      erewrite map_ext; [exact Huniq|].
      intros s. simpl. destruct (referenced b s); reflexivity.
    + intros s' Hs'. apply in_map_iff in Hs'. destruct Hs' as [s [<- Hs]].
      destruct (referenced b s) eqn:Href; [|apply Hled; exact Hs].
      destruct (referenced_seatId _ _ Href) as [bk [Hbk Heq]].
      rewrite (bookInto_single b bk s Hnd Hbk Heq). simpl.
      rewrite map_app. simpl. rewrite (Hdates bk Hbk).
      apply NoDup_app; [apply Hled; exact Hs|repeat constructor; intros []|].
      intros d Hd [<-|[]]. revert Hd. apply bookingOn_None.
      apply Hfree; assumption.
Qed.

Lemma call_wellFormed (env : Env) (db : DB) (c : Call) :
  wellFormed db -> wellFormed (fst (call env db c)).
Proof.
  intros Hwf. destruct c as [today b user|id|eid total|today d|today ids d]; simpl.
  - apply book_wellFormed. exact Hwf.
  - unfold closeRegistration.
    destruct (negb _); [exact Hwf|].
    destruct (findById _ _); [|exact Hwf].
    destruct (registrationClosed _); exact Hwf.
  - unfold initializeRoute.
    destruct (_ || _); [exact Hwf|].
    destruct (findById _ _); [|exact Hwf].
    destruct Hwf as [Hu Hl]. split; simpl.
    + apply initializeSeats_uniqueIndex. exact Hu.
    + apply initializeSeats_ledgerUnique. exact Hl.
  - unfold getSeats.
    destruct (validateDateFormatGet d); [exact Hwf|].
    destruct (negb _); [exact Hwf|].
    destruct (String.eqb d today); [exact Hwf|].
    destruct (findOneByDate _ _); [|exact Hwf].
    simpl. destruct (_ <? _); [|exact Hwf].
    destruct Hwf as [Hu Hl]. split; simpl.
    + apply initializeSeats_uniqueIndex. exact Hu.
    + apply initializeSeats_ledgerUnique. exact Hl.
  - unfold getSeatsByIds.
    destruct (validateDateFormatGet d); [exact Hwf|].
    destruct (_ || _); [exact Hwf|].
    destruct (negb _); [exact Hwf|].
    destruct (String.eqb d today); [exact Hwf|].
    destruct (findOneByDate _ _); [|exact Hwf].
    destruct (_ || _); exact Hwf.
Qed.

Lemma run_wellFormed (env : Env) (cs : list Call) :
  forall db, wellFormed db -> wellFormed (run env db cs).
Proof.
  induction cs as [|c cs IH]; intros db Hwf; simpl; [exact Hwf|].
  apply IH. apply call_wellFormed. exact Hwf.
Qed.

(** ** The double-booking guard *)

(** A booked seat makes every batch that names it on that date fail. *)
Lemma book_conflict (env : Env) (today : string) (db : DB) (b : Req.Book)
      (user : IUser) (sid d : string) :
  bookedOn (castObjectId (Req.eventId b)) sid d (Seats db) ->
  requests b sid d ->
  fst (book env today db b user) = db
  /\ failed (snd (book env today db b user)).
Proof.
  intros (s & Hs & Heid & Hsid & Hd) (bk & Hbk & Hbsid & Hbd).
  destruct (book_outcome env today db b user)
    as [(Hdb & Hf & _)|(c & _ & _ & Htx & _)]; [tauto|].
  exfalso.
  destruct (bookTransaction_inr _ _ _ _ _ Htx) as [event Hinv].
  cbv zeta in Hinv. destruct Hinv as (Hev & Hdates & _ & _ & _ & Hfree & _).
  apply findById_Some in Hev. destruct Hev as [_ Hid].
  assert (Hq : In s (filter (inBatch (map Req.seatId (Req.bookings b)) (_id event))
                            (Seats db))).
  { apply filter_In. split; [exact Hs|].
    unfold inBatch, ofEvent. apply andb_true_iff. split.
    - apply mem_In. rewrite Hsid, <- Hbsid. apply in_map. exact Hbk.
    - rewrite Heid, Hid. apply String.eqb_refl. }
  apply Hfree in Hq. apply bookingOn_None in Hq. apply Hq.
  rewrite <- (Hdates bk Hbk), Hbd. exact Hd.
Qed.

Lemma book_keeps_booked (env : Env) (today : string) (db : DB) (b : Req.Book)
      (user : IUser) (eid sid d : string) :
  uniqueIndex (Seats db) ->
  bookedOn eid sid d (Seats db) ->
  bookedOn eid sid d (Seats (fst (book env today db b user))).
Proof.
  intros Huniq (s & Hs & Heid & Hsid & Hd).
  destruct (book_seats env today db b user Huniq)
    as [_ [->|(event & _ & _ & _ & _ & ->)]].
  - exists s. tauto.
  - exists (if referenced b s then bookInto (Req.bookings b) s else s).
    split; [apply (in_map (fun s => if referenced b s
                                    then bookInto (Req.bookings b) s else s)); exact Hs|].
    destruct (referenced b s); simpl; repeat split; try assumption.
    rewrite map_app. apply in_or_app. left. exact Hd.
Qed.

Lemma call_keeps_booked (env : Env) (db : DB) (c : Call) (eid sid d : string) :
  callsInitializer c = false ->
  uniqueIndex (Seats db) ->
  bookedOn eid sid d (Seats db) ->
  bookedOn eid sid d (Seats (fst (call env db c))).
Proof.
  intros Hc Huniq Hb.
  destruct c as [today b user|id|eid' total|today d'|today ids d'];
    simpl in *; try discriminate.
  - apply book_keeps_booked; assumption.
  - unfold closeRegistration.
    destruct (negb _); [exact Hb|].
    destruct (findById _ _); [|exact Hb].
    destruct (registrationClosed _); exact Hb.
  - unfold getSeatsByIds.
    destruct (validateDateFormatGet d'); [exact Hb|].
    destruct (_ || _); [exact Hb|].
    destruct (negb _); [exact Hb|].
    destruct (String.eqb d' today); [exact Hb|].
    destruct (findOneByDate _ _); [|exact Hb].
    destruct (_ || _); exact Hb.
Qed.

Lemma run_keeps_booked (env : Env) (cs : list Call) (eid sid d : string) :
  forallb (fun c => negb (callsInitializer c)) cs = true ->
  forall db, wellFormed db ->
             bookedOn eid sid d (Seats db) ->
             bookedOn eid sid d (Seats (run env db cs)).
Proof.
  induction cs as [|c cs IH]; simpl; intros Hcs db Hwf Hb; [exact Hb|].
  apply andb_true_iff in Hcs. destruct Hcs as [Hc Hcs].
  apply negb_true_iff in Hc.
  apply IH; [exact Hcs|apply call_wellFormed; exact Hwf|].
  apply call_keeps_booked; [exact Hc|apply Hwf|exact Hb].
Qed.

(** A successful batch leaves each seat it names booked on its date. *)
Lemma book_succeeded_booked (env : Env) (today : string) (db : DB)
      (b : Req.Book) (user : IUser) (sid d : string) :
  uniqueIndex (Seats db) ->
  succeeded (snd (book env today db b user)) ->
  requests b sid d ->
  bookedOn (castObjectId (Req.eventId b)) sid d
           (Seats (fst (book env today db b user))).
Proof.
  intros Huniq Hs (bk & Hbk & Hbsid & Hbd).
  destruct (book_succeeded _ _ _ _ _ Hs) as (c & _ & _ & Htx & Hdb & _).
  destruct (bookTransaction_saved _ _ _ _ _ Huniq Htx) as [Hsaved _].
  destruct (bookTransaction_inr _ _ _ _ _ Htx) as [event Hinv].
  cbv zeta in Hinv. destruct Hinv as (Hev & _ & _ & Hnd & Hlen & _).
  apply findById_Some in Hev. destruct Hev as [_ Hid].
  assert (Hlen' : List.length (filter (referenced b) (Seats db))
                  = List.length (Req.bookings b)).
  { unfold referenced. rewrite <- Hid. exact Hlen. }
  destruct (referenced_all_found db b Huniq Hnd Hlen' bk Hbk)
    as (s & Hs' & Href & Hsid).
  rewrite Hdb. simpl. rewrite Hsaved.
  exists (bookInto (Req.bookings b) s). split.
  - apply in_map_iff. exists s. rewrite Href. tauto.
  - rewrite (bookInto_single b bk s Hnd Hbk (eq_sym Hsid)).
    unfold referenced, inBatch, ofEvent in Href.
    apply andb_true_iff in Href. destruct Href as [_ He].
    apply String.eqb_eq in He. simpl. repeat split; try congruence.
    rewrite map_app. apply in_or_app. right. simpl. left. exact Hbd.
Qed.

(** The double-booking guard as far as the code keeps it. Let a call of
    the booking route succeed with a batch that names seat [sid] on date
    [d]. Then, as long as only booking, registration-closing and by-ids
    listing calls follow, every later call of the booking route whose
    batch names the same seat of the same event on date [d] fails and
    changes nothing, whatever else its batch holds and whoever the
    requester is; and in every state the system reaches, through any calls
    at all, no seat holds two entries of one date. The calls left out
    are those that may run the seat initializer, through which the guard
    is lost: see the section on where the code departs from the
    specification. *)
Theorem no_double_booking (env : Env) (db : DB)
        (t1 : string) (b1 : Req.Book) (u1 : IUser) (sid d : string)
        (calls : list Call)
        (t2 : string) (b2 : Req.Book) (u2 : IUser) :
  wellFormed db ->
  succeeded (snd (book env t1 db b1 u1)) ->
  requests b1 sid d ->
  forallb (fun c => negb (callsInitializer c)) calls = true ->
  castObjectId (Req.eventId b2) = castObjectId (Req.eventId b1) ->
  requests b2 sid d ->
  let db2 := run env (fst (book env t1 db b1 u1)) calls in
  failed (snd (book env t2 db2 b2 u2))
  /\ fst (book env t2 db2 b2 u2) = db2
  /\ (forall cs, ledgerUnique (Seats (run env db cs))).
Proof.
  intros Hwf Hs Hr1 Hcalls Heid Hr2 db2.
  assert (Hb : bookedOn (castObjectId (Req.eventId b2)) sid d (Seats db2)).
  { subst db2. apply run_keeps_booked; [exact Hcalls| |].
    - apply book_wellFormed. exact Hwf.
    - rewrite Heid. apply book_succeeded_booked; [apply Hwf|exact Hs|exact Hr1]. }
  destruct (book_conflict env t2 db2 b2 u2 sid d Hb Hr2) as [Hdb Hf].
  split; [exact Hf|]. split; [exact Hdb|].
  intros cs. apply (run_wellFormed env cs db Hwf).
Qed.

(** ** All-or-nothing *)

(** C2. When a validation step of the booking route fails (the
    middleware, the checks ahead of the transaction, or any check inside
    it), and in particular when a seat the batch names already holds an
    entry for the event's date, the call answers with an error and the
    database after it is the database before it: no seat of the batch
    gains an entry. *)
Theorem book_all_or_nothing (env : Env) (today : string) (db : DB)
        (b : Req.Book) (user : IUser) :
  (bookMiddleware b <> None
   \/ bookPrecheck env today b <> None
   \/ (exists msg, bookTransaction env db b user = inl msg)
   \/ (exists event s,
         findById (Req.eventId b) (Events db) = Some event
         /\ In s (Seats db) /\ referenced b s = true
         /\ In (eventDate event) (map date (bookings s)))) ->
  fst (book env today db b user) = db
  /\ failed (snd (book env today db b user)).
Proof.
  intros H.
  destruct (book_outcome env today db b user)
    as [(Hdb & Hf & _)|(c & Hmw & Hpre & Htx & _)]; [tauto|].
  exfalso. destruct H as [H|[H|[[msg H]|(event & s & Hev & Hs & Href & Hd)]]].
  - apply H. exact Hmw.
  - apply H. exact Hpre.
  - rewrite Htx in H. discriminate.
  - destruct (bookTransaction_inr _ _ _ _ _ Htx) as [event' Hinv].
    cbv zeta in Hinv. destruct Hinv as (Hev' & _ & _ & _ & _ & Hfree & _).
    rewrite Hev in Hev'. injection Hev' as <-.
    apply findById_Some in Hev. destruct Hev as [_ Hid].
    assert (Hq : In s (filter (inBatch (map Req.seatId (Req.bookings b)) (_id event))
                              (Seats db))).
    { apply filter_In. split; [exact Hs|]. rewrite Hid. exact Href. }
    apply Hfree in Hq. apply bookingOn_None in Hq. exact (Hq Hd).
Qed.

(** ** Closed registration and the admin override *)

Lemma setRegistration_id flag id e : _id (setRegistration flag id e) = _id e.
Proof. unfold setRegistration. destruct (String.eqb _ _); reflexivity. Qed.

Lemma findById_setRegistration flag id' id events :
  findById id (map (setRegistration flag id') events)
  = option_map (setRegistration flag id') (findById id events).
Proof.
  unfold findById, Js.find.
  induction events as [|e events IH]; simpl; [reflexivity|].
  rewrite setRegistration_id.
  destruct (String.eqb (_id e) (castObjectId id)); [reflexivity|exact IH].
Qed.

(** The confirmation mail consults the Event collection only to see
    whether the event of the seats exists. *)
Lemma sendBookingConfirmation_events env events events' seats to ids nm d :
  (forall id, findById id events' = None <-> findById id events = None) ->
  sendBookingConfirmation env {| Events := events'; Seats := seats |} to ids nm d
  = sendBookingConfirmation env {| Events := events; Seats := seats |} to ids nm d.
Proof.
  intros H. unfold sendBookingConfirmation. simpl Seats. simpl Events.
  destruct (throwIf (negb (forallb (Js.test seatIdRe) ids)) _); [reflexivity|].
  cbn [bind].
  destruct (throwIf (negb (_ =? _)) _); [reflexivity|]. cbn [bind].
  destruct (filter (inIds ids) seats) as [|first rest]; [reflexivity|].
  destruct (throwIf (negb (forallb _ _)) _); [reflexivity|]. cbn [bind].
  destruct (throwIf (negb (isValidObjectId env _)) _); [reflexivity|]. cbn [bind].
  destruct (findById (eventId first) events') eqn:H1;
    destruct (findById (eventId first) events) eqn:H2; try reflexivity.
  - apply H in H2. congruence.
  - apply H in H1. congruence.
Qed.

Lemma notifyAll_events env events events' seats m d :
  (forall id, findById id events' = None <-> findById id events = None) ->
  notifyAll env {| Events := events'; Seats := seats |} m d
  = notifyAll env {| Events := events; Seats := seats |} m d.
Proof.
  intros H. induction m as [|[mail [nm ids]] m IH]; simpl; [reflexivity|].
  rewrite (sendBookingConfirmation_events env events events' seats mail ids nm d H).
  rewrite IH. reflexivity.
Qed.

Lemma bookTransaction_reopened (env : Env) (db : DB) (b : Req.Book) (event : IEvent)
      (user user' : IUser) :
  findById (Req.eventId b) (Events db) = Some event ->
  registrationClosed event = true ->
  isAdmin user = true ->
  bookTransaction env db b user
  = bookTransaction env (withRegistration false (Req.eventId b) db) b user'.
Proof.
  intros Hev Hclosed Hadmin. unfold bookTransaction, withRegistration.
  simpl Events. simpl Seats.
  rewrite findById_setRegistration, Hev. simpl option_map.
  pose proof (findById_Some _ _ _ Hev) as [_ Hid].
  unfold setRegistration. rewrite Hid, String.eqb_refl.
  cbn [_id eventDate registrationClosed]. rewrite Hclosed, Hadmin.
  reflexivity.
Qed.

Lemma bookTransaction_closed (env : Env) (db : DB) (b : Req.Book) (event : IEvent)
      (user user' : IUser) (c : Committed) :
  findById (Req.eventId b) (Events db) = Some event ->
  registrationClosed event = true ->
  isAdmin user' = false ->
  bookTransaction env db b user = inr c ->
  bookTransaction env db b user' = inl "Registration for this event is closed".
Proof.
  intros Hev Hclosed Hmember. unfold bookTransaction. rewrite Hev.
  destruct (throwIf (existsb _ _) _); [discriminate|]. cbn [bind].
  rewrite Hclosed, Hmember. reflexivity.
Qed.

(** C7. For an event whose registration is closed: a call of the booking
    route by a requester who is not an admin fails and changes nothing; a
    call by an admin is answered, and changes the seats, exactly as the
    same call is for the same event with its registration open, so an
    admin call that would succeed with the registration open succeeds;
    and where the admin's call
    succeeds, the only thing that stops the same call by a non-admin is
    the closed registration. *)
Theorem closed_registration_admin_override (env : Env) (today : string)
        (db : DB) (b : Req.Book) (event : IEvent) :
  findById (Req.eventId b) (Events db) = Some event ->
  registrationClosed event = true ->
  (forall user, isAdmin user = false ->
                fst (book env today db b user) = db
                /\ failed (snd (book env today db b user)))
  /\ (forall user user', isAdmin user = true ->
        let dbOpen := withRegistration false (Req.eventId b) db in
        snd (book env today db b user) = snd (book env today dbOpen b user')
        /\ Seats (fst (book env today db b user))
           = Seats (fst (book env today dbOpen b user')))
  /\ (forall user user', isAdmin user = true ->
        succeeded (snd (book env today
                             (withRegistration false (Req.eventId b) db) b user')) ->
        succeeded (snd (book env today db b user)))
  /\ (forall user user', isAdmin user = true -> isAdmin user' = false ->
        succeeded (snd (book env today db b user)) ->
        exists code,
          snd (book env today db b user')
          = Some (jsonError code "Registration for this event is closed")).
Proof.
  intros Hev Hclosed.
  assert (Hsame : forall user user', isAdmin user = true ->
            snd (book env today db b user)
            = snd (book env today (withRegistration false (Req.eventId b) db)
                        b user')
            /\ Seats (fst (book env today db b user))
               = Seats (fst (book env today
                                  (withRegistration false (Req.eventId b) db)
                                  b user'))).
  { intros user user' Hadmin.
    unfold book, bookHandler.
    destruct (bookMiddleware b); [split; reflexivity|].
    destruct (bookPrecheck env today b); [split; reflexivity|].
    rewrite <- (bookTransaction_reopened env db b event user user' Hev Hclosed Hadmin).
    destruct (bookTransaction env db b user) as [msg|c]; [split; reflexivity|].
    unfold withRegistration. simpl Events.
    rewrite (notifyAll_events env (Events db)
               (map (setRegistration false (Req.eventId b)) (Events db))).
    + destruct (notifyAll _ _ _ _); split; reflexivity.
    + intros id. rewrite findById_setRegistration.
      destruct (findById id (Events db)); simpl; split; congruence. }
  split; [|split; [|split]].
  - intros user Hmember.
    destruct (book_outcome env today db b user)
      as [(Hdb & Hf & _)|(c & _ & _ & Htx & _)]; [tauto|].
    exfalso. destruct (bookTransaction_inr _ _ _ _ _ Htx) as [event' Hinv].
    cbv zeta in Hinv. destruct Hinv as (Hev' & _ & Hadm & _).
    rewrite Hev in Hev'. injection Hev' as <-.
    rewrite (Hadm Hclosed) in Hmember. discriminate.
  - intros user user' Hadmin dbOpen. subst dbOpen.
    apply Hsame. exact Hadmin.
  - intros user user' Hadmin Hopen.
    rewrite (proj1 (Hsame user user' Hadmin)). exact Hopen.
  - intros user user' Hadmin Hmember Hs.
    destruct (book_succeeded _ _ _ _ _ Hs) as (c & Hmw & Hpre & Htx & _).
    unfold book, bookHandler. rewrite Hmw, Hpre.
    rewrite (bookTransaction_closed env db b event user user' c Hev Hclosed Hmember Htx).
    simpl. eexists. reflexivity.
Qed.

(** ** Closing registration *)

Lemma findById_updateFirst_close id id' events :
  findById id (updateFirst (fun e => String.eqb (_id e) id') closeEvent events)
  = if String.eqb (castObjectId id) id'
    then option_map closeEvent (findById id events)
    else findById id events.
Proof.
  unfold findById, Js.find. generalize (castObjectId id) as oid. intros oid.
  induction events as [|e events IH]; simpl.
  - destruct (String.eqb oid id'); reflexivity.
  - destruct (String.eqb_spec (_id e) id') as [He|He]; simpl.
    + destruct (String.eqb_spec oid id') as [Hi|Hi].
      * subst. rewrite String.eqb_refl. reflexivity.
      * destruct (String.eqb_spec (_id e) oid); [congruence|reflexivity].
    + destruct (String.eqb_spec (_id e) oid) as [Hi|Hi].
      * destruct (String.eqb_spec oid id'); [congruence|reflexivity].
      * exact IH.
Qed.

Lemma book_events (env : Env) (today : string) (db : DB) (b : Req.Book)
      (user : IUser) :
  Events (fst (book env today db b user)) = Events db.
Proof.
  destruct (book_outcome env today db b user)
    as [(-> & _)|(c & _ & _ & _ & ->)]; reflexivity.
Qed.

(** A closed event stays closed through every call. *)
Lemma call_keeps_closed (env : Env) (db : DB) (c : Call) (id : string) (e : IEvent) :
  findById id (Events db) = Some e -> registrationClosed e = true ->
  exists e', findById id (Events (fst (call env db c))) = Some e'
             /\ registrationClosed e' = true.
Proof.
  intros He Hc.
  destruct c as [today b user|id'|eid total|today d|today ids d]; cbn [call].
  - rewrite book_events. eauto.
  - unfold closeRegistration.
    destruct (negb _); [eauto|].
    destruct (findById id' _) as [e0|]; [|eauto].
    destruct (registrationClosed e0); [eauto|]. cbv zeta. cbn [fst Events].
    rewrite findById_updateFirst_close, He.
    destruct (String.eqb (castObjectId id) (castObjectId id')); simpl; eauto.
  - unfold initializeRoute.
    destruct (_ || _); [eauto|]. destruct (findById eid _); simpl; eauto.
  - unfold getSeats.
    destruct (validateDateFormatGet d); [eauto|].
    destruct (negb _); [eauto|].
    destruct (String.eqb d today); [eauto|].
    destruct (findOneByDate _ _); [|eauto].
    simpl. destruct (_ <? _); simpl; eauto.
  - unfold getSeatsByIds.
    destruct (validateDateFormatGet d); [eauto|].
    destruct (_ || _); [eauto|].
    destruct (negb _); [eauto|].
    destruct (String.eqb d today); [eauto|].
    destruct (findOneByDate _ _); [|eauto].
    destruct (_ || _); eauto.
Qed.

Lemma run_keeps_closed (env : Env) (cs : list Call) (id : string) :
  forall db e,
    findById id (Events db) = Some e -> registrationClosed e = true ->
    exists e', findById id (Events (run env db cs)) = Some e'
               /\ registrationClosed e' = true.
Proof.
  induction cs as [|c cs IH]; intros db e He Hc; simpl; [eauto|].
  destruct (call_keeps_closed env db c id e He Hc) as (e' & He' & Hc').
  eapply IH; eauto.
Qed.

(** C8. The registration-closing handler looks the event up under the
    ObjectId its path parameter is cast to. It fails whenever no such
    event is stored or its registration is already closed; it fails only
    then or when the parameter is turned away as no ObjectId; and a
    failure leaves the database as it was. Otherwise it answers 200 and
    stores the event with [registrationClosed] set, every other event
    and every seat being untouched; a second closing of that event fails
    and changes nothing, and through whatever calls follow the event
    remains closed. *)
Theorem closeRegistration_once (env : Env) (db : DB) (id : string) :
  let db' := fst (closeRegistration env db id) in
  let r := snd (closeRegistration env db id) in
  ((findById id (Events db) = None
    \/ exists e, findById id (Events db) = Some e /\ registrationClosed e = true)
   -> failed r)
  /\ (failed r ->
      db' = db
      /\ (isValidObjectId env id = false
          \/ findById id (Events db) = None
          \/ exists e, findById id (Events db) = Some e
                       /\ registrationClosed e = true))
  /\ (~ failed r ->
      r = Some {| statusCode := 200;
                  body := MessageBody "Registration closed successfully" |}
      /\ Seats db' = Seats db
      /\ (forall id', castObjectId id' <> castObjectId id ->
                      findById id' (Events db') = findById id' (Events db))
      /\ (exists e, findById id (Events db) = Some e
                    /\ registrationClosed e = false
                    /\ findById id (Events db') = Some (closeEvent e))
      /\ failed (snd (closeRegistration env db' id))
      /\ fst (closeRegistration env db' id) = db'
      /\ forall cs, exists e',
           findById id (Events (run env db' cs)) = Some e'
           /\ registrationClosed e' = true).
Proof.
  intros db' r. subst db' r. unfold closeRegistration.
  destruct (isValidObjectId env id) eqn:Hvalid; simpl negb; cbv iota.
  2:{ pose proof (jsonError_400_failed "Invalid event ID") as Hf.
      cbn [fst snd].
      split; [intros _; exact Hf|].
      split; [intros _; split; [reflexivity|left; reflexivity]|].
      intros H; exfalso; exact (H Hf). }
  destruct (findById id (Events db)) as [e|] eqn:He.
  2:{ assert (Hf : failed (Some (jsonError 404 "Event not found")))
        by (exists 404, "Event not found"; split; [reflexivity|lia]).
      cbn [fst snd].
      split; [intros _; exact Hf|].
      split; [intros _; split; [reflexivity|right; left; reflexivity]|].
      intros H; exfalso; exact (H Hf). }
  destruct (registrationClosed e) eqn:Hc.
  { pose proof (jsonError_400_failed "Registration is already closed") as Hf.
    cbn [fst snd].
    split; [intros _; exact Hf|].
    split; [intros _; split; [reflexivity|right; right; eauto]|].
    intros H; exfalso; exact (H Hf). }
  cbv zeta. cbn [fst snd Events Seats].
  assert (Hok : ~ failed (Some {| statusCode := 200;
                    body := MessageBody "Registration closed successfully" |})).
  { intros (code & msg & H & _). discriminate. }
  assert (Hafter : findById id
                     (updateFirst (fun e0 => String.eqb (_id e0) (castObjectId id))
                                  closeEvent (Events db)) = Some (closeEvent e)).
  { rewrite findById_updateFirst_close, String.eqb_refl, He. reflexivity. }
  split; [|split].
  - intros [H|(e' & H & Hc')]; [discriminate|]. congruence.
  - intros H. exfalso. exact (Hok H).
  - intros _. split; [reflexivity|]. split; [reflexivity|]. split.
    { intros id' Hne. rewrite findById_updateFirst_close.
      destruct (String.eqb_spec (castObjectId id') (castObjectId id));
        [contradiction|reflexivity]. }
    split; [exists e; auto|].
    cbn [negb Events]. rewrite Hafter. cbn [closeEvent registrationClosed fst snd].
    split; [apply jsonError_400_failed|]. split; [reflexivity|].
    intros cs.
    apply (run_keeps_closed env cs id
             {| Events := updateFirst
                            (fun e0 => String.eqb (_id e0) (castObjectId id))
                            closeEvent (Events db);
                Seats := Seats db |} (closeEvent e)); [exact Hafter|reflexivity].
Qed.

(** ** Seat listing *)

Lemma withStatus_booked d s :
  In d (map date (bookings s)) ->
  seatStatus (withStatus d s) = "booked"
  /\ exists bk, In bk (bookings s) /\ date bk = d
                /\ seatBookedBy (withStatus d s) = Some (bookedBy bk).
Proof.
  intros Hin. unfold withStatus. simpl.
  destruct (bookingOn d s) as [bk|] eqn:Hb.
  - split; [reflexivity|]. exists bk. unfold bookingOn, Js.find in Hb.
    apply find_some in Hb. destruct Hb as [Hbk Heq].
    apply String.eqb_eq in Heq. auto.
  - apply bookingOn_None in Hb. contradiction.
Qed.

Lemma withStatus_available d s :
  ~ In d (map date (bookings s)) ->
  seatStatus (withStatus d s) = "available"
  /\ seatBookedBy (withStatus d s) = None.
Proof.
  intros Hnot. apply bookingOn_None in Hnot. unfold withStatus.
  rewrite Hnot. split; reflexivity.
Qed.

Lemma find_filter {A} (p : A -> bool) (l : list A) :
  find p l = hd_error (filter p l).
Proof.
  induction l as [|x l IH]; simpl; [reflexivity|].
  destruct (p x); [reflexivity|exact IH].
Qed.

Lemma getSeats_listing today db d l :
  snd (getSeats today db d)
  = Some {| statusCode := 200; body := SeatsBody l |} ->
  exists seats, l = map (withStatus d) seats
                /\ incl seats (Seats (fst (getSeats today db d))).
Proof.
  unfold getSeats.
  destruct (validateDateFormatGet d) as [r|] eqn:Hv.
  { unfold validateDateFormatGet in Hv. destruct (_ && _); [|discriminate].
    injection Hv as <-. discriminate. }
  destruct (negb _); [discriminate|].
  destruct (String.eqb d today); [discriminate|].
  destruct (findOneByDate _ _) as [event|]; [|discriminate].
  cbv zeta. simpl fst. simpl snd. intros [= <-].
  eexists. split; [reflexivity|].
  intros s Hs. apply filter_In in Hs. tauto.
Qed.

Lemma getSeatsByIds_listing today db ids d l :
  snd (getSeatsByIds today db ids d)
  = Some {| statusCode := 200; body := SeatsBody l |} ->
  exists seats, l = map (withStatus d) seats
                /\ incl seats (Seats db)
                /\ fst (getSeatsByIds today db ids d) = db.
Proof.
  unfold getSeatsByIds.
  destruct (validateDateFormatGet d) as [r|] eqn:Hv.
  { unfold validateDateFormatGet in Hv. destruct (_ && _); [|discriminate].
    injection Hv as <-. discriminate. }
  destruct (_ || _); [discriminate|].
  destruct (negb _); [discriminate|].
  destruct (String.eqb d today); [discriminate|].
  destruct (findOneByDate _ _) as [event|]; [|discriminate].
  cbv zeta. destruct (_ || _); [discriminate|].
  simpl. intros [= <-].
  eexists. split; [reflexivity|]. split; [|reflexivity].
  intros s Hs. apply filter_In in Hs. tauto.
Qed.

(** C10. Every seat listed for the date [d] by either read route is a
    stored seat; it is reported [booked] with a non-null [bookedBy] (the
    occupant of an entry of that date) exactly when its ledger holds an
    entry dated [d], and [available] with a null [bookedBy] exactly when it
    holds none. The report of a seat depends on its entries of date [d]
    only: entries of any other date do not affect it. *)
Theorem listing_reports_bookings_of_date (today : string) (db : DB)
        (ids : Req.SeatIds) (d : string) (l : list SeatWithStatus) :
  snd (getSeats today db d)
  = Some {| statusCode := 200; body := SeatsBody l |}
  \/ snd (getSeatsByIds today db ids d)
     = Some {| statusCode := 200; body := SeatsBody l |} ->
  (forall r, In r l ->
     (In (seat r) (Seats (fst (getSeats today db d))) \/ In (seat r) (Seats db))
     /\ ((seatStatus r = "booked" /\ seatBookedBy r <> None)
         <-> In d (map date (bookings (seat r))))
     /\ ((seatStatus r = "available" /\ seatBookedBy r = None)
         <-> ~ In d (map date (bookings (seat r))))
     /\ (forall who, seatBookedBy r = Some who ->
           exists bk, In bk (bookings (seat r)) /\ date bk = d /\ bookedBy bk = who))
  /\ (forall s s',
        filter (fun bk => String.eqb (date bk) d) (bookings s)
        = filter (fun bk => String.eqb (date bk) d) (bookings s') ->
        seatStatus (withStatus d s) = seatStatus (withStatus d s')
        /\ seatBookedBy (withStatus d s) = seatBookedBy (withStatus d s')).
Proof.
  intros H. split.
  - intros r Hr.
    assert (Hl : exists seats,
               l = map (withStatus d) seats
               /\ (incl seats (Seats (fst (getSeats today db d)))
                   \/ incl seats (Seats db))).
    { destruct H as [H|H].
      - destruct (getSeats_listing _ _ _ _ H) as (seats & -> & Hincl). eauto.
      - destruct (getSeatsByIds_listing _ _ _ _ _ H) as (seats & -> & Hincl & _).
        eauto. }
    destruct Hl as (seats & -> & Hincl).
    apply in_map_iff in Hr. destruct Hr as [s [<- Hs]].
    change (seat (withStatus d s)) with s.
    split; [destruct Hincl as [Hi|Hi]; [left|right]; apply Hi; exact Hs|].
    destruct (in_dec string_dec d (map date (bookings s))) as [Hin|Hnot].
    + destruct (withStatus_booked d s Hin) as (Hst & bk & Hbk & Hd & Hby).
      rewrite Hst, Hby.
      split; [split; [intros _; exact Hin
                     |intros _; split; [reflexivity|discriminate]]|].
      split; [split; [intros [Hx _]; discriminate|intros Hx; contradiction]|].
      intros who [= <-]. eauto.
    + destruct (withStatus_available d s Hnot) as (Hst & Hby).
      rewrite Hst, Hby.
      split; [split; [intros [Hx _]; discriminate|intros Hx; contradiction]|].
      split; [split; [intros _; exact Hnot|intros _; split; reflexivity]|].
      intros who Hx. discriminate.
  - intros s s' Heq. unfold withStatus, bookingOn, Js.find. simpl.
    rewrite !find_filter, Heq. split; reflexivity.
Qed.

(** * Concrete runs *)

Lemma dbJune_wellFormed : wellFormed dbJune.
Proof.
  split.
  - apply initializeSeats_uniqueIndex. constructor.
  - apply initializeSeats_ledgerUnique. intros s [].
Defined.

(** C6 at capacity 15: seats A1..A10, B1..B5, and a second call is a
    no-op. *)
Lemma initializeSeats_row_major_witness :
  map seatId (filter (ofEvent "e") (initializeSeats "e" 15 []))
  = ["A1"; "A2"; "A3"; "A4"; "A5"; "A6"; "A7"; "A8"; "A9"; "A10";
     "B1"; "B2"; "B3"; "B4"; "B5"]
  /\ initializeSeats "e" 15 (initializeSeats "e" 15 [])
     = initializeSeats "e" 15 [].
Proof.
  split.
  - destruct (initializeSeats_row_major "e" 15 []) as [H _]; [lia|].
    destruct H as (_ & H & _); [vm_compute; lia|]. exact H.
  - destruct (initializeSeats_row_major "e" 15 (initializeSeats "e" 15 []))
      as [_ H]; [lia|].
    apply H. vm_compute. lia.
Defined.

(** The guard on the June event: after A1 and A2 are booked, the
    registration is closed and A5 is booked, an admin's batch for A2 and
    A3 fails. *)
Lemma no_double_booking_witness :
  let first := book sampleEnv "2025-05-01" dbJune
                    (batch eventJune "Asha" ["A1"; "A2"]) member in
  let later := run sampleEnv (fst first)
                   [CloseRegistration (_id eventJune);
                    Book "2025-05-02" (batch eventJune "Ravi" ["A5"]) admin] in
  failed (snd (book sampleEnv "2025-05-03" later
                    (batch eventJune "Ravi" ["A2"; "A3"]) admin)).
Proof.
  intros first later.
  refine (proj1 (no_double_booking sampleEnv dbJune "2025-05-01"
                   (batch eventJune "Asha" ["A1"; "A2"]) member
                   "A2" "2025-06-01"
                   [CloseRegistration (_id eventJune);
                    Book "2025-05-02" (batch eventJune "Ravi" ["A5"]) admin]
                   "2025-05-03" (batch eventJune "Ravi" ["A2"; "A3"]) admin
                   dbJune_wellFormed _ _ _ _ _)).
  - eexists. vm_compute. reflexivity.
  - exists (request "Asha" "2025-06-01" "A2"). simpl. auto.
  - reflexivity.
  - reflexivity.
  - exists (request "Ravi" "2025-06-01" "A2"). simpl. auto.
Defined.

(** C2 on the June event: with A3 booked, the batch A1, A2, A3 fails and
    neither A1 nor A2 gains an entry. *)
Lemma book_all_or_nothing_witness :
  let db := fst (book sampleEnv "2025-05-01" dbJune
                      (batch eventJune "Asha" ["A3"]) member) in
  fst (book sampleEnv "2025-05-02" db
            (batch eventJune "Ravi" ["A1"; "A2"; "A3"]) member) = db
  /\ failed (snd (book sampleEnv "2025-05-02" db
                       (batch eventJune "Ravi" ["A1"; "A2"; "A3"]) member)).
Proof.
  intros db.
  apply (book_all_or_nothing sampleEnv "2025-05-02" db
           (batch eventJune "Ravi" ["A1"; "A2"; "A3"]) member).
  right. right. right.
  exists eventJune.
  exists (pushBooking (castBooking (request "Asha" "2025-06-01" "A3"))
                      (newSeat (_id eventJune) "A" 3)).
  split; [reflexivity|]. split; [vm_compute; auto 20|].
  split; [reflexivity|]. simpl. auto.
Defined.

(** C7 on the closed June event: the member is turned away, the admin
    books. *)
Lemma closed_registration_admin_override_witness :
  failed (snd (book sampleEnv "2025-05-01" dbJuneClosed
                    (batch eventJune "Asha" ["A1"; "A2"]) member))
  /\ succeeded (snd (book sampleEnv "2025-05-01" dbJuneClosed
                          (batch eventJune "Asha" ["A1"; "A2"]) admin)).
Proof.
  destruct (closed_registration_admin_override sampleEnv "2025-05-01"
              dbJuneClosed (batch eventJune "Asha" ["A1"; "A2"])
              (closeEvent eventJune) eq_refl eq_refl) as (Hmember & Hadmin & _ & _).
  split.
  - apply (Hmember member). reflexivity.
  - destruct (Hadmin admin member eq_refl) as [Heq _]. rewrite Heq.
    eexists. vm_compute. reflexivity.
Defined.

(** C8 on the June event, its id sent in capitals: the first closing
    succeeds, the second fails. *)
Lemma closeRegistration_once_witness :
  let first := closeRegistration sampleEnv dbJune "64B7F3A2C1D4E5F6A7B8C9D0" in
  snd first = Some {| statusCode := 200;
                      body := MessageBody "Registration closed successfully" |}
  /\ failed (snd (closeRegistration sampleEnv (fst first)
                                    "64B7F3A2C1D4E5F6A7B8C9D0")).
Proof.
  intros first.
  destruct (closeRegistration_once sampleEnv dbJune "64B7F3A2C1D4E5F6A7B8C9D0")
    as (_ & _ & H).
  destruct H as (Hr & _ & _ & _ & Hagain & _).
  - intros (code & msg & Hx & _). vm_compute in Hx. discriminate.
  - split; [exact Hr|exact Hagain].
Defined.

(** C9 on the June event: A1 and A2 each gain one entry. *)
Lemma book_appends_one_entry_witness :
  let db' := fst (book sampleEnv "2025-05-01" dbJune
                       (batch eventJune "Asha" ["A1"; "A2"]) member) in
  Events db' = Events dbJune
  /\ List.length (filter (referenced (batch eventJune "Asha" ["A1"; "A2"]))
                         (Seats dbJune)) = 2.
Proof.
  intros db'.
  destruct (book_appends_one_entry sampleEnv "2025-05-01" dbJune
              (batch eventJune "Asha" ["A1"; "A2"]) member)
    as (_ & Hev & Hlen & _).
  - apply dbJune_wellFormed.
  - eexists. vm_compute. reflexivity.
  - split; [exact Hev|exact Hlen].
Defined.

(** C9 as the specification words it fails: the occupant [" Asha"] is
    stored as ["Asha"], so no stored entry carries the supplied name. *)
Lemma book_stores_supplied_name_counterexample :
  let r := book sampleEnv "2025-05-01" dbJune
                (batch eventJune " Asha" ["A1"]) member in
  succeeded (snd r)
  /\ bookedOn (_id eventJune) "A1" "2025-06-01" (Seats (fst r))
  /\ ~ (exists s bk, In s (Seats (fst r)) /\ In bk (bookings s)
                     /\ name (bookedBy bk) = " Asha").
Proof.
  intros r. split; [eexists; vm_compute; reflexivity|]. split.
  - exists (pushBooking (castBooking (request " Asha" "2025-06-01" "A1"))
                        (newSeat (_id eventJune) "A" 1)).
    split; [vm_compute; left; reflexivity|]. simpl. auto.
  - intros (s & bk & Hs & Hbk & Hname).
    assert (Hall : forallb
                     (fun s => forallb
                                 (fun bk => negb (String.eqb (name (bookedBy bk)) " Asha"))
                                 (bookings s))
                     (Seats (fst r)) = true) by (vm_compute; reflexivity).
    rewrite forallb_forall in Hall. specialize (Hall s Hs).
    rewrite forallb_forall in Hall. specialize (Hall bk Hbk).
    rewrite Hname in Hall. discriminate.
Qed.

(** C10 on the June event with A1 booked: A1 is listed booked. *)
Lemma listing_reports_bookings_of_date_witness :
  let db := fst (book sampleEnv "2025-05-01" dbJune
                      (batch eventJune "Asha" ["A1"]) member) in
  let a1 := pushBooking (castBooking (request "Asha" "2025-06-01" "A1"))
                        (newSeat (_id eventJune) "A" 1) in
  snd (getSeats "2025-05-02" db "2025-06-01")
  = Some {| statusCode := 200;
            body := SeatsBody (map (withStatus "2025-06-01") (Seats db)) |}
  /\ ((seatStatus (withStatus "2025-06-01" a1) = "booked"
       /\ seatBookedBy (withStatus "2025-06-01" a1) <> None)
      <-> In "2025-06-01" (map date (bookings a1))).
Proof.
  intros db a1.
  assert (Hget : snd (getSeats "2025-05-02" db "2025-06-01")
                 = Some {| statusCode := 200;
                           body := SeatsBody (map (withStatus "2025-06-01")
                                                  (Seats db)) |})
    by (vm_compute; reflexivity).
  split; [exact Hget|].
  destruct (listing_reports_bookings_of_date "2025-05-02" db Req.Missing
              "2025-06-01" (map (withStatus "2025-06-01") (Seats db))
              (or_introl Hget)) as [H _].
  destruct (H (withStatus "2025-06-01" a1)) as (_ & Hbooked & _).
  - vm_compute. left. reflexivity.
  - exact Hbooked.
Defined.

(** ** Where the code departs from the specification *)

Lemma all_unbooked (seats : list ISeat) :
  forallb (fun s => List.length (bookings s) =? 0) seats = true ->
  forall s, In s seats -> bookings s = [].
Proof.
  intros Hall s Hs. rewrite forallb_forall in Hall. specialize (Hall s Hs).
  destruct (bookings s); [reflexivity|discriminate].
Qed.

(** C3 on the code. An event created with capacity 261 holds the 260 seats
    the generator can emit. After A1 is booked, listing the seats of the
    event's date runs the initializer, which clears and regenerates the
    seats: the listing answers 200 and no stored seat holds an entry any
    more. *)
Theorem listing_regenerates_booked_seats :
  let booked := book sampleEnv "2025-05-01" dbLarge
                     (batch eventLarge "Asha" ["A1"]) member in
  let listed := getSeats "2025-05-02" (fst booked) "2025-08-01" in
  succeeded (snd booked)
  /\ bookedOn (_id eventLarge) "A1" "2025-08-01" (Seats (fst booked))
  /\ (exists l, snd listed = Some {| statusCode := 200; body := SeatsBody l |})
  /\ List.length (Seats (fst listed)) = 260
  /\ forall s, In s (Seats (fst listed)) -> bookings s = [].
Proof.
  intros booked listed.
  split; [eexists; vm_compute; reflexivity|]. split.
  - exists (pushBooking (castBooking (request "Asha" "2025-08-01" "A1"))
                        (newSeat (_id eventLarge) "A" 1)).
    split; [vm_compute; left; reflexivity|]. simpl. auto.
  - split; [eexists; vm_compute; reflexivity|].
    split; [vm_compute; reflexivity|].
    apply all_unbooked. vm_compute. reflexivity.
Qed.

(** The same loss through the admin route, within the capacities the
    generator supports: raising the seat count of the June event from 15
    to 16 clears the entry of A1. *)
Lemma initializeRoute_clears_bookings :
  let booked := book sampleEnv "2025-05-01" dbJune
                     (batch eventJune "Asha" ["A1"]) member in
  let grown := initializeRoute sampleEnv (fst booked) (_id eventJune) 16 in
  succeeded (snd booked)
  /\ forall s, In s (Seats (fst grown)) -> bookings s = [].
Proof.
  intros booked grown. split; [eexists; vm_compute; reflexivity|].
  apply all_unbooked. vm_compute. reflexivity.
Qed.

(** What the loss leads to: once the listing has regenerated the seats,
    a second occupant books A1 for the same date and is answered 200. *)
Lemma regeneration_allows_rebooking :
  let booked := book sampleEnv "2025-05-01" dbLarge
                     (batch eventLarge "Asha" ["A1"]) member in
  let listed := getSeats "2025-05-02" (fst booked) "2025-08-01" in
  succeeded (snd booked)
  /\ succeeded (snd (book sampleEnv "2025-05-03" (fst listed)
                          (batch eventLarge "Ravi" ["A1"]) member)).
Proof.
  intros booked listed. split; eexists; vm_compute; reflexivity.
Qed.

(** C1 on the code. A seat is sold twice for one date. On the event of
    capacity 261, Asha's booking of A1 for the event's date answers 200;
    the seat listing of that date answers 200; and Ravi's booking of A1
    for the same date is then answered 200 as well, where the claim has
    every later booking of the seat for that date fail. The listing has
    regenerated the seats, so the second sale finds A1 without an entry
    and stores Ravi's as its only one: no seat ever holds two entries of
    one date, and Asha's booking is gone. The admin's seat initialisation
    does the same within the capacities the generator supports: after A1
    of the June event is booked and the seat count is raised from 15 to
    16, A1 is booked again for the same date. *)
Theorem seat_sold_twice_after_listing :
  let first := book sampleEnv "2025-05-01" dbLarge
                    (batch eventLarge "Asha" ["A1"]) member in
  let listed := getSeats "2025-05-02" (fst first) "2025-08-01" in
  let second := book sampleEnv "2025-05-03" (fst listed)
                     (batch eventLarge "Ravi" ["A1"]) member in
  let june := book sampleEnv "2025-05-01" dbJune
                   (batch eventJune "Asha" ["A1"]) member in
  let grown := initializeRoute sampleEnv (fst june) (_id eventJune) 16 in
  let again := book sampleEnv "2025-05-03" (fst grown)
                    (batch eventJune "Ravi" ["A1"]) member in
  (succeeded (snd first)
   /\ requests (batch eventLarge "Asha" ["A1"]) "A1" "2025-08-01"
   /\ bookedOn (_id eventLarge) "A1" "2025-08-01" (Seats (fst first))
   /\ (exists l, snd listed = Some {| statusCode := 200; body := SeatsBody l |})
   /\ requests (batch eventLarge "Ravi" ["A1"]) "A1" "2025-08-01"
   /\ succeeded (snd second)
   /\ ~ failed (snd second)
   /\ (forall s, In s (Seats (fst second)) ->
                 map (fun bkg => name (bookedBy bkg)) (bookings s)
                 = if String.eqb (seatId s) "A1" then ["Ravi"] else []))
  /\ (succeeded (snd june)
      /\ snd grown = Some {| statusCode := 201;
                             body := MessageBody "Seats initialized successfully" |}
      /\ succeeded (snd again)
      /\ ~ failed (snd again)).
Proof.
  intros first listed second june grown again.
  assert (Hsecond : succeeded (snd second))
    by (eexists; vm_compute; reflexivity).
  assert (Hagain : succeeded (snd again))
    by (eexists; vm_compute; reflexivity).
  split.
  - split; [eexists; vm_compute; reflexivity|].
    split; [exists (request "Asha" "2025-08-01" "A1"); simpl; auto|].
    split.
    { exists (pushBooking (castBooking (request "Asha" "2025-08-01" "A1"))
                          (newSeat (_id eventLarge) "A" 1)).
      split; [vm_compute; left; reflexivity|]. simpl. auto. }
    split; [eexists; vm_compute; reflexivity|].
    split; [exists (request "Ravi" "2025-08-01" "A1"); simpl; auto|].
    split; [exact Hsecond|].
    split.
    { intros (code & msg & Hf & _). destruct Hsecond as [docs Hd].
      rewrite Hd in Hf. discriminate Hf. }
    assert (Hall : forallb
                     (fun s => match bookings s with
                               | [] => negb (String.eqb (seatId s) "A1")
                               | [bkg] => String.eqb (seatId s) "A1"
                                          && String.eqb (name (bookedBy bkg)) "Ravi"
                               | _ => false
                               end)
                     (Seats (fst second)) = true)
      by (vm_compute; reflexivity).
    intros s Hs. pose proof (proj1 (forallb_forall _ _) Hall s Hs) as H.
    cbv beta in H. destruct (bookings s) as [|bkg [|bkg2 l]].
    + apply negb_true_iff in H. rewrite H. reflexivity.
    + apply andb_true_iff in H. destruct H as [H1 H2]. rewrite H1.
      apply String.eqb_eq in H2. cbn [map]. rewrite H2. reflexivity.
    + discriminate H.
  - split; [eexists; vm_compute; reflexivity|].
    split; [vm_compute; reflexivity|].
    split; [exact Hagain|].
    intros (code & msg & Hf & _). destruct Hagain as [docs Hd].
    rewrite Hd in Hf. discriminate Hf.
Qed.

(** A notification that throws after the commit leaves the bookings
    stored and the call without a successful answer. *)
Lemma book_notification_failure (env : Env) (today : string) (db : DB)
      (b : Req.Book) (user : IUser) (c : Committed) (msg : string) :
  bookMiddleware b = None ->
  bookPrecheck env today b = None ->
  bookTransaction env db b user = inr c ->
  notifyAll env {| Events := Events db; Seats := savedSeats c |}
            (emailToSeats c) (bookedDate c) = inl msg ->
  fst (book env today db b user) = {| Events := Events db; Seats := savedSeats c |}
  /\ snd (book env today db b user)
     = (if abortAfterCommitRejects env then None
        else Some (bookErrorResponse msg)).
Proof.
  intros Hmw Hpre Htx Hn. unfold book, bookHandler.
  rewrite Hmw, Hpre, Htx. cbv zeta. rewrite Hn. split; reflexivity.
Qed.

(** C4 on the code. With two events stored, each with its seat A1, the
    confirmation mail for a booking of A1 throws whatever the mail
    transport does (its seat query is not scoped to the event and finds
    two seats for one seatId); with one event stored, it throws when the
    transport rejects. In both runs the booking is committed and stays
    stored, and the caller gets no successful answer: none at all when
    aborting the committed transaction rejects, an error 500 otherwise. *)
Theorem notification_failure_fails_the_call
        (mail : MailOptions -> option string) (rejects : bool) :
  let r := book (mkEnvWith mail rejects) "2025-05-01" dbTwoEvents
                (batch eventJune "Asha" ["A1"]) member in
  let r' := book (mkEnvWith (fun _ => Some "Connection timeout") rejects)
                 "2025-05-01" dbJune (batch eventJune "Asha" ["A1"]) member in
  (bookedOn (_id eventJune) "A1" "2025-06-01" (Seats (fst r))
   /\ ~ succeeded (snd r)
   /\ snd r = if rejects then None
              else Some (jsonError 500
                     "Failed to send booking confirmation email: Not all seats found for seatIds: A1"))
  /\ (bookedOn (_id eventJune) "A1" "2025-06-01" (Seats (fst r'))
      /\ ~ succeeded (snd r')
      /\ snd r' = if rejects then None
                  else Some (jsonError 500
                         "Failed to send booking confirmation email: Connection timeout")).
Proof.
  intros r r'.
  assert (Hr : snd r = if rejects then None
                       else Some (jsonError 500
                              "Failed to send booking confirmation email: Not all seats found for seatIds: A1"))
    by (destruct rejects; vm_compute; reflexivity).
  assert (Hr' : snd r' = if rejects then None
                         else Some (jsonError 500
                                "Failed to send booking confirmation email: Connection timeout"))
    by (destruct rejects; vm_compute; reflexivity).
  split; (split; [|split]); try assumption.
  - exists (pushBooking (castBooking (request "Asha" "2025-06-01" "A1"))
                        (newSeat (_id eventJune) "A" 1)).
    split; [destruct rejects; vm_compute; left; reflexivity|].
    simpl. auto.
  - rewrite Hr. intros [docs H]. destruct rejects; discriminate.
  - exists (pushBooking (castBooking (request "Asha" "2025-06-01" "A1"))
                        (newSeat (_id eventJune) "A" 1)).
    split; [destruct rejects; vm_compute; left; reflexivity|].
    simpl. auto.
  - rewrite Hr'. intros [docs H]. destruct rejects; discriminate.
Qed.

(** C5 on the code. A member's valid batch for the closed June event is
    answered with status 500: the handler's message, "Registration for
    this event is closed", does not contain the text "Registration
    closed" that its status selection looks for, whereas the message of a
    seat conflict is matched and answered with 400. *)
Theorem closed_registration_answers_500 :
  snd (book sampleEnv "2025-05-01" dbJuneClosed
            (batch eventJune "Asha" ["A1"; "A2"]) member)
  = Some (jsonError 500 "Registration for this event is closed")
  /\ Js.includes "Registration for this event is closed" "Registration closed"
     = false
  /\ bookErrorStatus "Registration for this event is closed" = 500
  /\ bookErrorStatus "Seat A2 is already booked for this date" = 400.
Proof. repeat split; vm_compute; reflexivity. Qed.

(** * Further properties of the code *)

(** ** Patterns *)

Lemma test_Alt (w : string) :
  forall r s, Js.test (Js.Alt r s) w = Js.test r w || Js.test s w.
Proof.
  induction w as [|c w IH]; intros r s; simpl; [reflexivity|apply IH].
Qed.

Lemma test_Cat_Void (w : string) (r : Js.Re) :
  Js.test (Js.Cat Js.Void r) w = false.
Proof. induction w as [|c w IH]; simpl; [reflexivity|exact IH]. Qed.

Lemma test_Cat_Eps (w : string) :
  forall r, Js.test (Js.Cat Js.Eps r) w = Js.test r w.
Proof.
  destruct w as [|c w]; intros r; simpl; [reflexivity|].
  rewrite test_Alt, test_Cat_Void. reflexivity.
Qed.

Lemma test_anyChars (w : string) : Js.test anyChars w = true.
Proof.
  induction w as [|c w IH]; [reflexivity|].
  change (Js.test (Js.Cat Js.Eps anyChars) w = true).
  rewrite test_Cat_Eps. exact IH.
Qed.

(** A pattern open at its end matches as soon as its anchored part has. *)
Lemma test_open_end (w : string) :
  forall r, Js.nullable r = true -> Js.test (Js.Cat r anyChars) w = true.
Proof.
  induction w as [|c w IH]; intros r Hr; simpl.
  - rewrite Hr. reflexivity.
  - rewrite Hr. rewrite test_Alt.
    change (Js.deriv c anyChars) with (Js.Cat Js.Eps anyChars).
    rewrite test_Cat_Eps, test_anyChars. apply orb_true_r.
Qed.

(** X1. The time check of event creation accepts every string that
    begins with a digit, whatever follows: the pattern's alternation
    leaves its left side, an optional 0 or 1 and one digit, open at the
    end. So "99:99" and "7pm" are taken for times. *)
Theorem timeRe_accepts_leading_digit (c : ascii) (rest : string) :
  Js.range "0" "9" c = true ->
  Js.test timeRe (String c rest) = true.
Proof.
  intros Hc. unfold timeRe. cbn [Js.test Js.deriv]. rewrite test_Alt.
  apply orb_true_iff. left.
  cbn [Js.nullable Js.opt Js.digit Js.deriv andb orb]. cbv iota.
  apply test_open_end.
  cbn [Js.nullable Js.deriv Js.digit]. rewrite Hc.
  cbn [Js.nullable]. apply orb_true_r.
Qed.

(** ** Event creation *)

Lemma findOneByDate_None d events :
  findOneByDate d events = None <-> ~ In d (map eventDate events).
Proof.
  unfold findOneByDate, Js.find. split.
  - intros H Hin. apply in_map_iff in Hin. destruct Hin as [e [He Hin]].
    pose proof (find_none _ _ H e Hin) as Hf. simpl in Hf.
    rewrite He, String.eqb_refl in Hf. discriminate.
  - intros H. destruct (find _ events) as [e|] eqn:Hf; [|reflexivity].
    exfalso. apply find_some in Hf. destruct Hf as [Hin Heq].
    apply String.eqb_eq in Heq. apply H. rewrite <- Heq. apply in_map. exact Hin.
Qed.

(** What a creation that reaches its transaction has checked. *)
Lemma createEventCheck_None adminPassword today events b :
  createEventCheck adminPassword today events b = None ->
  ReqEvent.password b = adminPassword
  /\ (1 <= ReqEvent.totalSeats b)%Z
  /\ ~ In (ReqEvent.date b) (map eventDate events)
  /\ ReqEvent.date b <> today
  /\ Js.test timeRe (ReqEvent.time b) = true.
Proof.
  unfold createEventCheck.
  destruct (_ || _); [discriminate|].
  destruct (Js.test timeRe (ReqEvent.time b)) eqn:Htime; [|discriminate].
  simpl negb. cbv iota.
  destruct (Z.ltb_spec (ReqEvent.totalSeats b) 1) as [|Hge]; [discriminate|].
  destruct (String.eqb_spec (ReqEvent.password b) adminPassword) as [Hpw|];
    [|discriminate].
  simpl negb. cbv iota.
  destruct (findOneByDate (ReqEvent.date b) events) eqn:Hdate; [discriminate|].
  destruct (String.eqb_spec (ReqEvent.date b) today) as [|Hne]; [discriminate|].
  intros _. apply findOneByDate_None in Hdate. auto.
Qed.

Lemma createEventCheck_code adminPassword today events b r :
  createEventCheck adminPassword today events b = Some r ->
  exists code msg, r = eventError code msg /\ 400 <= code.
Proof.
  unfold createEventCheck.
  repeat match goal with
         | |- context [if ?c then _ else _] => destruct c
         | |- context [match findOneByDate ?d ?l with _ => _ end] =>
             destruct (findOneByDate d l)
         end;
    intros [= <-]; eexists; eexists; (split; [reflexivity|lia]).
Qed.

(** The outcomes of the creation route. *)
Lemma createEvent_outcome adminPassword today newId db user b :
  (exists code msg,
      createEvent adminPassword today newId db user b
      = (db, Some (eventError code msg)) /\ 400 <= code)
  \/ (isAdmin user = true
      /\ createEventCheck adminPassword today (Events db) b = None
      /\ createEvent adminPassword today newId db user b
         = ({| Events := Events db ++ [newEvent newId b];
               Seats := initializeSeats newId
                          (Z.to_nat (ReqEvent.totalSeats b)) (Seats db) |},
            Some {| eventStatus := 201;
                    eventBody := EventCreated "Event created successfully"
                                              (newEvent newId b) |})).
Proof.
  unfold createEvent, restrictToAdmin.
  destruct (isAdmin user); simpl negb; cbv iota.
  2:{ left. exists 403. eexists. split; [reflexivity|lia]. }
  unfold validateDateFormatBody.
  destruct (_ && _).
  { left. exists 400. eexists. split; [reflexivity|lia]. }
  destruct (createEventCheck adminPassword today (Events db) b) as [r|] eqn:Hc.
  { left. destruct (createEventCheck_code _ _ _ _ _ Hc) as (code & msg & -> & Hge).
    exists code, msg. split; [reflexivity|exact Hge]. }
  unfold saveNewEvent, throwIf, bind.
  destruct (negb _).
  { left. exists 500. eexists. split; [reflexivity|lia]. }
  destruct (existsb _ (Events db)).
  { left. exists 500. eexists. split; [reflexivity|lia]. }
  right. repeat split.
Qed.

(** X2. Event creation is all-or-nothing: either it answers with an
    error of status 400 or above and the database is what it was, or it
    answers 201 and stores, together, the new event (open, with the
    body's date and capacity, after the earlier events) and the result of
    the seat initializer for it; and it answers 201 only to an admin who
    gave the admin password, for a capacity of at least 1 and a date that
    is not today and that no stored event has. *)
Theorem createEvent_all_or_nothing (adminPassword today newId : string)
        (db : DB) (user : IUser) (b : ReqEvent.Create) :
  let r := createEvent adminPassword today newId db user b in
  (fst r = db
   /\ exists code msg, snd r = Some (eventError code msg) /\ 400 <= code)
  \/ (snd r = Some {| eventStatus := 201;
                      eventBody := EventCreated "Event created successfully"
                                                (newEvent newId b) |}
      /\ Events (fst r) = Events db ++ [newEvent newId b]
      /\ Seats (fst r)
         = initializeSeats newId (Z.to_nat (ReqEvent.totalSeats b)) (Seats db)
      /\ registrationClosed (newEvent newId b) = false
      /\ isAdmin user = true
      /\ ReqEvent.password b = adminPassword
      /\ 1 <= totalSeats (newEvent newId b)
      /\ eventDate (newEvent newId b) <> today
      /\ ~ In (eventDate (newEvent newId b)) (map eventDate (Events db))).
Proof.
  intros r. subst r.
  destruct (createEvent_outcome adminPassword today newId db user b)
    as [(code & msg & -> & Hge)|(Hadmin & Hcheck & ->)].
  - left. simpl. eauto.
  - right. apply createEventCheck_None in Hcheck.
    destruct Hcheck as (Hpw & Hseats & Hfree & Hday & _).
    simpl. repeat split; try assumption. lia.
Qed.

Lemma createEvent_201 adminPassword today newId db user b e :
  snd (createEvent adminPassword today newId db user b)
  = Some {| eventStatus := 201;
            eventBody := EventCreated "Event created successfully" e |} ->
  e = newEvent newId b
  /\ createEventCheck adminPassword today (Events db) b = None
  /\ fst (createEvent adminPassword today newId db user b)
     = {| Events := Events db ++ [newEvent newId b];
          Seats := initializeSeats newId (Z.to_nat (ReqEvent.totalSeats b))
                                   (Seats db) |}.
Proof.
  destruct (createEvent_outcome adminPassword today newId db user b)
    as [(code & msg & -> & Hge)|(Hadmin & Hcheck & ->)]; simpl.
  - unfold eventError. intros H. discriminate H.
  - intros [= <-]. auto.
Qed.

(** X3. When event creation answers 201 for an identifier that no stored
    seat carries, the event's seats are the first [min capacity 260] of
    the row-major enumeration A1..Z10, each with an empty ledger, and the
    seats stored before are all still there, unchanged and in order. *)
Theorem createEvent_seats (adminPassword today newId : string) (db : DB)
        (user : IUser) (b : ReqEvent.Create) (e : IEvent) :
  (forall s, In s (Seats db) -> eventId s <> newId) ->
  snd (createEvent adminPassword today newId db user b)
  = Some {| eventStatus := 201;
            eventBody := EventCreated "Event created successfully" e |} ->
  let db' := fst (createEvent adminPassword today newId db user b) in
  let mine := filter (ofEvent newId) (Seats db') in
  map seatId mine = firstn (totalSeats e) rowMajorSeatIds
  /\ List.length mine = Nat.min (totalSeats e) 260
  /\ (forall s, In s mine -> bookings s = [])
  /\ filter (fun s => negb (ofEvent newId s)) (Seats db') = Seats db.
Proof.
  intros Hfresh H201 db' mine. subst db' mine.
  destruct (createEvent_201 _ _ _ _ _ _ _ H201) as (-> & Hcheck & ->).
  apply createEventCheck_None in Hcheck. destruct Hcheck as (_ & Hseats & _).
  cbn [Seats fst newEvent totalSeats].
  set (c := Z.to_nat (ReqEvent.totalSeats b)).
  assert (Hnone : filter (ofEvent newId) (Seats db) = []).
  { apply filter_none. intros s Hs. apply String.eqb_neq. apply Hfresh. exact Hs. }
  assert (Hlt : List.length (filter (ofEvent newId) (Seats db)) < c).
  { rewrite Hnone. simpl. unfold c. lia. }
  destruct (initializeSeats_regenerates newId c (Seats db) Hlt) as [Hgen Hrest].
  rewrite Hgen, Hrest. split; [|split; [|split]].
  - apply generateSeats_ids.
  - rewrite <- (length_map seatId), generateSeats_ids, length_firstn,
      rowMajorSeatIds_length. reflexivity.
  - intros s Hs. apply (generateSeats_unbooked newId c s Hs).
  - apply filter_all. intros s Hs. apply negb_true_iff. apply String.eqb_neq.
    apply Hfresh. exact Hs.
Qed.

(** ** Event deletion *)

Lemma deleteEvent_outcome env adminPassword db user id password :
  (exists code msg,
      deleteEvent env adminPassword db user id password
      = (db, Some (eventError code msg)) /\ 400 <= code)
  \/ (isAdmin user = true /\ isValidObjectId env id = true
      /\ password = adminPassword
      /\ (exists e, findById id (Events db) = Some e)
      /\ filter (bookedSeatOf id) (Seats db) = []
      /\ deleteEvent env adminPassword db user id password
         = ({| Events := removeFirst
                           (fun e => String.eqb (_id e) (castObjectId id))
                           (Events db);
               Seats := filter (fun s => negb (ofEvent id s)) (Seats db) |},
            Some {| eventStatus := 200;
                    eventBody :=
                      EventMessage
                        "Event and associated seats deleted successfully" |})).
Proof.
  unfold deleteEvent, restrictToAdmin.
  destruct (isAdmin user); simpl negb; cbv iota.
  2:{ left. exists 403. eexists. split; [reflexivity|lia]. }
  destruct (isValidObjectId env id); simpl negb; cbv iota.
  2:{ left. exists 400. eexists. split; [reflexivity|lia]. }
  destruct (Js.truthy password); simpl negb; cbv iota.
  2:{ left. exists 400. eexists. split; [reflexivity|lia]. }
  destruct (String.eqb_spec password adminPassword) as [Hpw|]; simpl negb; cbv iota.
  2:{ left. exists 401. eexists. split; [reflexivity|lia]. }
  destruct (findById id (Events db)) as [e|] eqn:He.
  2:{ left. exists 404. eexists. split; [reflexivity|lia]. }
  destruct (filter (bookedSeatOf id) (Seats db)) eqn:Hbooked.
  - right. repeat split; eauto.
  - left. exists 400. eexists. split; [reflexivity|lia].
Qed.

(** X4. Event deletion never removes a booking, and what it guards is
    the spelling of the id. Whatever it answers, every stored seat that
    holds an entry, and every seat stored under another [eventId] than
    the id as it was sent, is stored unchanged afterwards. It either
    answers with an error and changes nothing, or answers 200, and then
    no seat stored under the id as sent held any entry, these seats are
    removed, the event document the id is cast to is removed, and the
    requester was an admin who gave the admin password. The event is
    found under the cast id and its seats under the string: when the
    June event, whose seat A1 is booked, is deleted under its id in
    capitals, the route answers 200 and removes the event while all its
    seats, the booked one among them, stay stored. *)
Theorem deleteEvent_spares_bookings (env : Env) (adminPassword : string)
        (db : DB) (user : IUser) (id password : string) :
  let r := deleteEvent env adminPassword db user id password in
  (forall s, In s (Seats db) -> bookings s <> [] -> In s (Seats (fst r)))
  /\ (forall s, In s (Seats db) -> eventId s <> id -> In s (Seats (fst r)))
  /\ ((fst r = db
       /\ exists code msg, snd r = Some (eventError code msg) /\ 400 <= code)
      \/ (snd r = Some {| eventStatus := 200;
                          eventBody :=
                            EventMessage
                              "Event and associated seats deleted successfully" |}
          /\ (forall s, In s (Seats db) -> eventId s = id -> bookings s = [])
          /\ (forall s, In s (Seats (fst r)) -> eventId s <> id)
          /\ Seats (fst r) = filter (fun s => negb (ofEvent id s)) (Seats db)
          /\ Events (fst r)
             = removeFirst (fun e => String.eqb (_id e) (castObjectId id))
                           (Events db)
          /\ isAdmin user = true /\ password = adminPassword))
  /\ deleteEvent sampleEnv "letmein" dbBooked admin
                 "64B7F3A2C1D4E5F6A7B8C9D0" "letmein"
     = ({| Events := []; Seats := Seats dbBooked |},
        Some {| eventStatus := 200;
                eventBody :=
                  EventMessage
                    "Event and associated seats deleted successfully" |}).
Proof.
  intros r. subst r.
  cut (forall P Q R S : Prop, S -> P /\ Q /\ R -> P /\ Q /\ R /\ S);
    [|tauto].
  intros Hcut. apply Hcut; [vm_compute; reflexivity|]. clear Hcut.
  destruct (deleteEvent_outcome env adminPassword db user id password)
    as [(code & msg & -> & Hge)
       |(Hadmin & _ & Hpw & _ & Hnone & ->)]; cbn [fst snd Seats Events].
  - split; [auto|]. split; [auto|]. left. eauto.
  - assert (Hfree : forall s, In s (Seats db) -> eventId s = id -> bookings s = []).
    { intros s Hs He.
      destruct (bookings s) as [|bk l] eqn:Hb; [reflexivity|exfalso].
      assert (Hin : In s (filter (bookedSeatOf id) (Seats db))).
      { apply filter_In. split; [exact Hs|].
        unfold bookedSeatOf, ofEvent. rewrite He, String.eqb_refl, Hb.
        reflexivity. }
      rewrite Hnone in Hin. exact Hin. }
    assert (Hkeep : forall s, In s (Seats db) -> eventId s <> id ->
                              In s (filter (fun s => negb (ofEvent id s)) (Seats db))).
    { intros s Hs Hne. apply filter_In. split; [exact Hs|].
      apply negb_true_iff. apply String.eqb_neq. exact Hne. }
    split; [|split; [exact Hkeep|]].
    + intros s Hs Hb. apply Hkeep; [exact Hs|].
      intros He. apply Hb. apply Hfree; assumption.
    + right. repeat split; try assumption.
      intros s Hs. apply filter_In in Hs. destruct Hs as [_ Hs].
      apply negb_true_iff in Hs. apply String.eqb_neq. exact Hs.
Qed.

(** ** Event listings *)

Lemma compare_refl (s : string) : String.compare s s = Eq.
Proof.
  pose proof (String.compare_antisym s s) as H.
  destruct (String.compare s s); simpl in H; congruence.
Qed.

Lemma In_insertByDate (e x : IEvent) (l : list IEvent) :
  In x (insertByDate e l) <-> x = e \/ In x l.
Proof.
  induction l as [|y l IH]; simpl.
  - split; [intros [H|[]]; auto|intros [H|[]]; auto].
  - destruct (String.leb (eventDate e) (eventDate y)); simpl.
    + split; [intros [H|H]; auto|intros [H|H]; auto].
    + rewrite IH. split; [intros [H|[H|H]]; auto|intros [H|[H|H]]; auto].
Qed.

Lemma In_sortByDate (x : IEvent) (l : list IEvent) :
  In x (sortByDate l) <-> In x l.
Proof.
  induction l as [|y l IH]; simpl; [tauto|].
  rewrite In_insertByDate, IH. split; [intros [H|H]; auto|intros [H|H]; auto].
Qed.

Lemma insertByDate_sorted (e : IEvent) (l : list IEvent) :
  Sorted (fun a b => String.leb (eventDate a) (eventDate b) = true) l ->
  Sorted (fun a b => String.leb (eventDate a) (eventDate b) = true)
         (insertByDate e l).
Proof.
  induction l as [|y l IH]; intros Hs; simpl.
  - constructor; constructor.
  - destruct (String.leb (eventDate e) (eventDate y)) eqn:Hle.
    + constructor; [exact Hs|constructor; exact Hle].
    + apply Sorted_inv in Hs. destruct Hs as [Hs Hhd].
      constructor; [apply IH; exact Hs|].
      assert (Hye : String.leb (eventDate y) (eventDate e) = true).
      { destruct (String.leb_total (eventDate e) (eventDate y)); congruence. }
      destruct l as [|z l]; simpl.
      * constructor. exact Hye.
      * destruct (String.leb (eventDate e) (eventDate z)).
        -- constructor. exact Hye.
        -- constructor. inversion Hhd; assumption.
Qed.

Lemma sortByDate_sorted (l : list IEvent) :
  Sorted (fun a b => String.leb (eventDate a) (eventDate b) = true)
         (sortByDate l).
Proof.
  induction l as [|y l IH]; simpl; [constructor|].
  apply insertByDate_sorted. exact IH.
Qed.

(** X5. The two event listings split the stored events by date and
    registration flag. An event is listed as upcoming exactly when it is
    stored, open, and dated after today; it is listed as past (to an
    admin) exactly when it is stored and dated before today or closed. No
    event is in both listings, and the stored events in neither are
    exactly the open events dated today. The upcoming listing is in
    ascending order of date. *)
Theorem listings_partition_events (today : string) (db : DB) (user : IUser)
        (up old : list IEvent) :
  isAdmin user = true ->
  listUpcoming today db = {| eventStatus := 200; eventBody := EventList up |} ->
  listPast today db user = {| eventStatus := 200; eventBody := EventList old |} ->
  (forall e, In e up <->
             In e (Events db) /\ registrationClosed e = false
             /\ String.ltb today (eventDate e) = true)
  /\ (forall e, In e old <->
                In e (Events db)
                /\ (String.ltb (eventDate e) today = true
                    \/ registrationClosed e = true))
  /\ (forall e, ~ (In e up /\ In e old))
  /\ (forall e, In e (Events db) ->
                (~ In e up /\ ~ In e old
                 <-> eventDate e = today /\ registrationClosed e = false))
  /\ Sorted (fun a b => String.leb (eventDate a) (eventDate b) = true) up.
Proof.
  intros Hadmin Hup Hold.
  unfold listUpcoming in Hup. injection Hup as <-.
  unfold listPast, restrictToAdmin in Hold. rewrite Hadmin in Hold.
  simpl in Hold. injection Hold as <-.
  assert (Hu : forall e, upcoming today e = true <->
                         registrationClosed e = false
                         /\ String.ltb today (eventDate e) = true).
  { intros e. unfold upcoming, String.leb, String.ltb.
    destruct (String.eqb_spec (eventDate e) today) as [Heq|Hne].
    - rewrite Heq, compare_refl. simpl. split; [discriminate|intros [_ H]; discriminate].
    - destruct (String.compare today (eventDate e)) eqn:Hc.
      + apply String.compare_eq_iff in Hc. congruence.
      + destruct (registrationClosed e); simpl; split; auto; intros [H _]; discriminate.
      + simpl. split; [discriminate|intros [_ H]; discriminate]. }
  assert (Hp : forall e, past today e = true <->
                         String.ltb (eventDate e) today = true
                         \/ registrationClosed e = true).
  { intros e. unfold past. rewrite orb_true_iff.
    destruct (registrationClosed e); simpl; tauto. }
  assert (Hexcl : forall e, upcoming today e = true -> past today e = true -> False).
  { intros e H1 H2. apply Hu in H1. apply Hp in H2.
    destruct H1 as [Hopen Hlt]. destruct H2 as [Hlt'|Hc]; [|congruence].
    unfold String.ltb in Hlt, Hlt'.
    rewrite String.compare_antisym in Hlt'.
    destruct (String.compare today (eventDate e)); simpl in *; discriminate. }
  split; [|split; [|split; [|split]]].
  - intros e. rewrite In_sortByDate, filter_In, Hu. tauto.
  - intros e. rewrite <- in_rev, In_sortByDate, filter_In, Hp. tauto.
  - intros e [H1 H2]. rewrite In_sortByDate, filter_In in H1.
    rewrite <- in_rev, In_sortByDate, filter_In in H2.
    apply (Hexcl e); tauto.
  - intros e He. rewrite <- in_rev, !In_sortByDate, !filter_In.
    split.
    + intros [H1 H2].
      assert (Hnu : upcoming today e = false)
        by (destruct (upcoming today e); [exfalso; apply H1; auto|reflexivity]).
      assert (Hnp : past today e = false)
        by (destruct (past today e); [exfalso; apply H2; auto|reflexivity]).
      unfold past in Hnp. apply orb_false_iff in Hnp. destruct Hnp as [Hlt Hc].
      unfold upcoming, String.leb in Hnu. unfold String.ltb in Hlt.
      destruct (registrationClosed e); [discriminate|]. split; [|reflexivity].
      rewrite String.compare_antisym in Hlt.
      destruct (String.eqb_spec (eventDate e) today) as [|Hne]; [assumption|].
      destruct (String.compare today (eventDate e)) eqn:Hc';
        simpl in *; discriminate.
    + intros [Hd Hc]. split; intros [_ H].
      * apply Hu in H. destruct H as [_ H]. unfold String.ltb in H.
        rewrite Hd, compare_refl in H. discriminate.
      * apply Hp in H. destruct H as [H|H]; [|congruence].
        unfold String.ltb in H. rewrite Hd, compare_refl in H. discriminate.
  - apply sortByDate_sorted.
Qed.

(** ** Closing, creating and looking up events *)

Lemma closeRegistration_open env db id e :
  isValidObjectId env id = true ->
  findById id (Events db) = Some e -> registrationClosed e = false ->
  closeRegistration env db id
  = ({| Events := updateFirst (fun e0 => String.eqb (_id e0) (castObjectId id))
                              closeEvent (Events db);
        Seats := Seats db |},
     Some {| statusCode := 200;
             body := MessageBody "Registration closed successfully" |}).
Proof.
  intros Hv He Hc. unfold closeRegistration. rewrite Hv, He, Hc. reflexivity.
Qed.

Lemma In_updateFirst_close id (events : list IEvent) (e x : IEvent) :
  NoDup (map _id events) ->
  findById id events = Some e ->
  (In x (updateFirst (fun e0 => String.eqb (_id e0) (castObjectId id))
                      closeEvent events)
   <-> x = closeEvent e \/ (In x events /\ _id x <> _id e)).
Proof.
  intros Hnd He. pose proof (findById_Some _ _ _ He) as [_ Hide].
  rewrite Hide. revert Hnd He.
  unfold findById, Js.find. generalize (castObjectId id) as id'. clear.
  intros id'.
  induction events as [|y l IH]; simpl; intros Hnd He; [discriminate|].
  inversion Hnd as [|? ? Hnotin Hnd2]; subst.
  destruct (String.eqb_spec (_id y) id') as [Hy|Hy].
  - injection He as <-. simpl. split.
    + intros [<-|Hx]; [left; reflexivity|right]. split; [right; exact Hx|].
      intros Hid. apply Hnotin. rewrite Hy, <- Hid. apply in_map. exact Hx.
    + intros [->|[[<-|Hx] Hne]]; [left; reflexivity|contradiction|right; exact Hx].
  - simpl. rewrite (IH Hnd2 He). split.
    + intros [<-|[->|[Hx Hne]]]; [right; split; auto|left; reflexivity
                                 |right; split; auto].
    + intros [->|[[<-|Hx] Hne]]; [right; left; reflexivity|left; reflexivity
                                 |right; right; split; auto].
Qed.

(** X6. Closing the registration of an open event dated after today moves
    it from the upcoming listing to the past listing: before, the event is
    listed as upcoming and not as past; after, no event with its
    identifier is listed as upcoming, the event with its flag set is
    listed as past, and every other event is listed as upcoming exactly
    when it was. The event is the one the identifier sent is cast to,
    in whichever spelling it is sent. *)
Theorem closeRegistration_retires_event (env : Env) (today : string) (db : DB)
        (user : IUser) (id : string) (e : IEvent) :
  NoDup (map _id (Events db)) ->
  isAdmin user = true ->
  isValidObjectId env id = true ->
  findById id (Events db) = Some e ->
  registrationClosed e = false ->
  String.ltb today (eventDate e) = true ->
  let db2 := fst (closeRegistration env db id) in
  listed (listUpcoming today db) e
  /\ ~ listed (listPast today db user) e
  /\ (forall x, listed (listUpcoming today db2) x -> _id x <> _id e)
  /\ listed (listPast today db2 user) (closeEvent e)
  /\ (forall x, _id x <> _id e ->
                (listed (listUpcoming today db2) x
                 <-> listed (listUpcoming today db) x)).
Proof.
  intros Hnd Hadmin Hv He Hopen Hlt db2. subst db2.
  rewrite (closeRegistration_open env db id e Hv He Hopen). cbn [fst].
  unfold listed, listUpcoming, listPast, restrictToAdmin. rewrite Hadmin.
  cbn [negb eventBody Events].
  pose proof (findById_Some _ _ _ He) as [Hin Hid].
  assert (Hup : upcoming today e = true).
  { unfold upcoming, String.leb. unfold String.ltb in Hlt. rewrite Hopen.
    destruct (String.eqb_spec (eventDate e) today) as [Heq|_].
    - rewrite Heq, compare_refl in Hlt. discriminate.
    - destruct (String.compare today (eventDate e)); [discriminate|reflexivity
                                                     |discriminate]. }
  assert (Hnp : past today e = false).
  { unfold past, String.ltb. rewrite Hopen, String.compare_antisym.
    unfold String.ltb in Hlt.
    destruct (String.compare today (eventDate e)); try discriminate. reflexivity. }
  split; [|split; [|split; [|split]]].
  - apply In_sortByDate. apply filter_In. auto.
  - rewrite <- in_rev, In_sortByDate, filter_In. rewrite Hnp. intros [_ H].
    discriminate.
  - intros x. rewrite In_sortByDate, filter_In.
    rewrite (In_updateFirst_close id (Events db) e x Hnd He).
    intros [[->|[_ Hne]] Hu]; [|exact Hne].
    unfold upcoming in Hu. simpl in Hu. rewrite andb_false_r in Hu. discriminate.
  - rewrite <- in_rev, In_sortByDate, filter_In.
    rewrite (In_updateFirst_close id (Events db) e (closeEvent e) Hnd He).
    split; [left; reflexivity|]. unfold past. simpl. apply orb_true_r.
  - intros x Hne. rewrite !In_sortByDate, !filter_In.
    rewrite (In_updateFirst_close id (Events db) e x Hnd He).
    split.
    + intros [[->|[Hx _]] Hu]; [|auto].
      exfalso. apply Hne. reflexivity.
    + intros [Hx Hu]. auto.
Qed.

Lemma findById_app_fresh id (events : list IEvent) (e : IEvent) :
  ~ In id (map _id events) -> _id e = id -> objectIdString id = true ->
  findById id (events ++ [e]) = Some e.
Proof.
  unfold findById, Js.find. intros Hfresh He Hoid.
  rewrite (castObjectId_objectIdString id Hoid).
  induction events as [|y l IH]; simpl.
  - rewrite He, String.eqb_refl. reflexivity.
  - destruct (String.eqb_spec (_id y) id) as [Hy|_].
    + exfalso. apply Hfresh. left. exact Hy.
    + apply IH. intros H. apply Hfresh. right. exact H.
Qed.

(** X7. A created event can be looked up: after event creation answers
    201 with an identifier that is well formed and that no stored event
    had, an ObjectId as the database assigns them and so read as
    twenty-four lower-case hexadecimal digits, the event route for that
    identifier answers 200 with the event on every day but the event's
    own date, on which it answers 400. *)
Theorem getEvent_after_createEvent (env : Env)
        (adminPassword today newId : string) (db : DB) (user : IUser)
        (b : ReqEvent.Create) (e : IEvent) (day : string) :
  ~ In newId (map _id (Events db)) ->
  objectIdString newId = true ->
  isValidObjectId env newId = true ->
  snd (createEvent adminPassword today newId db user b)
  = Some {| eventStatus := 201;
            eventBody := EventCreated "Event created successfully" e |} ->
  let db2 := fst (createEvent adminPassword today newId db user b) in
  (day <> eventDate e ->
   getEvent env day db2 newId = {| eventStatus := 200; eventBody := EventOne e |})
  /\ (day = eventDate e ->
      getEvent env day db2 newId
      = eventError 400 "Cannot access event scheduled for today")
  /\ getEvent env today db2 newId
     = {| eventStatus := 200; eventBody := EventOne e |}.
Proof.
  intros Hfresh Hoid Hv H201 db2. subst db2.
  destruct (createEvent_201 _ _ _ _ _ _ _ H201) as (-> & Hcheck & ->).
  apply createEventCheck_None in Hcheck. destruct Hcheck as (_ & _ & _ & Hday & _).
  unfold getEvent. rewrite Hv. cbn [negb fst Events].
  rewrite (findById_app_fresh newId (Events db) (newEvent newId b) Hfresh eq_refl
                              Hoid).
  split; [|split].
  - intros Hne. destruct (String.eqb_spec (eventDate (newEvent newId b)) day);
      [congruence|reflexivity].
  - intros ->. rewrite String.eqb_refl. reflexivity.
  - destruct (String.eqb_spec (eventDate (newEvent newId b)) today) as [Heq|];
      [|reflexivity].
    simpl in Heq. contradiction.
Qed.

(** ** Invariants of the registry *)

Lemma updateFirst_close_ids p (events : list IEvent) :
  map _id (updateFirst p closeEvent events) = map _id events.
Proof.
  induction events as [|y l IH]; simpl; [reflexivity|].
  destruct (p y); simpl; [reflexivity|]. rewrite IH. reflexivity.
Qed.

Lemma updateFirst_close_dates p (events : list IEvent) :
  map eventDate (updateFirst p closeEvent events) = map eventDate events.
Proof.
  induction events as [|y l IH]; simpl; [reflexivity|].
  destruct (p y); simpl; [reflexivity|]. rewrite IH. reflexivity.
Qed.

Lemma In_updateFirst_close_origin p (events : list IEvent) (x : IEvent) :
  In x (updateFirst p closeEvent events) ->
  exists y, In y events /\ _id x = _id y /\ totalSeats x = totalSeats y.
Proof.
  induction events as [|y l IH]; simpl; [intros []|].
  destruct (p y); simpl.
  - intros [Hx|Hx]; [exists y; subst x; auto|exists x; auto].
  - intros [Hx|Hx]; [exists x; auto|].
    destruct (IH Hx) as (z & Hz & H1 & H2). exists z. auto.
Qed.

Lemma removeFirst_incl {A} (p : A -> bool) (l : list A) :
  incl (removeFirst p l) l.
Proof.
  induction l as [|y l IH]; simpl; [intros x []|].
  destruct (p y); intros x Hx; [right; exact Hx|].
  destruct Hx as [<-|Hx]; [left; reflexivity|right; apply IH; exact Hx].
Qed.

Lemma removeFirst_NoDup {A B} (f : A -> B) (p : A -> bool) (l : list A) :
  NoDup (map f l) -> NoDup (map f (removeFirst p l)).
Proof.
  induction l as [|y l IH]; simpl; intros Hnd; [constructor|].
  inversion Hnd as [|? ? Hnotin Hnd2]; subst.
  destruct (p y); simpl; [exact Hnd2|].
  constructor; [|apply IH; exact Hnd2].
  intros Hin. apply Hnotin. apply in_map_iff in Hin.
  destruct Hin as [z [Hz Hin]]. rewrite <- Hz. apply in_map.
  apply (removeFirst_incl p l z Hin).
Qed.

Lemma removeFirst_id_gone id (events : list IEvent) (x : IEvent) :
  NoDup (map _id events) ->
  (exists e, findById id events = Some e) ->
  In x (removeFirst (fun e => String.eqb (_id e) (castObjectId id)) events) ->
  _id x <> castObjectId id.
Proof.
  unfold findById, Js.find. generalize (castObjectId id) as id'. intros id'.
  induction events as [|y l IH]; simpl; intros Hnd [e He]; [discriminate|].
  inversion Hnd as [|? ? Hnotin Hnd2]; subst.
  destruct (String.eqb_spec (_id y) id') as [Hy|Hy].
  - intros Hx Hid. apply Hnotin. rewrite Hy, <- Hid. apply in_map. exact Hx.
  - intros [<-|Hx]; [exact Hy|]. apply IH; eauto.
Qed.

(** What a call does to the Event collection. *)
Lemma call_events (env : Env) (db : DB) (c : Call) :
  Events (fst (call env db c)) = Events db
  \/ exists id, Events (fst (call env db c))
                = updateFirst (fun e => String.eqb (_id e) id) closeEvent
                              (Events db).
Proof.
  destruct c as [today b user|id|eid total|today d|today ids d]; cbn [call].
  - left. apply book_events.
  - unfold closeRegistration.
    destruct (negb _); [left; reflexivity|].
    destruct (findById id _) as [e0|]; [|left; reflexivity].
    destruct (registrationClosed e0); [left; reflexivity|].
    right. exists (castObjectId id). reflexivity.
  - left. unfold initializeRoute.
    destruct (_ || _); [reflexivity|]. destruct (findById eid _); reflexivity.
  - left. unfold getSeats.
    destruct (validateDateFormatGet d); [reflexivity|].
    destruct (negb _); [reflexivity|].
    destruct (String.eqb d today); [reflexivity|].
    destruct (findOneByDate _ _); [|reflexivity].
    simpl. destruct (_ <? _); reflexivity.
  - left. unfold getSeatsByIds.
    destruct (validateDateFormatGet d); [reflexivity|].
    destruct (_ || _); [reflexivity|].
    destruct (negb _); [reflexivity|].
    destruct (String.eqb d today); [reflexivity|].
    destruct (findOneByDate _ _); [|reflexivity].
    destruct (_ || _); reflexivity.
Qed.

Lemma step_dates (env : Env) (adminPassword : string) (db : DB) (o : Op) :
  NoDup (map eventDate (Events db)) ->
  NoDup (map eventDate (Events (step env adminPassword db o))).
Proof.
  intros Hnd. destruct o as [c|today newId user b|user id password]; cbn [step].
  - destruct (call_events env db c) as [->|[id ->]]; [exact Hnd|].
    rewrite updateFirst_close_dates. exact Hnd.
  - destruct (createEvent_outcome adminPassword today newId db user b)
      as [(code & msg & -> & _)|(_ & Hcheck & ->)]; cbn [fst Events];
      [exact Hnd|].
    apply createEventCheck_None in Hcheck.
    destruct Hcheck as (_ & _ & Hfree & _).
    rewrite map_app. apply NoDup_app; [exact Hnd|repeat constructor; intros []|].
    intros d Hd [<-|[]]. apply Hfree. exact Hd.
  - destruct (deleteEvent_outcome env adminPassword db user id password)
      as [(code & msg & -> & _)|(_ & _ & _ & _ & _ & ->)]; cbn [fst Events];
      [exact Hnd|].
    apply removeFirst_NoDup. exact Hnd.
Qed.

Lemma createEventCheck_client adminPassword today events b r :
  createEventCheck adminPassword today events b = Some r ->
  exists code msg, r = eventError code msg /\ (code = 400 \/ code = 401).
Proof.
  unfold createEventCheck.
  repeat match goal with
         | |- context [if ?c then _ else _] => destruct c
         | |- context [match findOneByDate ?d ?l with _ => _ end] =>
             destruct (findOneByDate d l)
         end;
    intros [= <-]; eexists; eexists; (split; [reflexivity|auto]).
Qed.

(** X8. At most one event per date, whatever happens: when the stored
    events have pairwise different dates, they still have after any
    sequence of bookings, closings, seat initialisations, listings, event
    creations and event deletions. The unique index on the event date
    therefore never rejects a creation: an answer 500 of event creation
    means that the name, the description or the venue is blank. *)
Theorem event_dates_stay_unique (env : Env) (adminPassword : string)
        (os : list Op) (db : DB) :
  NoDup (map eventDate (Events db)) ->
  NoDup (map eventDate (Events (runOps env adminPassword db os)))
  /\ forall today newId user b msg,
       snd (createEvent adminPassword today newId
                        (runOps env adminPassword db os) user b)
       = Some (eventError 500 msg) ->
       Js.trim (ReqEvent.name b) = "" \/ Js.trim (ReqEvent.description b) = ""
       \/ Js.trim (ReqEvent.venue b) = "".
Proof.
  revert db. induction os as [|o os IH]; intros db Hnd.
  2:{ simpl. apply IH. apply step_dates. exact Hnd. }
  simpl. split; [exact Hnd|].
  intros today newId user b msg. unfold createEvent, restrictToAdmin.
  destruct (isAdmin user); simpl negb; cbv iota; [|discriminate].
  unfold validateDateFormatBody. destruct (_ && _); [discriminate|].
  destruct (createEventCheck adminPassword today (Events db) b) as [r|] eqn:Hc.
  { destruct (createEventCheck_client _ _ _ _ _ Hc) as (code & m & -> & Hcode).
    simpl. unfold eventError. intros [= H _]. lia. }
  apply createEventCheck_None in Hc. destruct Hc as (_ & _ & Hfree & _).
  unfold saveNewEvent, throwIf, bind.
  destruct (Js.truthy (Js.trim (ReqEvent.name b))) eqn:H1;
    [|intros _; left; unfold Js.truthy in H1; apply negb_false_iff in H1;
      apply String.eqb_eq; exact H1].
  destruct (Js.truthy (Js.trim (ReqEvent.description b))) eqn:H2;
    [|intros _; right; left; unfold Js.truthy in H2; apply negb_false_iff in H2;
      apply String.eqb_eq; exact H2].
  destruct (Js.truthy (Js.trim (ReqEvent.venue b))) eqn:H3;
    [|intros _; right; right; unfold Js.truthy in H3; apply negb_false_iff in H3;
      apply String.eqb_eq; exact H3].
  cbn [andb negb]. cbv iota.
  destruct (existsb _ (Events db)) eqn:Hdup.
  - exfalso. apply existsb_exists in Hdup. destruct Hdup as [x [Hx Heq]].
    apply String.eqb_eq in Heq. apply Hfree. simpl in Heq. rewrite <- Heq.
    apply in_map. exact Hx.
  - simpl. unfold eventError. intros H. discriminate H.
Qed.

Lemma filter_map_swap {A} (p : A -> bool) (g : A -> A) (l : list A) :
  (forall x, p (g x) = p x) -> filter p (map g l) = map g (filter p l).
Proof.
  intros H. induction l as [|x l IH]; simpl; [reflexivity|].
  rewrite H. destruct (p x); simpl; rewrite IH; reflexivity.
Qed.

Lemma filter_filter_implied {A} (p q : A -> bool) (l : list A) :
  (forall x, p x = true -> q x = true) ->
  filter p (filter q l) = filter p l.
Proof.
  intros H. induction l as [|x l IH]; simpl; [reflexivity|].
  destruct (p x) eqn:Hp.
  - rewrite (H x Hp). simpl. rewrite Hp, IH. reflexivity.
  - destruct (q x); simpl; [rewrite Hp|]; exact IH.
Qed.

Lemma filter_other_event (id x : string) (seats : list ISeat) :
  x <> id ->
  filter (ofEvent x) (filter (fun s => negb (ofEvent id s)) seats)
  = filter (ofEvent x) seats.
Proof.
  intros Hne. apply filter_filter_implied. intros s Hs.
  unfold ofEvent in *. apply String.eqb_eq in Hs.
  apply negb_true_iff. apply String.eqb_neq. congruence.
Qed.

Lemma initializeSeats_other (eid other : string) (total : nat) (seats : list ISeat) :
  other <> eid ->
  filter (ofEvent other) (initializeSeats eid total seats)
  = filter (ofEvent other) seats.
Proof.
  intros Hne. unfold initializeSeats.
  destruct (total <=? _); [reflexivity|].
  rewrite filter_app.
  rewrite (filter_none (ofEvent other) (generateSeats eid total)).
  - rewrite app_nil_r. apply filter_other_event. exact Hne.
  - intros s Hs. unfold ofEvent. rewrite (generateSeats_ofEvent _ _ _ Hs).
    apply String.eqb_neq. congruence.
Qed.

Lemma generateSeats_length (eid : string) (total : nat) :
  List.length (generateSeats eid total) = Nat.min total 260.
Proof.
  rewrite <- (length_map seatId), generateSeats_ids, length_firstn,
    rowMajorSeatIds_length. reflexivity.
Qed.

(** The initializer never leaves an event with fewer seats than a
    capacity its seats covered. *)
Lemma initializeSeats_cover (eid x : string) (total k : nat) (seats : list ISeat) :
  k <= 260 ->
  k <= List.length (filter (ofEvent x) seats) ->
  k <= List.length (filter (ofEvent x) (initializeSeats eid total seats)).
Proof.
  intros H260 Hk. destruct (string_dec x eid) as [->|Hne].
  - destruct (Nat.leb_spec total (List.length (filter (ofEvent eid) seats)))
      as [Hle|Hlt].
    + unfold initializeSeats.
      destruct (Nat.leb_spec total (List.length (filter (ofEvent eid) seats)));
        [exact Hk|lia].
    + destruct (initializeSeats_regenerates eid total seats Hlt) as [-> _].
      rewrite generateSeats_length. lia.
  - rewrite (initializeSeats_other eid x total seats Hne). exact Hk.
Qed.

Lemma call_seats_cover (env : Env) (db : DB) (c : Call) (x : string) (k : nat) :
  uniqueIndex (Seats db) ->
  k <= 260 ->
  k <= List.length (filter (ofEvent x) (Seats db)) ->
  k <= List.length (filter (ofEvent x) (Seats (fst (call env db c)))).
Proof.
  intros Huniq H260 Hk.
  destruct c as [today b user|id|eid total|today d|today ids d]; cbn [call].
  - destruct (book_seats env today db b user Huniq)
      as [_ [->|(event & _ & _ & _ & _ & ->)]]; [exact Hk|].
    rewrite filter_map_swap, length_map; [exact Hk|].
    intros s. destruct (referenced b s); reflexivity.
  - unfold closeRegistration.
    destruct (negb _); [exact Hk|].
    destruct (findById id _) as [e0|]; [|exact Hk].
    destruct (registrationClosed e0); exact Hk.
  - unfold initializeRoute.
    destruct (_ || _); [exact Hk|].
    destruct (findById eid _); [|exact Hk].
    cbn [fst Seats]. apply initializeSeats_cover; assumption.
  - unfold getSeats.
    destruct (validateDateFormatGet d); [exact Hk|].
    destruct (negb _); [exact Hk|].
    destruct (String.eqb d today); [exact Hk|].
    destruct (findOneByDate _ _); [|exact Hk].
    cbv zeta. cbn [fst]. destruct (_ <? _); [|exact Hk].
    cbn [Seats]. apply initializeSeats_cover; assumption.
  - unfold getSeatsByIds.
    destruct (validateDateFormatGet d); [exact Hk|].
    destruct (_ || _); [exact Hk|].
    destruct (negb _); [exact Hk|].
    destruct (String.eqb d today); [exact Hk|].
    destruct (findOneByDate _ _); [|exact Hk].
    destruct (_ || _); exact Hk.
Qed.

Lemma step_registryOk (env : Env) (adminPassword : string) (db : DB) (o : Op) :
  registryOk db -> opOk db o -> registryOk (step env adminPassword db o).
Proof.
  intros (Hwf & Hids & Hcover & Hcast) Hok.
  destruct o as [c|today newId user b|user id password]; cbn [step].
  - assert (Horigin : forall e, In e (Events (fst (call env db c))) ->
                      exists y, In y (Events db) /\ _id e = _id y
                                /\ totalSeats e = totalSeats y).
    { intros e He.
      destruct (call_events env db c) as [Heq|[id Heq]]; rewrite Heq in He.
      - exists e. auto.
      - apply In_updateFirst_close_origin in He. exact He. }
    split; [apply call_wellFormed; exact Hwf|]. split; [|split].
    + destruct (call_events env db c) as [->|[id ->]]; [exact Hids|].
      rewrite updateFirst_close_ids. exact Hids.
    + intros e He.
      destruct (Horigin e He) as (y & Hy & -> & ->).
      destruct (Hcover y Hy) as [H260 Hk]. split; [exact H260|].
      apply call_seats_cover; [apply Hwf|exact H260|exact Hk].
    + intros e He. destruct (Horigin e He) as (y & Hy & -> & _).
      apply Hcast. exact Hy.
  - destruct Hok as (Hcap & Hfresh & Hoid).
    destruct (createEvent_outcome adminPassword today newId db user b)
      as [(code & msg & -> & _)|(_ & Hcheck & ->)]; cbn [fst];
      [exact (conj Hwf (conj Hids (conj Hcover Hcast)))|].
    apply createEventCheck_None in Hcheck. destruct Hcheck as (_ & Hseats & _).
    split; [|split; [|split]].
    + destruct Hwf as [Hu Hl]. split; cbn [Seats].
      * apply initializeSeats_uniqueIndex. exact Hu.
      * apply initializeSeats_ledgerUnique. exact Hl.
    + cbn [Events]. rewrite map_app. apply NoDup_app;
        [exact Hids|repeat constructor; intros []|].
      intros x Hx [<-|[]]. apply Hfresh. exact Hx.
    + intros e He. cbn [Events Seats] in *. apply in_app_or in He.
      destruct He as [He|[<-|[]]].
      * destruct (Hcover e He) as [H260 Hk]. split; [exact H260|].
        apply initializeSeats_cover; assumption.
      * cbn [newEvent totalSeats _id]. split; [lia|].
        set (c := Z.to_nat (ReqEvent.totalSeats b)).
        destruct (Nat.leb_spec c (List.length (filter (ofEvent newId) (Seats db))))
          as [Hle|Hlt].
        -- unfold initializeSeats.
           destruct (Nat.leb_spec c (List.length (filter (ofEvent newId) (Seats db))));
             [exact Hle|lia].
        -- destruct (initializeSeats_regenerates newId c (Seats db) Hlt) as [-> _].
           rewrite generateSeats_length. unfold c. lia.
    + intros e He. cbn [Events] in He. apply in_app_or in He.
      destruct He as [He|[<-|[]]]; [apply Hcast; exact He|exact Hoid].
  - destruct (deleteEvent_outcome env adminPassword db user id password)
      as [(code & msg & -> & _)|(_ & _ & _ & Hev & _ & ->)]; cbn [fst];
      [exact (conj Hwf (conj Hids (conj Hcover Hcast)))|].
    split; [|split; [|split]].
    + destruct Hwf as [Hu Hl]. split; cbn [Seats].
      * apply NoDup_map_filter. exact Hu.
      * intros s Hs. apply filter_In in Hs. apply Hl. tauto.
    + cbn [Events]. apply removeFirst_NoDup. exact Hids.
    + intros e He. cbn [Events Seats] in *.
      pose proof (removeFirst_id_gone id (Events db) e Hids Hev He) as Hne.
      apply removeFirst_incl in He. destruct (Hcover e He) as [H260 Hk].
      split; [exact H260|]. rewrite filter_other_event; [assumption|].
      intros Hid. apply Hne.
      pose proof (castObjectId_objectIdString _ (Hcast e He)) as Hc. congruence.
    + intros e He. cbn [Events] in He. apply removeFirst_incl in He.
      apply Hcast. exact He.
Qed.

Lemma run_registryOk (env : Env) (adminPassword : string) (os : list Op) :
  forall db, registryOk db -> runOk env adminPassword db os ->
             registryOk (runOps env adminPassword db os).
Proof.
  induction os as [|o os IH]; intros db Hreg Hok; simpl; [exact Hreg|].
  destruct Hok as [Ho Hos]. apply IH; [|exact Hos].
  apply step_registryOk; assumption.
Qed.

Lemma getSeats_covered (today : string) (db : DB) (d : string) :
  seatsCover db -> fst (getSeats today db d) = db.
Proof.
  intros Hcover. unfold getSeats.
  destruct (validateDateFormatGet d); [reflexivity|].
  destruct (negb _); [reflexivity|].
  destruct (String.eqb d today); [reflexivity|].
  destruct (findOneByDate d (Events db)) as [event|] eqn:He; [|reflexivity].
  cbv zeta. cbn [fst].
  unfold findOneByDate, Js.find in He. apply find_some in He.
  destruct (Hcover event (proj1 He)) as [_ Hk].
  destruct (Nat.ltb_spec (List.length (filter (ofEvent (_id event)) (Seats db)))
                         (totalSeats event)); [lia|reflexivity].
Qed.

(** X9. Where the read path is safe. Start from a well-formed store whose
    events have distinct identifiers, each an ObjectId read as its
    twenty-four lower-case hexadecimal digits, and at least as many seats
    as their capacity, none above 260, and let every event creation stay
    within 260 seats and use a new identifier of that form. Then, after
    any sequence of
    bookings, closings, admin seat initialisations, listings, creations
    and deletions, the same holds again, and listing the seats of any date
    leaves the database exactly as it is. *)
Theorem getSeats_reads_only (env : Env) (adminPassword : string)
        (os : list Op) (db : DB) :
  registryOk db ->
  runOk env adminPassword db os ->
  registryOk (runOps env adminPassword db os)
  /\ forall today d,
       fst (getSeats today (runOps env adminPassword db os) d)
       = runOps env adminPassword db os.
Proof.
  intros Hreg Hok.
  pose proof (run_registryOk env adminPassword os db Hreg Hok) as H.
  split; [exact H|]. intros today d. apply getSeats_covered. apply H.
Qed.

(** ** Bookings across every operation *)

Lemma In_initializeSeats_other (eid : string) (total : nat) (seats : list ISeat)
      (s : ISeat) :
  In s seats -> eventId s <> eid -> In s (initializeSeats eid total seats).
Proof.
  intros Hs Hne. unfold initializeSeats.
  destruct (total <=? _); [exact Hs|].
  apply in_or_app. left. apply filter_In. split; [exact Hs|].
  apply negb_true_iff. apply String.eqb_neq. exact Hne.
Qed.

(** One operation that is neither an admin seat initialisation nor a
    creation under the seat's event identifier keeps a booked seat
    booked. *)
Lemma step_keeps_booked (env : Env) (adminPassword : string) (db : DB) (o : Op)
      (eid sid d : string) :
  registryOk db -> reinitializes o = false -> createsAs eid o = false ->
  bookedOn eid sid d (Seats db) ->
  bookedOn eid sid d (Seats (step env adminPassword db o)).
Proof.
  intros (Hwf & Hids & Hcover & Hcast) Hre Hcr Hb.
  destruct o as [c|today newId user b|user id password]; cbn [step].
  - destruct c as [today b user|id|eid2 total|today d2|today ids d2];
      try discriminate.
    + apply call_keeps_booked; [reflexivity|apply Hwf|exact Hb].
    + apply call_keeps_booked; [reflexivity|apply Hwf|exact Hb].
    + cbn [call]. rewrite getSeats_covered; [exact Hb|exact Hcover].
    + apply call_keeps_booked; [reflexivity|apply Hwf|exact Hb].
  - destruct (createEvent_outcome adminPassword today newId db user b)
      as [(code & msg & -> & _)|(_ & _ & ->)]; cbn [fst Events Seats];
      [exact Hb|].
    destruct Hb as (s & Hs & Heid & Hsid & Hd).
    exists s. repeat split; try assumption.
    apply In_initializeSeats_other; [exact Hs|].
    cbn [createsAs] in Hcr. apply String.eqb_neq in Hcr. congruence.
  - destruct (deleteEvent_outcome env adminPassword db user id password)
      as [(code & msg & -> & _)|(_ & _ & _ & _ & Hnone & ->)];
      cbn [fst Events Seats]; [exact Hb|].
    destruct Hb as (s & Hs & Heid & Hsid & Hd).
    assert (Hne : eid <> id).
    { intros ->. assert (Hin : In s (filter (bookedSeatOf id) (Seats db))).
      { apply filter_In. split; [exact Hs|].
        unfold bookedSeatOf, ofEvent. rewrite Heid, String.eqb_refl.
        destruct (bookings s); [destruct Hd|reflexivity]. }
      rewrite Hnone in Hin. exact Hin. }
    exists s. repeat split; try assumption.
    apply filter_In. split; [exact Hs|].
    apply negb_true_iff. apply String.eqb_neq. congruence.
Qed.

Lemma run_keeps_booked_everywhere (env : Env) (adminPassword : string)
      (os : list Op) (eid sid d : string) :
  forall db,
    registryOk db -> runOk env adminPassword db os ->
    forallb (fun o => negb (reinitializes o) && negb (createsAs eid o)) os
    = true ->
    bookedOn eid sid d (Seats db) ->
    bookedOn eid sid d (Seats (runOps env adminPassword db os)).
Proof.
  induction os as [|o os IH]; intros db Hreg Hok Hno Hb; simpl; [auto|].
  destruct Hok as [Ho Hos]. simpl in Hno. apply andb_true_iff in Hno.
  destruct Hno as [Hre Hno]. apply andb_true_iff in Hre.
  destruct Hre as [Hre Hcr]. apply negb_true_iff in Hre, Hcr.
  apply IH; try assumption; [apply step_registryOk; assumption|].
  apply step_keeps_booked; assumption.
Qed.

(** X10. The double-booking guard across the whole interface. On a store
    as in X9 and under the same discipline of event creation, once a seat
    stored under an event identifier holds an entry for a date, then
    through every sequence of bookings, closings, listings (the seat
    listing included), event creations and event deletions, the admin's
    seat initialisation left out and no event created under that same
    identifier, the seat keeps that entry, every booking whose event
    identifier is cast to that identifier and that names the seat for
    that date fails and changes nothing, and an event deletion sent with
    that identifier changes nothing. The event document is not part of
    what is kept: a deletion sent with another spelling of the identifier
    looks for booked seats under that spelling, finds none and removes
    the event, as the last part of X4 shows. *)
Theorem booked_seat_stays_booked (env : Env) (adminPassword : string)
        (os : list Op) (db : DB) (eid sid d : string) :
  registryOk db ->
  runOk env adminPassword db os ->
  forallb (fun o => negb (reinitializes o) && negb (createsAs eid o)) os
  = true ->
  bookedOn eid sid d (Seats db) ->
  let db2 := runOps env adminPassword db os in
  bookedOn eid sid d (Seats db2)
  /\ (forall today b user,
        castObjectId (Req.eventId b) = eid -> requests b sid d ->
        fst (book env today db2 b user) = db2
        /\ failed (snd (book env today db2 b user)))
  /\ (forall user password,
        fst (deleteEvent env adminPassword db2 user eid password) = db2).
Proof.
  intros Hreg Hok Hno Hb db2. subst db2.
  pose proof (run_keeps_booked_everywhere env adminPassword os eid sid d db
                Hreg Hok Hno Hb) as Hb2.
  split; [exact Hb2|]. split.
  - intros today b user Heid Hreq. apply (book_conflict env today _ b user sid d).
    + rewrite Heid. exact Hb2.
    + exact Hreq.
  - intros user password.
    destruct (deleteEvent_outcome env adminPassword
                (runOps env adminPassword db os) user eid password)
      as [(code & msg & -> & _)|(_ & _ & _ & _ & Hnone & _)]; [reflexivity|].
    exfalso. destruct Hb2 as (s & Hs & Heid & Hsid & Hd).
    assert (Hin : In s (filter (bookedSeatOf eid)
                               (Seats (runOps env adminPassword db os)))).
    { apply filter_In. split; [exact Hs|].
      unfold bookedSeatOf, ofEvent. rewrite Heid, String.eqb_refl.
      destruct (bookings s); [destruct Hd|reflexivity]. }
    rewrite Hnone in Hin. exact Hin.
Qed.

(** ** Bookings as the admin sees them *)

Lemma bookPrecheck_valid_id env today b :
  bookPrecheck env today b = None -> isValidObjectId env (Req.eventId b) = true.
Proof.
  unfold bookPrecheck. destruct (_ || _); [discriminate|].
  destruct (isValidObjectId env (Req.eventId b)); [reflexivity|discriminate].
Qed.

(** A successful batch stores, for each of its requests, the entry built
    from it on the seat it names. *)
Lemma book_succeeded_entry (env : Env) (today : string) (db : DB)
      (b : Req.Book) (user : IUser) (bk : Req.Booking) :
  uniqueIndex (Seats db) ->
  succeeded (snd (book env today db b user)) ->
  In bk (Req.bookings b) ->
  exists event s,
    findById (Req.eventId b) (Events db) = Some event
    /\ Req.bookingDate bk = eventDate event
    /\ In s (Seats (fst (book env today db b user)))
    /\ eventId s = castObjectId (Req.eventId b) /\ seatId s = Req.seatId bk
    /\ In (castBooking bk) (bookings s).
Proof.
  intros Huniq Hs Hbk.
  destruct (book_succeeded _ _ _ _ _ Hs) as (c & _ & _ & Htx & Hdb & _).
  destruct (bookTransaction_saved _ _ _ _ _ Huniq Htx) as [Hsaved _].
  destruct (bookTransaction_inr _ _ _ _ _ Htx) as [event Hinv].
  cbv zeta in Hinv. destruct Hinv as (Hev & Hdates & _ & Hnd & Hlen & _).
  pose proof (findById_Some _ _ _ Hev) as [_ Hid].
  assert (Hlen2 : List.length (filter (referenced b) (Seats db))
                  = List.length (Req.bookings b)).
  { unfold referenced. rewrite <- Hid. exact Hlen. }
  destruct (referenced_all_found db b Huniq Hnd Hlen2 bk Hbk)
    as (s & Hs2 & Href & Hsid).
  exists event, (bookInto (Req.bookings b) s).
  split; [exact Hev|]. split; [apply Hdates; exact Hbk|].
  rewrite Hdb. cbn [Seats]. rewrite Hsaved. split.
  - apply in_map_iff. exists s. rewrite Href. tauto.
  - rewrite (bookInto_single b bk s Hnd Hbk (eq_sym Hsid)).
    unfold referenced, inBatch, ofEvent in Href.
    apply andb_true_iff in Href. destruct Href as [_ He].
    apply String.eqb_eq in He. cbn [pushBooking eventId seatId bookings].
    repeat split; try assumption.
    apply in_or_app. right. left. reflexivity.
Qed.

Lemma In_rosterOf (d : string) (seats : list ISeat) (s : ISeat) (bkg : IBooking) :
  In s seats -> In bkg (bookings s) -> date bkg = d ->
  In {| rosterSeatId := seatId s;
        rosterName := name (bookedBy bkg);
        rosterEmail := email (bookedBy bkg);
        rosterPhone := match phone (bookedBy bkg) with
                       | Some p => if Js.truthy p then p else "N/A"
                       | None => "N/A"
                       end |}
     (rosterOf d seats).
Proof.
  intros Hs Hb Hd. unfold rosterOf. apply in_flat_map. exists s. split.
  - apply filter_In. split; [exact Hs|].
    destruct (bookings s); [destruct Hb|reflexivity].
  - apply (in_map (fun b0 => {| rosterSeatId := seatId s;
                                rosterName := name (bookedBy b0);
                                rosterEmail := email (bookedBy b0);
                                rosterPhone := match phone (bookedBy b0) with
                                               | Some p => if Js.truthy p then p else "N/A"
                                               | None => "N/A"
                                               end |})).
    apply filter_In. split; [exact Hb|]. rewrite Hd. apply String.eqb_refl.
Qed.

(** X11. What is booked is listed: after a successful call of the booking
    route, the admin's booking listing, asked under the identifier the
    event is stored with (the ObjectId the booking's eventId is cast to,
    read as a string, which the validity check lets through), answers
    200 with rows among which, for every request of the batch, is the row
    with its seatId, its name and email trimmed of white space as
    String.prototype.trim does, and its phone trimmed or, when there is
    none or an empty one, "N/A". The route finds the event under the
    cast identifier and the seats under the string it is sent. *)
Theorem bookings_listed_after_book (env : Env) (today : string) (db : DB)
        (b : Req.Book) (user viewer : IUser) :
  uniqueIndex (Seats db) ->
  succeeded (snd (book env today db b user)) ->
  isAdmin viewer = true ->
  isValidObjectId env (castObjectId (Req.eventId b)) = true ->
  exists rows,
    getEventBookings env (fst (book env today db b user)) viewer
                     (castObjectId (Req.eventId b))
    = {| eventStatus := 200; eventBody := BookingRows rows |}
    /\ forall bk, In bk (Req.bookings b) -> In (rosterRow bk) rows.
Proof.
  intros Huniq Hs Hadmin Hvalid.
  destruct (book_succeeded _ _ _ _ _ Hs) as (c & _ & Hpre & Htx & _).
  destruct (bookTransaction_inr _ _ _ _ _ Htx) as [event Hinv].
  cbv zeta in Hinv. destruct Hinv as (Hev & _).
  unfold getEventBookings, restrictToAdmin. rewrite Hadmin.
  rewrite Hvalid, book_events, findById_cast, Hev.
  cbn [negb]. eexists. split; [reflexivity|].
  intros bk Hbk.
  destruct (book_succeeded_entry env today db b user bk Huniq Hs Hbk)
    as (event2 & s & Hev2 & Hd & Hin & Heid & Hsid & Hentry).
  rewrite Hev in Hev2. injection Hev2 as <-.
  assert (Hrow := In_rosterOf (eventDate event)
                    (filter (ofEvent (castObjectId (Req.eventId b)))
                            (Seats (fst (book env today db b user))))
                    s (castBooking bk)).
  assert (Hofs : In s (filter (ofEvent (castObjectId (Req.eventId b)))
                              (Seats (fst (book env today db b user))))).
  { apply filter_In. split; [exact Hin|].
    unfold ofEvent. rewrite Heid. apply String.eqb_refl. }
  specialize (Hrow Hofs Hentry Hd).
  unfold rosterRow. rewrite <- Hsid.
  unfold castBooking in Hrow.
  cbn [name email phone bookedBy date option_map] in Hrow.
  destruct (Req.phone bk); exact Hrow.
Qed.

(** ** The patterns of the request checks *)

Lemma isVoid_not_nullable (r : Js.Re) :
  isVoid r = true -> Js.nullable r = false.
Proof.
  induction r as [| |p|r IHr s IHs|r IHr s IHs|r IHr]; cbn [isVoid Js.nullable];
    intros H; try discriminate; try reflexivity.
  - apply orb_true_iff in H. destruct H as [H|H].
    + rewrite (IHr H). reflexivity.
    + rewrite (IHs H). apply andb_false_r.
  - apply andb_true_iff in H. destruct H as [H1 H2].
    rewrite (IHr H1), (IHs H2). reflexivity.
Qed.

Lemma isVoid_deriv (c : ascii) (r : Js.Re) :
  isVoid r = true -> isVoid (Js.deriv c r) = true.
Proof.
  induction r as [| |p|r IHr s IHs|r IHr s IHs|r IHr]; cbn [isVoid Js.deriv];
    intros H; try discriminate; try reflexivity.
  - apply orb_true_iff in H. destruct H as [H|H].
    + rewrite (isVoid_not_nullable r H). cbn [isVoid]. rewrite (IHr H). reflexivity.
    + destruct (Js.nullable r); cbn [isVoid]; rewrite ?(IHs H), H;
        rewrite ?orb_true_r; reflexivity.
  - apply andb_true_iff in H. destruct H as [H1 H2].
    rewrite (IHr H1), (IHs H2). reflexivity.
Qed.

Lemma test_dead (w : string) :
  forall r, isVoid r = true -> Js.test r w = false.
Proof.
  induction w as [|c w IH]; intros r H; cbn [Js.test].
  - apply isVoid_not_nullable. exact H.
  - apply IH. apply isVoid_deriv. exact H.
Qed.

Lemma In_firstn_In {A} (n : nat) (l : list A) (x : A) :
  In x (firstn n l) -> In x l.
Proof.
  revert l. induction n as [|n IH]; intros [|a l] H; try destruct H.
  - left. assumption.
  - right. apply IH. assumption.
Qed.

Lemma rowMajorSeatIds_shape :
  forallb seatIdShape rowMajorSeatIds = true.
Proof. vm_compute. reflexivity. Qed.

Lemma seatIdRe_seatIdShape (s : string) : Js.test seatIdRe s = seatIdShape s.
Proof.
  unfold seatIdRe, Js.opt, Js.digit.
  destruct s as [|a [|b [|c [|d rest]]]]; unfold seatIdShape;
    cbn [Js.test Js.deriv Js.nullable andb orb].
  - reflexivity.
  - destruct (Js.range "A" "Z" a); reflexivity.
  - destruct (Js.range "A" "Z" a); cbn [Js.test Js.deriv Js.nullable andb orb];
      [|reflexivity].
    destruct (Js.range "1" "9" b); reflexivity.
  - destruct (Js.range "A" "Z" a); cbn [Js.test Js.deriv Js.nullable andb orb];
      [|reflexivity].
    destruct (Js.range "1" "9" b); cbn [Js.test Js.deriv Js.nullable andb orb];
      [|reflexivity].
    destruct (Js.range "0" "9" c); reflexivity.
  - destruct (Js.range "A" "Z" a); cbn [Js.test Js.deriv Js.nullable andb orb];
      [|apply test_dead; reflexivity].
    destruct (Js.range "1" "9" b); cbn [Js.test Js.deriv Js.nullable andb orb];
      [|apply test_dead; reflexivity].
    destruct (Js.range "0" "9" c); cbn [Js.test Js.deriv Js.nullable andb orb];
      apply test_dead; reflexivity.
Qed.

(** X14. The seatId pattern of the booking route accepts exactly a
    capital letter followed by a digit from 1 to 9 and at most one more
    digit; every seatId the seat generator emits is accepted, whatever
    the capacity; and the pattern is wider than the generator: it accepts
    "A11", which no generated seat carries. *)
Theorem seatId_pattern_covers_generator :
  (forall s, Js.test seatIdRe s = seatIdShape s)
  /\ (forall eid total s,
         In s (generateSeats eid total) -> Js.test seatIdRe (seatId s) = true)
  /\ (Js.test seatIdRe "A11" = true
      /\ forall eid total s, In s (generateSeats eid total) -> seatId s <> "A11").
Proof.
  assert (Hgen : forall eid total s, In s (generateSeats eid total) ->
                                     In (seatId s) rowMajorSeatIds).
  { intros eid total s Hs.
    apply (In_firstn_In total). rewrite <- (generateSeats_ids eid total).
    apply in_map. exact Hs. }
  split; [exact seatIdRe_seatIdShape|]. split.
  - intros eid total s Hs. rewrite seatIdRe_seatIdShape.
    exact (proj1 (forallb_forall _ _) rowMajorSeatIds_shape _ (Hgen eid total s Hs)).
  - split; [reflexivity|].
    intros eid total s Hs Heq. specialize (Hgen eid total s Hs).
    rewrite Heq in Hgen.
    assert (Hno : existsb (String.eqb "A11") rowMajorSeatIds = false)
      by (vm_compute; reflexivity).
    apply not_true_iff_false in Hno. apply Hno.
    apply existsb_exists. exists "A11". split; [exact Hgen|reflexivity].
Qed.

(** ** Validated contact data *)

Lemma nullable_Matches (r : Js.Re) :
  Js.nullable r = true -> Matches r EmptyString.
Proof.
  induction r as [| |p|r IHr s IHs|r IHr s IHs|r IHr]; cbn [Js.nullable];
    intros H; try discriminate.
  - constructor.
  - apply andb_true_iff in H. destruct H as [H1 H2].
    change EmptyString with (EmptyString ++ EmptyString)%string.
    constructor; [apply IHr|apply IHs]; assumption.
  - apply orb_true_iff in H. destruct H as [H|H].
    + apply MAltL. apply IHr. exact H.
    + apply MAltR. apply IHs. exact H.
  - apply MStar0.
Qed.

Lemma deriv_Matches (c : ascii) (r : Js.Re) :
  forall w, Matches (Js.deriv c r) w -> Matches r (String c w).
Proof.
  induction r as [| |p|r IHr s IHs|r IHr s IHs|r IHr]; cbn [Js.deriv]; intros w H.
  - inversion H.
  - inversion H.
  - destruct (p c) eqn:Hp; inversion H; subst. constructor. exact Hp.
  - destruct (Js.nullable r) eqn:Hn.
    + inversion H as [| | |r1 s1 u1 H1| r1 s1 u1 H1| |]; subst.
      * inversion H1 as [| |r2 s2 u v Hu Hv| | | |]; subst.
        change (String c (u ++ v)) with (String c u ++ v)%string.
        constructor; [apply IHr; exact Hu|exact Hv].
      * change (String c w) with (EmptyString ++ String c w)%string.
        constructor; [apply nullable_Matches; exact Hn|apply IHs; exact H1].
    + inversion H as [| |r2 s2 u v Hu Hv| | | |]; subst.
      change (String c (u ++ v)) with (String c u ++ v)%string.
      constructor; [apply IHr; exact Hu|exact Hv].
  - inversion H as [| | |r1 s1 u1 H1| r1 s1 u1 H1| |]; subst.
    + apply MAltL. apply IHr. exact H1.
    + apply MAltR. apply IHs. exact H1.
  - inversion H as [| |r2 s2 u v Hu Hv| | | |]; subst.
    change (String c (u ++ v)) with (String c u ++ v)%string.
    apply MStarS; [apply IHr; exact Hu|exact Hv].
Qed.

Lemma test_Matches (w : string) :
  forall r, Js.test r w = true -> Matches r w.
Proof.
  induction w as [|c w IH]; intros r H; cbn [Js.test] in H.
  - apply nullable_Matches. exact H.
  - apply deriv_Matches. apply IH. exact H.
Qed.

Lemma Matches_Cat_inv (r s : Js.Re) (w : string) :
  Matches (Js.Cat r s) w ->
  exists u v, w = (u ++ v)%string /\ Matches r u /\ Matches s v.
Proof.
  intros H. inversion H as [| |r2 s2 u v Hu Hv| | | |]; subst.
  exists u, v. auto.
Qed.

Lemma Matches_Cls_inv (p : ascii -> bool) (w : string) :
  Matches (Js.Cls p) w -> exists c, w = String c EmptyString /\ p c = true.
Proof.
  intros H. inversion H; subst. eexists. split; [reflexivity|assumption].
Qed.

Lemma Matches_opt_inv (r : Js.Re) (w : string) :
  Matches (Js.opt r) w -> w = EmptyString \/ Matches r w.
Proof.
  unfold Js.opt. intros H.
  inversion H as [| | |r1 s1 u1 H1| r1 s1 u1 H1| |]; subst.
  - left. inversion H1. reflexivity.
  - right. exact H1.
Qed.

Lemma append_assoc3 (u v w : string) :
  ((u ++ v) ++ w = u ++ (v ++ w))%string.
Proof. induction u as [|c u IH]; simpl; [reflexivity|rewrite IH; reflexivity]. Qed.

Lemma endsIn_app (p : ascii -> bool) (u v : string) :
  endsIn p v -> endsIn p (u ++ v).
Proof.
  intros (x & c & -> & Hc). exists (u ++ x)%string, c.
  split; [symmetry; apply append_assoc3|exact Hc].
Qed.

Lemma endsIn_cons (p : ascii -> bool) (c : ascii) (v : string) :
  endsIn p v -> endsIn p (String c v).
Proof. apply (endsIn_app p (String c EmptyString) v). Qed.

Lemma endsIn_one (p : ascii -> bool) (c : ascii) :
  p c = true -> endsIn p (String c EmptyString).
Proof. intros H. exists EmptyString, c. split; [reflexivity|exact H]. Qed.

Lemma Matches_Star_Cls (p : ascii -> bool) (w : string) :
  Matches (Js.Star (Js.Cls p)) w -> w = EmptyString \/ endsIn p w.
Proof.
  intros H. remember (Js.Star (Js.Cls p)) as r eqn:E.
  induction H as [|q c Hc|r s u v Hu _ Hv _|r s u Hu _|r s u Hu _|r
                  |r u v Hu _ Hv IHv]; try discriminate.
  - left. reflexivity.
  - injection E as ->. specialize (IHv eq_refl).
    destruct (Matches_Cls_inv _ _ Hu) as (c & -> & Hc).
    right. destruct IHv as [->|Hv2].
    + apply endsIn_one. exact Hc.
    + apply endsIn_cons. exact Hv2.
Qed.

Lemma startsIn_app (p : ascii -> bool) (u v : string) :
  startsIn p u -> startsIn p (u ++ v).
Proof.
  intros (c & x & -> & Hc). exists c, (x ++ v)%string.
  split; [reflexivity|exact Hc].
Qed.

Lemma plainByte_inv (a : ascii) :
  plainByte a = true -> nat_of_ascii a < 128 /\ Js.isSpace a = false.
Proof.
  unfold plainByte. intros H. apply andb_true_iff in H. destruct H as [H1 H2].
  apply Nat.ltb_lt in H1. apply negb_true_iff in H2. tauto.
Qed.

Lemma isSpace2_plain (a b : ascii) :
  plainByte a = true -> Js.isSpace2 a b = false /\ Js.isSpace2 b a = false.
Proof.
  intros H. apply plainByte_inv in H. destruct H as [H _]. unfold Js.isSpace2.
  assert (E1 : (nat_of_ascii a =? 194) = false) by (apply Nat.eqb_neq; lia).
  assert (E2 : (nat_of_ascii a =? 160) = false) by (apply Nat.eqb_neq; lia).
  rewrite E1, E2. split; [reflexivity|apply andb_false_r].
Qed.

Lemma isSpace3_plain (a b c : ascii) :
  plainByte a = true -> Js.isSpace3 a b c = false /\ Js.isSpace3 c b a = false.
Proof.
  intros H. apply plainByte_inv in H. destruct H as [H _]. unfold Js.isSpace3.
  cbv zeta.
  assert (E1 : (nat_of_ascii a =? 225) = false) by (apply Nat.eqb_neq; lia).
  assert (E2 : (nat_of_ascii a =? 226) = false) by (apply Nat.eqb_neq; lia).
  assert (E3 : (nat_of_ascii a =? 227) = false) by (apply Nat.eqb_neq; lia).
  assert (E4 : (nat_of_ascii a =? 239) = false) by (apply Nat.eqb_neq; lia).
  assert (F1 : (nat_of_ascii a =? 128) = false) by (apply Nat.eqb_neq; lia).
  assert (F2 : (128 <=? nat_of_ascii a) = false) by (apply Nat.leb_gt; lia).
  assert (F3 : (nat_of_ascii a =? 168) = false) by (apply Nat.eqb_neq; lia).
  assert (F4 : (nat_of_ascii a =? 169) = false) by (apply Nat.eqb_neq; lia).
  assert (F5 : (nat_of_ascii a =? 175) = false) by (apply Nat.eqb_neq; lia).
  assert (F6 : (nat_of_ascii a =? 159) = false) by (apply Nat.eqb_neq; lia).
  assert (F7 : (nat_of_ascii a =? 191) = false) by (apply Nat.eqb_neq; lia).
  rewrite E1, E2, E3, E4, F1, F2, F3, F4, F5, F6, F7. cbn [andb orb].
  split; [reflexivity|].
  rewrite !andb_false_r. reflexivity.
Qed.

Lemma dropSpace_keeps (two : ascii -> ascii -> bool)
      (three : ascii -> ascii -> ascii -> bool) (a : ascii) (r : string) :
  Js.isSpace a = false -> (forall b, two a b = false) ->
  (forall b c, three a b c = false) ->
  Js.dropSpace two three (String a r) = String a r.
Proof.
  intros H1 H2 H3. cbn [Js.dropSpace]. rewrite H1.
  destruct r as [|b [|c r]]; [reflexivity|rewrite H2; reflexivity|].
  rewrite H2, H3. reflexivity.
Qed.

Lemma revAppend_app (u v acc : string) :
  Js.revAppend (u ++ v) acc = Js.revAppend v (Js.revAppend u acc).
Proof.
  revert acc. induction u as [|a u IH]; intros acc; [reflexivity|].
  cbn [String.append Js.revAppend]. apply IH.
Qed.

Lemma reverse_snoc (u : string) (c : ascii) :
  Js.reverse (u ++ String c EmptyString) = String c (Js.reverse u).
Proof. unfold Js.reverse. rewrite revAppend_app. reflexivity. Qed.

Lemma revAppend_acc (s acc : string) :
  Js.revAppend s acc = (Js.reverse s ++ acc)%string.
Proof.
  unfold Js.reverse. revert acc. induction s as [|a s IH]; intros acc;
    [reflexivity|].
  cbn [Js.revAppend]. rewrite (IH (String a acc)), (IH (String a EmptyString)).
  rewrite append_assoc3. reflexivity.
Qed.

Lemma reverse_cons (c : ascii) (t : string) :
  Js.reverse (String c t) = (Js.reverse t ++ String c EmptyString)%string.
Proof. unfold Js.reverse at 1. cbn [Js.revAppend]. apply revAppend_acc. Qed.

Lemma reverse_reverse (u : string) : Js.reverse (Js.reverse u) = u.
Proof.
  induction u as [|a u IH]; [reflexivity|].
  rewrite reverse_cons, reverse_snoc, IH. reflexivity.
Qed.

Lemma trimEnd_keeps (p : ascii -> bool) (w : string) :
  (forall c, p c = true -> plainByte c = true) ->
  endsIn p w -> Js.trimEnd w = w.
Proof.
  intros Hp (u & c & -> & Hc). apply Hp in Hc. unfold Js.trimEnd.
  rewrite reverse_snoc, dropSpace_keeps.
  - rewrite reverse_cons, reverse_reverse. reflexivity.
  - exact (proj2 (plainByte_inv c Hc)).
  - intros b. exact (proj2 (isSpace2_plain c b Hc)).
  - intros b d. exact (proj2 (isSpace3_plain c b d Hc)).
Qed.

Lemma trim_keeps (p q : ascii -> bool) (w : string) :
  (forall c, p c = true -> plainByte c = true) ->
  (forall c, q c = true -> plainByte c = true) ->
  startsIn p w -> endsIn q w -> Js.trim w = w.
Proof.
  intros Hp Hq (c & v & -> & Hc) He. unfold Js.trim, Js.trimStart.
  apply Hp in Hc. rewrite dropSpace_keeps.
  - apply (trimEnd_keeps q); assumption.
  - exact (proj2 (plainByte_inv c Hc)).
  - intros b. exact (proj1 (isSpace2_plain c b Hc)).
  - intros b d. exact (proj1 (isSpace3_plain c b d Hc)).
Qed.

Lemma letterC_not_space (c : ascii) : letterC c = true -> plainByte c = true.
Proof. by_ascii_cases c. Qed.

Lemma localC_not_space (c : ascii) : localC c = true -> plainByte c = true.
Proof. by_ascii_cases c. Qed.

Lemma digit_not_space (c : ascii) :
  Js.range "0" "9" c = true -> plainByte c = true.
Proof. by_ascii_cases c. Qed.

Lemma phoneStartC_not_space (c : ascii) :
  phoneStartC c = true -> plainByte c = true.
Proof. by_ascii_cases c. Qed.

Lemma emailRe_ends (w : string) :
  Js.test emailRe w = true -> startsIn localC w /\ endsIn letterC w.
Proof.
  intros H. apply test_Matches in H.
  unfold emailRe, Js.plus, Js.lit in H. cbv zeta in H.
  fold letterC in H. fold localC in H.
  destruct (Matches_Cat_inv _ _ _ H) as (u1 & v1 & -> & Hu1 & Hv1).
  split.
  - apply startsIn_app.
    destruct (Matches_Cat_inv _ _ _ Hu1) as (a & a2 & -> & Ha & _).
    destruct (Matches_Cls_inv _ _ Ha) as (c & -> & Hc).
    exists c, a2. split; [reflexivity|exact Hc].
  - apply endsIn_app.
    destruct (Matches_Cat_inv _ _ _ Hv1) as (u2 & v2 & -> & _ & Hv2).
    apply endsIn_app.
    destruct (Matches_Cat_inv _ _ _ Hv2) as (u3 & v3 & -> & _ & Hv3).
    apply endsIn_app.
    destruct (Matches_Cat_inv _ _ _ Hv3) as (u4 & v4 & -> & _ & Hv4).
    apply endsIn_app.
    destruct (Matches_Cat_inv _ _ _ Hv4) as (u5 & v5 & -> & _ & Hv5).
    apply endsIn_app.
    destruct (Matches_Cat_inv _ _ _ Hv5) as (u6 & v6 & -> & Hu6 & Hv6).
    destruct (Matches_Cls_inv _ _ Hu6) as (c & -> & Hc).
    destruct (Matches_Star_Cls _ _ Hv6) as [->|He].
    + apply endsIn_one. exact Hc.
    + apply endsIn_app. exact He.
Qed.

Lemma Matches_digit_start (r : Js.Re) (w : string) :
  Matches (Js.Cat Js.digit r) w -> startsIn phoneStartC w.
Proof.
  intros H. destruct (Matches_Cat_inv _ _ _ H) as (u & v & -> & Hu & _).
  destruct (Matches_Cls_inv _ _ Hu) as (c & -> & Hc).
  exists c, v. split; [reflexivity|].
  unfold phoneStartC, Js.orC. rewrite Hc. apply orb_true_r.
Qed.

Lemma phoneRe_ends (w : string) :
  Js.test phoneRe w = true
  -> startsIn phoneStartC w /\ endsIn (Js.range "0" "9") w.
Proof.
  intros H. apply test_Matches in H.
  unfold phoneRe, Js.lit in H. cbv zeta in H.
  destruct (Matches_Cat_inv _ _ _ H) as (u & v & -> & Hu & Hv).
  split.
  - destruct (Matches_opt_inv _ _ Hu) as [->|Hpre].
    + exact (Matches_digit_start _ _ Hv).
    + apply startsIn_app.
      destruct (Matches_Cat_inv _ _ _ Hpre) as (s1 & s2 & -> & Hs1 & Hs2).
      destruct (Matches_opt_inv _ _ Hs1) as [->|Hplus].
      * exact (Matches_digit_start _ _ Hs2).
      * destruct (Matches_Cls_inv _ _ Hplus) as (c & -> & Hc).
        exists c, s2. split; [reflexivity|].
        unfold phoneStartC, Js.orC. rewrite Hc. reflexivity.
  - apply endsIn_app.
    repeat (let x := fresh in let y := fresh in let E := fresh in
            let Hx := fresh in let Hy := fresh in
            match goal with
            | Hm : Matches (Js.Cat _ _) _ |- _ =>
                destruct (Matches_Cat_inv _ _ _ Hm) as (x & y & E & Hx & Hy);
                clear Hm; rewrite E; clear E Hx; apply endsIn_app
            end).
    match goal with
    | Hm : Matches Js.digit _ |- _ =>
        destruct (Matches_Cls_inv _ _ Hm) as (c & -> & Hc)
    end.
    apply endsIn_one. exact Hc.
Qed.

Lemma find_none_all {A} (p : A -> bool) (l : list A) (x : A) :
  List.find p l = None -> In x l -> p x = false.
Proof. intros H Hx. exact (find_none p l H x Hx). Qed.

Lemma checkFields_None (bks : list Req.Booking) (bk : Req.Booking) :
  checkFields bks = None -> In bk bks ->
  missingFields bk = false /\ Js.test seatIdRe (Req.seatId bk) = true.
Proof.
  induction bks as [|x bks IH]; intros H Hin; [destruct Hin|].
  cbn [checkFields] in H.
  destruct (missingFields x) eqn:Hm; [discriminate|].
  destruct (Js.test seatIdRe (Req.seatId x)) eqn:Ht; [|discriminate].
  cbn [negb] in H. destruct Hin as [<-|Hin]; [split; assumption|].
  apply IH; assumption.
Qed.

(** A request that passed the email and phone checks of the route and its
    field check is cast to an entry carrying its email and its phone
    unchanged. *)
Lemma castBooking_validated (b : Req.Book) (bk : Req.Booking) :
  bookMiddleware b = None -> checkFields (Req.bookings b) = None ->
  In bk (Req.bookings b) ->
  castBooking bk
  = {| date := Req.bookingDate bk;
       bookedBy := {| name := Js.trim (Req.name bk);
                      email := Req.email bk;
                      phone := Req.phone bk |};
       status := booked |}.
Proof.
  intros Hmw Hcf Hbk. unfold bookMiddleware in Hmw.
  destruct (validateDateFormatPost b); [discriminate|].
  destruct (validateEmail b) eqn:Hmail; [discriminate|].
  unfold validateEmail, Js.find in Hmail. unfold validatePhone, Js.find in Hmw.
  destruct (List.find _ (Req.bookings b)) eqn:Hfm in Hmail; [discriminate|].
  destruct (List.find _ (Req.bookings b)) eqn:Hfp in Hmw; [discriminate|].
  pose proof (find_none_all _ _ bk Hfm Hbk) as Hm.
  pose proof (find_none_all _ _ bk Hfp Hbk) as Hp.
  cbv beta in Hm, Hp.
  destruct (checkFields_None _ bk Hcf Hbk) as [Hfields _].
  unfold missingFields in Hfields.
  apply orb_false_iff in Hfields. destruct Hfields as [Hfields _].
  apply orb_false_iff in Hfields. destruct Hfields as [_ Hmt].
  apply negb_false_iff in Hmt. rewrite Hmt in Hm. cbn [andb] in Hm.
  apply negb_false_iff in Hm. apply emailRe_ends in Hm. destruct Hm as [Hs He].
  unfold castBooking. f_equal. f_equal.
  - apply (trim_keeps localC letterC);
      [exact localC_not_space|exact letterC_not_space|exact Hs|exact He].
  - destruct (Req.phone bk) as [ph|]; [|reflexivity]. cbn [option_map phoneTruthy] in *.
    f_equal. destruct (Js.truthy ph) eqn:Htr.
    + cbn [andb] in Hp. apply negb_false_iff in Hp.
      apply phoneRe_ends in Hp. destruct Hp as [Hs2 He2].
      apply (trim_keeps phoneStartC (Js.range "0" "9"));
        [exact phoneStartC_not_space|exact digit_not_space|exact Hs2|exact He2].
    + unfold Js.truthy in Htr. apply negb_false_iff in Htr.
      apply String.eqb_eq in Htr. rewrite Htr. reflexivity.
Qed.

(** X15. Email and phone reach the store as supplied: after a successful
    call of the booking route every request of the batch is stored, on the
    seat it names of the event its eventId is cast to, as an entry with
    the batch date, the supplied name trimmed as String.prototype.trim
    does (the white space and line terminators of the language, the
    no-break space and the byte order mark among them), and the supplied
    email and phone unchanged (a phone that was not supplied stays
    absent); the two patterns of the validation middleware allow no
    leading or trailing white space, so the schema's trimming has nothing
    to remove. *)
Theorem validated_contact_stored_as_supplied (env : Env) (today : string)
        (db : DB) (b : Req.Book) (user : IUser) (bk : Req.Booking) :
  uniqueIndex (Seats db) ->
  succeeded (snd (book env today db b user)) ->
  In bk (Req.bookings b) ->
  exists s,
    In s (Seats (fst (book env today db b user)))
    /\ eventId s = castObjectId (Req.eventId b) /\ seatId s = Req.seatId bk
    /\ In {| date := Req.bookingDate bk;
             bookedBy := {| name := Js.trim (Req.name bk);
                            email := Req.email bk;
                            phone := Req.phone bk |};
             status := booked |}
          (bookings s).
Proof.
  intros Huniq Hs Hbk.
  destruct (book_succeeded _ _ _ _ _ Hs) as (c & Hmw & Hpre & _).
  assert (Hcf : checkFields (Req.bookings b) = None).
  { unfold bookPrecheck in Hpre. destruct (_ || _); [discriminate|].
    destruct (negb _); [discriminate|].
    destruct (checkFields (Req.bookings b)); [discriminate|reflexivity]. }
  destruct (book_succeeded_entry env today db b user bk Huniq Hs Hbk)
    as (event & s & _ & _ & Hin & Heid & Hsid & Hentry).
  rewrite (castBooking_validated b bk Hmw Hcf Hbk) in Hentry.
  exists s. auto.
Qed.

(** ** The statuses of a rejected booking *)

Lemma startsWith_app (sub x y : string) :
  Js.startsWith sub x = true -> Js.startsWith sub (x ++ y) = true.
Proof.
  revert x. induction sub as [|a sub IH]; intros x H; [reflexivity|].
  destruct x as [|c x]; [discriminate|].
  cbn [Js.startsWith String.append] in *.
  apply andb_true_iff in H. destruct H as [Hc Hx].
  rewrite Hc, (IH x Hx). reflexivity.
Qed.

Lemma includes_app_l (x y sub : string) :
  Js.includes x sub = true -> Js.includes (x ++ y) sub = true.
Proof.
  induction x as [|c x IH]; intros H.
  - cbn [Js.includes] in H. rewrite orb_false_r in H.
    destruct sub; [|discriminate]. destruct y; reflexivity.
  - cbn [Js.includes String.append] in *.
    apply orb_true_iff in H. destruct H as [H|H].
    + pose proof (startsWith_app sub (String c x) y H) as E.
      cbn [String.append] in E. rewrite E. reflexivity.
    + rewrite (IH H). apply orb_true_r.
Qed.

Lemma includes_app_r (x y sub : string) :
  Js.includes y sub = true -> Js.includes (x ++ y) sub = true.
Proof.
  intros H. induction x as [|c x IH]; [exact H|].
  cbn [Js.includes String.append]. rewrite IH. apply orb_true_r.
Qed.

Lemma checkAvailable_inl d seats msg :
  checkAvailable d seats = inl msg ->
  exists s b0, In s seats /\ bookingOn d s = Some b0
               /\ msg = ("Seat " ++ seatId s ++ " is already booked for this date")%string.
Proof.
  induction seats as [|s seats IH]; cbn [checkAvailable]; intros H;
    [discriminate|].
  destruct (bookingOn d s) as [b0|] eqn:Hb.
  - injection H as <-. exists s, b0. split; [left; reflexivity|]. split; auto.
  - destruct (IH H) as (x & b0 & Hin & Hx & Hmsg).
    exists x, b0. split; [right; exact Hin|]. split; assumption.
Qed.

Lemma bookErrorStatus_taken (sid : string) :
  bookErrorStatus ("Seat " ++ sid ++ " is already booked for this date") = 400.
Proof.
  unfold bookErrorStatus.
  rewrite (includes_app_r "Seat " (sid ++ " is already booked for this date")
             "already booked"
             (includes_app_r sid " is already booked for this date"
                "already booked" eq_refl)).
  reflexivity.
Qed.

Lemma bookErrorStatus_absent (rest : string) :
  bookErrorStatus ("Seats not found: " ++ rest) = 400.
Proof.
  unfold bookErrorStatus.
  rewrite (includes_app_l "Seats not found: " rest "not found" eq_refl).
  rewrite orb_true_r. reflexivity.
Qed.

(** X13. Which rejections of the booking route are the client's and which
    are answered as a fault. A batch that passed the validation middleware
    and the field checks and is rejected inside the transaction leaves
    the database unchanged and is answered with the thrown message and
    with status 400 when seatIds are repeated, when a named seat is not
    stored for the event, or when a named seat of the event already holds
    a booking of the date; with status 500 when the event is not stored,
    when a booking date differs from the event's date, or when
    registration is closed. When a document fails schema validation on
    save, the message is the validation error's, which begins
    "Seat validation failed" and goes on to name the failing path, and
    the status is the one the route's tests on the message give: 500
    unless that text holds one of the four phrases the route looks for. *)
Theorem book_rejection_statuses (env : Env) (today : string) (db : DB)
        (b : Req.Book) (user : IUser) (msg : string) :
  bookMiddleware b = None ->
  bookPrecheck env today b = None ->
  bookTransaction env db b user = inl msg ->
  (book env today db b user = (db, Some (jsonError 400 msg))
   /\ (msg = "Duplicate seatIds provided"
       \/ (exists ids, msg = ("Seats not found: " ++ Js.join ", " ids)%string
                       /\ incl ids (map Req.seatId (Req.bookings b)))
       \/ (exists s b0,
              In s (Seats db) /\ eventId s = castObjectId (Req.eventId b)
              /\ In (seatId s) (map Req.seatId (Req.bookings b))
              /\ In b0 (bookings s)
              /\ (forall bk, In bk (Req.bookings b) -> Req.bookingDate bk = date b0)
              /\ msg = ("Seat " ++ seatId s
                        ++ " is already booked for this date")%string)))
  \/ (book env today db b user = (db, Some (jsonError 500 msg))
      /\ ((msg = "No event found for this eventId"
           /\ findById (Req.eventId b) (Events db) = None)
          \/ msg = "All booking dates must match event date"
          \/ (msg = "Registration for this event is closed"
              /\ isAdmin user = false)))
  \/ (book env today db b user
      = (db, Some (jsonError (bookErrorStatus msg) msg))
      /\ exists detail, msg = ("Seat validation failed" ++ detail)%string).
Proof.
  intros Hmw Hpre Htx.
  assert (Hbook : forall code,
             bookErrorStatus msg = code -> Js.truthy msg = true ->
             book env today db b user = (db, Some (jsonError code msg))).
  { intros code Hcode Htr. unfold book, bookHandler.
    rewrite Hmw, Hpre, Htx. unfold bookErrorResponse. rewrite Hcode, Htr.
    reflexivity. }
  unfold bookTransaction in Htx.
  destruct (findById (Req.eventId b) (Events db)) as [event|] eqn:Hev.
  2:{ injection Htx as <-. right. left. split; [apply Hbook; reflexivity|].
      left. split; reflexivity. }
  pose proof (findById_Some _ _ _ Hev) as [_ Hid].
  unfold throwIf, bind in Htx.
  destruct (existsb _ (Req.bookings b)) eqn:Hdates.
  { injection Htx as <-. right. left. split; [apply Hbook; reflexivity|].
    right. left. reflexivity. }
  destruct (registrationClosed event && negb (isAdmin user)) eqn:Hclosed.
  { injection Htx as <-. right. left. split; [apply Hbook; reflexivity|].
    right. right. split; [reflexivity|].
    apply andb_true_iff in Hclosed. destruct Hclosed as [_ Hna].
    apply negb_true_iff in Hna. exact Hna. }
  destruct (Js.setSize (map Req.seatId (Req.bookings b))
            =? List.length (map Req.seatId (Req.bookings b))) eqn:Hdup.
  2:{ injection Htx as <-. left. split; [apply Hbook; reflexivity|].
      left. reflexivity. }
  simpl negb in Htx. cbv iota in Htx.
  destruct (List.length
              (filter (inBatch (map Req.seatId (Req.bookings b)) (_id event))
                      (Seats db))
            =? List.length (map Req.seatId (Req.bookings b))) eqn:Hlen.
  2:{ simpl negb in Htx. cbv iota in Htx. injection Htx as <-.
      left. split; [apply Hbook; [apply bookErrorStatus_absent|reflexivity]|].
      right. left. eexists. split; [reflexivity|].
      intros id Hin. apply filter_In in Hin. tauto. }
  simpl negb in Htx. cbv iota in Htx.
  destruct (checkAvailable (eventDate event) _) as [m|u] eqn:Hfree.
  { injection Htx as <-.
    destruct (checkAvailable_inl _ _ _ Hfree) as (s & b0 & Hin & Hb0 & ->).
    left. split; [apply Hbook; [apply bookErrorStatus_taken|reflexivity]|].
    right. right. exists s, b0.
    apply filter_In in Hin. destruct Hin as [Hin Hq].
    unfold inBatch, ofEvent in Hq. apply andb_true_iff in Hq.
    destruct Hq as [Hmem He]. apply mem_In in Hmem. apply String.eqb_eq in He.
    unfold bookingOn, Js.find in Hb0. apply find_some in Hb0.
    destruct Hb0 as [Hb0 Hd]. apply String.eqb_eq in Hd.
    split; [exact Hin|]. split; [congruence|]. split; [exact Hmem|].
    split; [exact Hb0|]. split; [|reflexivity].
    intros bk Hbk. rewrite Hd.
    destruct (String.eqb_spec (Req.bookingDate bk) (eventDate event)) as [E|E];
      [exact E|].
    exfalso. apply not_true_iff_false in Hdates. apply Hdates.
    apply existsb_exists. exists bk. split; [exact Hbk|].
    apply negb_true_iff. apply String.eqb_neq. exact E. }
  destruct (forallb validSeat _) eqn:Hvalid.
  { simpl in Htx. discriminate Htx. }
  simpl in Htx. injection Htx as <-.
  right. right. split; [apply Hbook; reflexivity|]. eexists. reflexivity.
Qed.

(** ** Listing seats by id *)

(** X16. What a 200 answer of the by-ids listing holds. On a store that
    keeps the unique (seatId, eventId) index, when the route answers 200
    the requested seatIds are pairwise distinct, the rows are the listing
    of exactly the stored seats of the event of that date that carry
    these ids, one row per requested id, and the database is unchanged; a
    request that repeats a seatId is never answered 200. *)
Theorem getSeatsByIds_one_row_per_id (today : string) (db db2 : DB)
        (ids : Req.SeatIds) (d : string) (rows : list SeatWithStatus) :
  uniqueIndex (Seats db) ->
  getSeatsByIds today db ids d
  = (db2, Some {| statusCode := 200; body := SeatsBody rows |}) ->
  let requested := match ids with
                   | Req.Missing => []
                   | Req.Many l => l
                   | Req.One s => splitComma s
                   end in
  db2 = db
  /\ NoDup requested
  /\ Permutation (map (fun r => seatId (seat r)) rows) requested
  /\ exists event,
       findOneByDate d (Events db) = Some event
       /\ forall r, In r rows ->
            In (seat r) (Seats db) /\ eventId (seat r) = _id event
            /\ r = withStatus d (seat r).
Proof.
  intros Huniq H requested. unfold getSeatsByIds, validateDateFormatGet in H.
  destruct (Js.truthy d && negb (Js.test dateRe d));
    [injection H as _ H; discriminate H|].
  destruct (_ || negb (Js.truthy d)); [injection H as _ H; discriminate H|].
  fold requested in H.
  destruct (negb (forallb (Js.test seatIdRe) requested));
    [injection H as _ H; discriminate H|].
  destruct (String.eqb d today); [injection H as _ H; discriminate H|].
  destruct (findOneByDate d (Events db)) as [event|] eqn:Hev;
    [|injection H as _ H; discriminate H].
  set (found := filter (inBatch requested (_id event)) (Seats db)) in *.
  destruct (List.length found =? 0) eqn:Hzero;
    [injection H as _ H; discriminate H|].
  destruct (List.length found =? List.length requested) eqn:Hlen;
    [|injection H as _ H; discriminate H].
  cbn [orb negb] in H. injection H as <- <-.
  apply Nat.eqb_eq in Hlen.
  assert (Hfound : NoDup (map seatId found)).
  { apply NoDup_seatId_of_key with (eid := _id event).
    - apply NoDup_map_filter. exact Huniq.
    - intros s Hs. apply filter_In in Hs. destruct Hs as [_ Hq].
      unfold inBatch, ofEvent in Hq. apply andb_true_iff in Hq.
      apply String.eqb_eq. tauto. }
  assert (Hincl : incl (map seatId found) requested).
  { intros sid Hsid. apply in_map_iff in Hsid. destruct Hsid as [s [<- Hs]].
    apply filter_In in Hs. destruct Hs as [_ Hq].
    unfold inBatch in Hq. apply andb_true_iff in Hq. apply mem_In. tauto. }
  assert (Hle : List.length requested <= List.length (map seatId found))
    by (rewrite length_map; lia).
  assert (Hback : incl requested (map seatId found))
    by (apply NoDup_length_incl; assumption).
  assert (Hreq : NoDup requested)
    by (apply (@NoDup_incl_NoDup _ (map seatId found)); assumption).
  split; [reflexivity|]. split; [exact Hreq|]. split.
  - rewrite map_map. cbn [withStatus seat].
    apply NoDup_Permutation; [exact Hfound|exact Hreq|].
    intros x. split; [apply Hincl|apply Hback].
  - exists event. split; [reflexivity|].
    intros r Hr. apply in_map_iff in Hr. destruct Hr as [s [<- Hs]].
    apply filter_In in Hs. destruct Hs as [Hs Hq].
    unfold inBatch, ofEvent in Hq. apply andb_true_iff in Hq.
    destruct Hq as [_ He]. apply String.eqb_eq in He.
    cbn [withStatus seat]. auto.
Qed.

(** ** One confirmation per address *)

Lemma recordSeat_keys (mail nm sid : string) (m : EmailToSeats) :
  map fst (recordSeat mail nm sid m)
  = if Js.mem mail (map fst m) then map fst m else map fst m ++ [mail].
Proof.
  unfold Js.mem. induction m as [|[k [n ids]] m IH]; [reflexivity|].
  cbn [recordSeat map fst existsb].
  rewrite (String.eqb_sym mail k).
  destruct (String.eqb k mail); cbn [map fst orb]; [reflexivity|].
  rewrite IH. destruct (existsb (String.eqb mail) (map fst m)); reflexivity.
Qed.

Lemma recordSeat_In (mail nm sid : string) (m : EmailToSeats)
      (k n : string) (ids : list string) :
  NoDup (map fst m) ->
  In (k, (n, ids)) (recordSeat mail nm sid m) ->
  (k <> mail /\ In (k, (n, ids)) m)
  \/ (k = mail /\ exists ids0, In (mail, (n, ids0)) m /\ ids = ids0 ++ [sid])
  \/ (k = mail /\ ~ In mail (map fst m) /\ n = nm /\ ids = [sid]).
Proof.
  induction m as [|[k0 [n0 ids0]] m IH]; intros Hnd Hin.
  - destruct Hin as [Heq|[]]. injection Heq as <- <- <-.
    right. right. repeat split; auto.
  - cbn [recordSeat] in Hin. inversion Hnd as [|? ? Hnotin Hnd2]; subst.
    cbn [fst] in Hnotin.
    destruct (String.eqb_spec k0 mail) as [->|Hne].
    + destruct Hin as [Heq|Hin].
      * injection Heq as <- <- <-. right. left. split; [reflexivity|].
        exists ids0. split; [left; reflexivity|reflexivity].
      * left. split; [|right; exact Hin].
        intros ->. apply Hnotin.
        apply (in_map fst) in Hin. exact Hin.
    + destruct Hin as [Heq|Hin].
      * injection Heq as <- <- <-. left. split; [exact Hne|left; reflexivity].
      * destruct (IH Hnd2 Hin) as [[Hk Hm]|[[Hk (i & Hi & He)]|(Hk & Hno & Hn & Hi)]].
        -- left. split; [exact Hk|right; exact Hm].
        -- right. left. split; [exact Hk|]. exists i. split; [right; exact Hi|exact He].
        -- right. right. split; [exact Hk|]. split; [|split; assumption].
           cbn [map fst]. intros [E|E]; [exact (Hne E)|exact (Hno E)].
Qed.

Lemma seatsFor_snoc (mail : string) (bks : list Req.Booking) (bk : Req.Booking) :
  seatsFor mail (bks ++ [bk])
  = seatsFor mail bks
    ++ (if String.eqb (Req.email bk) mail then [Req.seatId bk] else []).
Proof.
  unfold seatsFor. rewrite filter_app, map_app. cbn [filter].
  destruct (String.eqb (Req.email bk) mail); reflexivity.
Qed.

Lemma nameFor_snoc_old (mail : string) (bks : list Req.Booking) (bk : Req.Booking) :
  In mail (map Req.email bks) -> nameFor mail (bks ++ [bk]) = nameFor mail bks.
Proof.
  unfold nameFor, Js.find. intros Hin.
  induction bks as [|x bks IH]; [destruct Hin|].
  cbn [app find]. destruct (String.eqb_spec (Req.email x) mail) as [|Hne];
    [reflexivity|].
  apply IH. destruct Hin as [E|Hin]; [contradiction|exact Hin].
Qed.

Lemma nameFor_snoc_new (mail : string) (bks : list Req.Booking) (bk : Req.Booking) :
  ~ In mail (map Req.email bks) ->
  nameFor mail (bks ++ [bk])
  = if String.eqb (Req.email bk) mail then Req.name bk else EmptyString.
Proof.
  unfold nameFor, Js.find. intros Hno.
  induction bks as [|x bks IH].
  - cbn [app find]. destruct (String.eqb (Req.email bk) mail); reflexivity.
  - cbn [app find]. destruct (String.eqb_spec (Req.email x) mail) as [E|Hne].
    + exfalso. apply Hno. left. exact E.
    + apply IH. intros Hin. apply Hno. right. exact Hin.
Qed.

Lemma seatsFor_none (mail : string) (bks : list Req.Booking) :
  ~ In mail (map Req.email bks) -> seatsFor mail bks = [].
Proof.
  intros Hno. unfold seatsFor. rewrite filter_none; [reflexivity|].
  intros bk Hbk. apply String.eqb_neq. intros E. apply Hno.
  rewrite <- E. apply in_map. exact Hbk.
Qed.

Lemma groups_step (m : EmailToSeats) (bks : list Req.Booking) (bk : Req.Booking) :
  groups m bks ->
  groups (recordSeat (Req.email bk) (Req.name bk) (Req.seatId bk) m) (bks ++ [bk]).
Proof.
  intros (Hnd & Hkeys & Hent). unfold groups.
  rewrite recordSeat_keys, map_app. cbn [map].
  destruct (Js.mem (Req.email bk) (map fst m)) eqn:Hmem.
  - apply mem_In in Hmem. split; [exact Hnd|]. split.
    + intros mail. rewrite in_app_iff, <- Hkeys. cbn [In]. split; [tauto|].
      intros [H|[<-|[]]]; assumption.
    + intros mail nm ids Hin.
      destruct (recordSeat_In _ _ _ _ _ _ _ Hnd Hin)
        as [[Hk Hm]|[[-> (i & Hi & ->)]|(-> & Hno & _)]].
      * destruct (Hent _ _ _ Hm) as [-> ->].
        rewrite seatsFor_snoc.
        destruct (String.eqb_spec (Req.email bk) mail) as [E|_];
          [exfalso; apply Hk; symmetry; exact E|].
        rewrite app_nil_r. split; [|reflexivity].
        symmetry. apply nameFor_snoc_old. apply Hkeys.
        apply (in_map fst) in Hm. exact Hm.
      * destruct (Hent _ _ _ Hi) as [-> ->].
        rewrite seatsFor_snoc, String.eqb_refl. split; [|reflexivity].
        symmetry. apply nameFor_snoc_old. apply Hkeys. exact Hmem.
      * contradiction.
  - assert (Hno : ~ In (Req.email bk) (map fst m)).
    { intros Hin. apply mem_In in Hin. congruence. }
    split.
    + apply NoDup_app; [exact Hnd|repeat constructor; intros []|].
      intros x Hx [<-|[]]. exact (Hno Hx).
    + split.
      * intros mail. rewrite !in_app_iff, <- Hkeys. tauto.
      * intros mail nm ids Hin.
        destruct (recordSeat_In _ _ _ _ _ _ _ Hnd Hin)
          as [[Hk Hm]|[[-> (i & Hi & ->)]|(-> & _ & -> & ->)]].
        -- destruct (Hent _ _ _ Hm) as [-> ->].
           rewrite seatsFor_snoc.
           destruct (String.eqb_spec (Req.email bk) mail) as [E|_];
             [exfalso; apply Hk; symmetry; exact E|].
           rewrite app_nil_r. split; [|reflexivity].
           symmetry. apply nameFor_snoc_old. apply Hkeys.
           apply (in_map fst) in Hm. exact Hm.
        -- exfalso. apply Hno. apply (in_map fst) in Hi. exact Hi.
        -- assert (Hnb : ~ In (Req.email bk) (map Req.email bks))
             by (intros H; apply Hno, Hkeys; exact H).
           rewrite (nameFor_snoc_new _ _ _ Hnb), seatsFor_snoc, String.eqb_refl.
           rewrite (seatsFor_none _ _ Hnb). split; reflexivity.
Qed.

Lemma recordAll_groups (bks : list Req.Booking) : groups (recordAll bks []) bks.
Proof.
  induction bks as [|bk bks IH] using rev_ind.
  - split; [constructor|]. split; [tauto|]. intros mail nm ids [].
  - unfold recordAll. rewrite fold_left_app. cbn [fold_left].
    apply groups_step. exact IH.
Qed.

Lemma updateFirst_ids (p : ISeat -> bool) (bkg : IBooking) (docs : list ISeat) :
  map seatId (updateFirst p (pushBooking bkg) docs) = map seatId docs.
Proof.
  induction docs as [|s docs IH]; [reflexivity|].
  cbn [updateFirst]. destruct (p s); cbn [map]; [reflexivity|].
  rewrite IH. reflexivity.
Qed.

Lemma applyBookings_snd (bks : list Req.Booking) :
  forall docs m,
    (forall bk, In bk bks -> In (Req.seatId bk) (map seatId docs)) ->
    snd (fold_left applyBooking bks (docs, m)) = recordAll bks m.
Proof.
  induction bks as [|bk bks IH]; intros docs m Hall; [reflexivity|].
  cbn [fold_left]. unfold recordAll. cbn [fold_left].
  unfold applyBooking at 2. cbn [fst snd]. unfold Js.find.
  destruct (find _ docs) eqn:Hfind.
  - apply IH. intros x Hx. rewrite updateFirst_ids. apply Hall. right. exact Hx.
  - exfalso. assert (Hin := Hall bk (or_introl eq_refl)).
    apply in_map_iff in Hin. destruct Hin as [s [Hs Hin]].
    pose proof (find_none _ _ Hfind s Hin) as Hf. cbv beta in Hf.
    rewrite Hs, String.eqb_refl in Hf. discriminate Hf.
Qed.

Lemma sendBookingConfirmation_sent env db to ids nm d :
  sendBookingConfirmation env db to ids nm d = inr tt ->
  sendMail env {| mailTo := to;
                  mailSubject := "Your Seat Booking Confirmation";
                  mailName := nm;
                  mailSeatIds := ids;
                  mailBookingDate := d;
                  mailPrice := priceOf (filter (inIds ids) (Seats db)) |}
  = None.
Proof.
  unfold sendBookingConfirmation, throwIf, bind, priceOf. cbv zeta.
  destruct (negb (forallb (Js.test seatIdRe) ids)); [discriminate|].
  destruct (negb (_ =? _)); [discriminate|].
  destruct (filter (inIds ids) (Seats db)) as [|first rest]; [discriminate|].
  destruct (negb (forallb _ _)); [discriminate|].
  destruct (negb (isValidObjectId env _)); [discriminate|].
  destruct (findById _ _); [|discriminate].
  destruct (negb (Js.test dateRe d)); [discriminate|].
  destruct (sendMail env _); [discriminate|reflexivity].
Qed.

Lemma notifyAll_sent env db (m : EmailToSeats) d mail nm ids :
  notifyAll env db m d = inr tt -> In (mail, (nm, ids)) m ->
  sendBookingConfirmation env db mail ids nm d = inr tt.
Proof.
  induction m as [|[k [n i]] m IH]; intros H Hin; [destruct Hin|].
  cbn [notifyAll] in H. unfold bind in H.
  destruct (sendBookingConfirmation env db k i n d) as [e|[]] eqn:Hs;
    [discriminate|].
  destruct Hin as [Heq|Hin].
  - injection Heq as <- <- <-. exact Hs.
  - apply IH; assumption.
Qed.

(** X12. One confirmation per address. After a successful call of the
    booking route the addresses written to are the distinct emails of the
    batch, each once; for each of them the mail transport was handed, and
    accepted, one confirmation addressed to it, carrying the name of the
    first request of the batch under that email, the seatIds of all
    requests of the batch under that email in batch order, the event's
    date and the price added up over the stored seats with these ids. *)
Theorem confirmations_grouped_by_email (env : Env) (today : string) (db : DB)
        (b : Req.Book) (user : IUser) :
  uniqueIndex (Seats db) ->
  succeeded (snd (book env today db b user)) ->
  exists c event,
    bookTransaction env db b user = inr c
    /\ findById (Req.eventId b) (Events db) = Some event
    /\ NoDup (map fst (emailToSeats c))
    /\ (forall mail, In mail (map fst (emailToSeats c))
                     <-> In mail (map Req.email (Req.bookings b)))
    /\ forall mail, In mail (map Req.email (Req.bookings b)) ->
         sendMail env
           {| mailTo := mail;
              mailSubject := "Your Seat Booking Confirmation";
              mailName := nameFor mail (Req.bookings b);
              mailSeatIds := seatsFor mail (Req.bookings b);
              mailBookingDate := eventDate event;
              mailPrice :=
                priceOf (filter (inIds (seatsFor mail (Req.bookings b)))
                                (Seats (fst (book env today db b user)))) |}
         = None.
Proof.
  intros Huniq Hs.
  destruct (book_succeeded _ _ _ _ _ Hs) as (c & Hmw & Hpre & Htx & Hdb & Hans).
  destruct (bookTransaction_inr _ _ _ _ _ Htx) as [event Hinv].
  cbv zeta in Hinv. destruct Hinv as (Hev & _ & _ & Hnd & Hlen & _ & _ & Hc).
  pose proof (findById_Some _ _ _ Hev) as [_ Hid].
  assert (Hm : emailToSeats c = recordAll (Req.bookings b) []).
  { rewrite Hc. cbn [emailToSeats]. apply applyBookings_snd.
    intros bk Hbk.
    assert (Hlen2 : List.length (filter (referenced b) (Seats db))
                    = List.length (Req.bookings b)).
    { unfold referenced. rewrite <- Hid. exact Hlen. }
    destruct (referenced_all_found db b Huniq Hnd Hlen2 bk Hbk)
      as (s & Hin & Href & Hsid).
    rewrite <- Hsid. apply in_map. apply filter_In. split; [exact Hin|].
    unfold referenced in Href. rewrite Hid. exact Href. }
  destruct (recordAll_groups (Req.bookings b)) as (Hg1 & Hg2 & Hg3).
  rewrite <- Hm in Hg1, Hg2, Hg3.
  assert (Hnote : notifyAll env (fst (book env today db b user))
                            (emailToSeats c) (bookedDate c) = inr tt).
  { rewrite Hdb. unfold book, bookHandler in Hans.
    rewrite Hmw, Hpre, Htx in Hans. cbv zeta in Hans.
    destruct (notifyAll env _ (emailToSeats c) (bookedDate c)) as [e|[]];
      [|reflexivity].
    cbn [snd] in Hans. destruct (abortAfterCommitRejects env); discriminate Hans. }
  exists c, event. split; [exact Htx|]. split; [exact Hev|].
  split; [exact Hg1|]. split; [exact Hg2|].
  intros mail Hmail. apply Hg2 in Hmail. apply in_map_iff in Hmail.
  destruct Hmail as [[k [n ids]] [Hk Hin]]. cbn [fst] in Hk. subst k.
  destruct (Hg3 _ _ _ Hin) as [-> ->].
  pose proof (notifyAll_sent _ _ _ _ _ _ _ Hnote Hin) as Hsent.
  apply sendBookingConfirmation_sent in Hsent.
  rewrite Hc in Hsent. cbn [bookedDate] in Hsent. exact Hsent.
Qed.

(** ** Accounts: registration, verification and login *)

Lemma find_app_none {A} (p : A -> bool) (l l2 : list A) :
  List.find p l = None -> List.find p (l ++ l2) = List.find p l2.
Proof.
  induction l as [|x l IH]; intros H; [reflexivity|].
  cbn [app find] in *. destruct (p x); [discriminate|]. apply IH. exact H.
Qed.

Lemma find_none_iff {A} (p : A -> bool) (l : list A) :
  (forall x, In x l -> p x = false) -> List.find p l = None.
Proof.
  induction l as [|y l IH]; intros H; [reflexivity|].
  cbn [find]. rewrite (H y (or_introl eq_refl)).
  apply IH. intros x Hx. apply H. right. exact Hx.
Qed.

Lemma updateFirst_app_last {A} (p : A -> bool) (f : A -> A) (l : list A) (y : A) :
  (forall x, In x l -> p x = false) -> p y = true ->
  updateFirst p f (l ++ [y]) = l ++ [f y].
Proof.
  induction l as [|x l IH]; intros H Hy; cbn [app updateFirst].
  - rewrite Hy. reflexivity.
  - rewrite (H x (or_introl eq_refl)). f_equal.
    apply IH; [|exact Hy]. intros z Hz. apply H. right. exact Hz.
Qed.

Lemma removeFirst_app_last {A} (p : A -> bool) (l : list A) (y : A) :
  (forall x, In x l -> p x = false) -> p y = true ->
  removeFirst p (l ++ [y]) = l.
Proof.
  induction l as [|x l IH]; intros H Hy; cbn [app removeFirst].
  - rewrite Hy. reflexivity.
  - rewrite (H x (or_introl eq_refl)). f_equal.
    apply IH; [|exact Hy]. intros z Hz. apply H. right. exact Hz.
Qed.

Lemma updateFirst_In_inv {A} (p : A -> bool) (f : A -> A) (l : list A) (x : A) :
  In x (updateFirst p f l) ->
  In x l \/ exists y, In y l /\ p y = true /\ x = f y.
Proof.
  induction l as [|a l IH]; cbn [updateFirst]; intros H; [destruct H|].
  destruct (p a) eqn:Hp.
  - destruct H as [<-|H]; [|left; right; exact H].
    right. exists a. split; [left; reflexivity|]. split; [exact Hp|reflexivity].
  - destruct H as [<-|H]; [left; left; reflexivity|].
    destruct (IH H) as [Hin|(y & Hy & Hpy & ->)]; [left; right; exact Hin|].
    right. exists y. split; [right; exact Hy|]. split; [exact Hpy|reflexivity].
Qed.

Lemma updateFirst_In_keep {A} (p : A -> bool) (f : A -> A) (l : list A) (y : A) :
  In y l -> In y (updateFirst p f l) \/ In (f y) (updateFirst p f l).
Proof.
  induction l as [|a l IH]; cbn [updateFirst]; intros H; [destruct H|].
  destruct (p a) eqn:Hp.
  - destruct H as [<-|H]; [right; left; reflexivity|left; right; exact H].
  - destruct H as [<-|H]; [left; left; reflexivity|].
    destruct (IH H) as [Hin|Hin]; [left|right]; right; exact Hin.
Qed.

Lemma updateFirst_map {A B} (g : A -> B) (p : A -> bool) (f : A -> A)
      (l : list A) :
  (forall y, g (f y) = g y) -> map g (updateFirst p f l) = map g l.
Proof.
  intros Hg. induction l as [|a l IH]; [reflexivity|].
  cbn [updateFirst]. destruct (p a); cbn [map]; [rewrite Hg; reflexivity|].
  rewrite IH. reflexivity.
Qed.

Lemma emailRe_trim (mail : string) :
  Js.test emailRe mail = true -> Js.trim mail = mail.
Proof.
  intros H. apply emailRe_ends in H. destruct H as [Hs He].
  apply (trim_keeps localC letterC);
    [exact localC_not_space|exact letterC_not_space|exact Hs|exact He].
Qed.

Lemma validateEmailBody_None (mail : string) :
  validateEmailBody mail = None -> Js.truthy mail = true ->
  Js.test emailRe mail = true.
Proof.
  unfold validateEmailBody. intros H Ht. rewrite Ht in H. cbn [andb] in H.
  destruct (Js.test emailRe mail); [reflexivity|discriminate H].
Qed.

Lemma findUser_None (mail : string) (users : list Account.t) :
  findUser mail users = None -> ~ In mail (map Account.email users).
Proof.
  unfold findUser, Js.find. intros H Hin. apply in_map_iff in Hin.
  destruct Hin as [u [Hu Hin]]. pose proof (find_none _ _ H u Hin) as Hf.
  cbv beta in Hf. rewrite Hu, String.eqb_refl in Hf. discriminate Hf.
Qed.

Lemma findUser_Some (mail : string) (users : list Account.t) (u : Account.t) :
  findUser mail users = Some u -> In u users /\ Account.email u = mail.
Proof.
  unfold findUser, Js.find. intros H. apply find_some in H.
  destruct H as [Hin He]. apply String.eqb_eq in He. tauto.
Qed.

Lemma findUser_In (mail : string) (users : list Account.t) :
  In mail (map Account.email users) -> exists u, findUser mail users = Some u.
Proof.
  intros Hin. destruct (findUser mail users) as [u|] eqn:H; [eauto|].
  exfalso. exact (findUser_None _ _ H Hin).
Qed.

(** What a registration answered 201 has stored. *)
Lemma register_201 (env : AuthEnv) (now : Z) (newId salt code : string)
      (st : Accounts) (b : ReqAuth.Register) :
  authStatus (snd (register env now newId salt code st b)) = 201 ->
  Js.test emailRe (ReqAuth.email b) = true
  /\ Js.truthy (ReqAuth.email b) = true
  /\ Js.truthy (ReqAuth.password b) = true
  /\ Js.truthy code = true
  /\ findUser (ReqAuth.email b) (Users st) = None
  /\ fst (register env now newId salt code st b)
     = {| Users := Users st
                   ++ [{| Account._id := newId;
                          Account.name := Js.trim (ReqAuth.name b);
                          Account.email := ReqAuth.email b;
                          Account.password := bcryptHash env (ReqAuth.password b) salt;
                          Account.isVerified := false;
                          Account.isAdmin := false |}];
          Otps := Otps st
                  ++ [{| Otp.email := ReqAuth.email b;
                         Otp.otp := code;
                         Otp.expiresAt := (now + 5 * 60 * 1000)%Z;
                         Otp.type := ForRegister |}] |}.
Proof.
  unfold register. destruct (validateEmailBody (ReqAuth.email b)) eqn:Hv.
  { unfold validateEmailBody in Hv. destruct (_ && _); [|discriminate Hv].
    injection Hv as <-. intros H. discriminate H. }
  destruct (Js.truthy (ReqAuth.name b)); [|intros H; discriminate H].
  destruct (Js.truthy (ReqAuth.email b)) eqn:Hte; [|intros H; discriminate H].
  destruct (Js.truthy (ReqAuth.password b)); [|intros H; discriminate H].
  cbn [negb orb]. destruct (_ <? 6); [intros H; discriminate H|].
  destruct (findUser _ _) eqn:Hfu; [intros H; discriminate H|].
  cbv zeta. destruct (negb _ || _); [intros H; discriminate H|].
  pose proof (validateEmailBody_None _ Hv Hte) as Hre.
  unfold createOtp, throwIf, bind, sendOtpEmail.
  rewrite (emailRe_trim _ Hre). cbn [Otp.email Otp.otp].
  rewrite Hte. cbn [andb].
  destruct (Js.truthy code); cbn [negb]; [|intros H; discriminate H].
  destruct (otpTransport env _ _ _); [intros H; discriminate H|].
  intros _. cbn [fst]. repeat split; try reflexivity. exact Hre.
Qed.

(** X17. Registration round trip. After a registration answered 201, on
    a store where one-time passwords belong to accounts and the new
    id is an ObjectId that is not taken, verifying with the password that was mailed, within
    its five minutes, answers 200, logs the user in and leaves the
    account verified and not an admin; a login with the registered
    password then answers 200 for the same account; the token of that
    login authenticates the account for the day; and the admin check
    answers that token 403. *)
Theorem registration_round_trip (env : AuthEnv) (now now2 now3 now4 : Z)
        (newId salt code : string) (st : Accounts) (b : ReqAuth.Register) :
  librariesBehave env ->
  objectIdString newId = true ->
  validUserId env newId = true ->
  otpsOfAccounts st ->
  ~ In newId (map Account._id (Users st)) ->
  authStatus (snd (register env now newId salt code st b)) = 201 ->
  (now2 <= now + 5 * 60 * 1000)%Z ->
  (now3 <= now4 <= now3 + 86399000)%Z ->
  let account :=
    {| Account._id := newId;
       Account.name := Js.trim (ReqAuth.name b);
       Account.email := ReqAuth.email b;
       Account.password := bcryptHash env (ReqAuth.password b) salt;
       Account.isVerified := true;
       Account.isAdmin := false |} in
  let st2 := {| Users := Users st ++ [account]; Otps := Otps st |} in
  verifyOtp env now2 (fst (register env now newId salt code st b))
            (ReqAuth.email b) code
  = (st2, loggedIn env now2 "Email verified successfully" account)
  /\ login env now3 st2 (ReqAuth.email b) (ReqAuth.password b)
     = (st2, loggedIn env now3 "Login successful" account)
  /\ authenticateToken env now4 st2 (jwtSign env newId now3) = inr account
  /\ isAdminRoute env now4 st2 (jwtSign env newId now3)
     = authError 403 "Forbidden: Admin access required".
Proof.
  intros (Hcmp & Hhash & Htok & Hjwt) Hoid Hvalid Hinv Hfresh H201 Ht2 Ht4
         account st2.
  pose proof (castObjectId_objectIdString newId Hoid) as Hcastid.
  destruct (register_201 _ _ _ _ _ _ _ H201)
    as (Hre & Hte & Htp & Htc & Hfu & ->).
  assert (Hv : validateEmailBody (ReqAuth.email b) = None).
  { unfold validateEmailBody. rewrite Hre, Hte. reflexivity. }
  assert (Hnew : ~ In (ReqAuth.email b) (map Account.email (Users st)))
    by (apply findUser_None; exact Hfu).
  assert (Hold : forall u, In u (Users st) ->
                           String.eqb (Account.email u) (ReqAuth.email b) = false).
  { intros u Hu. apply String.eqb_neq. intros E. apply Hnew.
    rewrite <- E. apply in_map. exact Hu. }
  assert (Hotps : forall r, In r (Otps st) ->
                    String.eqb (Otp.email r) (ReqAuth.email b)
                    && String.eqb (Otp.otp r) code
                    && otpTypeEqb (Otp.type r) ForRegister = false).
  { intros r Hr.
    destruct (String.eqb_spec (Otp.email r) (ReqAuth.email b)) as [E|_];
      [|reflexivity].
    exfalso. apply Hnew. rewrite <- E. apply Hinv. exact Hr. }
  assert (Hfu2 : findUser (ReqAuth.email b) (Users st ++ [account]) = Some account).
  { unfold findUser, Js.find. rewrite find_app_none.
    - cbn [find Account.email account]. rewrite String.eqb_refl. reflexivity.
    - apply find_none_iff. exact Hold. }
  split; [|split; [|split]].
  - unfold verifyOtp. rewrite Hv, Hte, Htc. cbn [negb orb Otps Users].
    unfold findOtp, Js.find. rewrite find_app_none by (apply find_none_iff; exact Hotps).
    cbn [find Otp.email Otp.otp Otp.type otpTypeEqb Otp.expiresAt].
    rewrite !String.eqb_refl. cbn [andb Otp.expiresAt].
    destruct (Z.ltb_spec (now + 5 * 60 * 1000) now2) as [Hlt|_]; [lia|].
    unfold findUser, Js.find. rewrite find_app_none by (apply find_none_iff; exact Hold).
    cbn [find Account.email]. rewrite String.eqb_refl.
    rewrite updateFirst_app_last;
      [|exact Hold|cbn [Account.email]; apply String.eqb_refl].
    unfold deleteOtp. rewrite removeFirst_app_last; [reflexivity| |].
    + intros r Hr.
      destruct (String.eqb_spec (Otp.email r) (ReqAuth.email b)) as [E|_];
        [|reflexivity].
      exfalso. apply Hnew. rewrite <- E. apply Hinv. exact Hr.
    + cbn [Otp.email Otp.otp]. rewrite !String.eqb_refl. reflexivity.
  - unfold login. rewrite Hv, Hte, Htp. cbn [negb orb]. unfold st2 at 1.
    cbn [Users]. rewrite Hfu2. cbn [Account.isVerified Account.password account negb].
    rewrite Hcmp. reflexivity.
  - unfold authenticateToken. rewrite Htok, (Hjwt _ _ _ Ht4), Hvalid.
    cbn [negb]. unfold findUserById, Js.find. cbn [Users st2].
    rewrite Hcastid, find_app_none.
    + cbn [find Account._id account]. rewrite String.eqb_refl. reflexivity.
    + apply find_none_iff. intros u Hu. apply String.eqb_neq. intros E.
      apply Hfresh. rewrite <- E. apply in_map. exact Hu.
  - unfold isAdminRoute, authenticateToken. rewrite Htok, (Hjwt _ _ _ Ht4), Hvalid.
    cbn [negb]. unfold findUserById, Js.find. cbn [Users st2].
    rewrite Hcastid, find_app_none.
    + cbn [find Account._id account]. rewrite String.eqb_refl. reflexivity.
    + apply find_none_iff. intros u Hu. apply String.eqb_neq. intros E.
      apply Hfresh. rewrite <- E. apply in_map. exact Hu.
Qed.

(** ** Accounts over every run of calls *)

Lemma createOtp_inr now mail code ty otps otps2 :
  createOtp now mail code ty otps = inr otps2 ->
  otps2 = otps ++ [{| Otp.email := Js.trim mail;
                      Otp.otp := code;
                      Otp.expiresAt := (now + 5 * 60 * 1000)%Z;
                      Otp.type := ty |}].
Proof.
  unfold createOtp, throwIf, bind. cbv zeta.
  destruct (negb _); [discriminate|]. intros H. injection H as <-. reflexivity.
Qed.

Lemma sameAccount_refl (u : Account.t) : sameAccount u u.
Proof. unfold sameAccount. tauto. Qed.

Lemma sameAccount_trans (a b c : Account.t) :
  sameAccount a b -> sameAccount b c -> sameAccount a c.
Proof.
  unfold sameAccount. intros (A1 & A2 & A3 & A4 & A5) (B1 & B2 & B3 & B4 & B5).
  repeat split; try congruence. auto.
Qed.

Lemma sameAccount_verify (u : Account.t) : sameAccount u (verifyAccount u).
Proof. unfold sameAccount, verifyAccount. cbn. tauto. Qed.

Lemma sameAccount_setPassword (h : string) (u : Account.t) :
  sameAccount u (setPassword h u).
Proof. unfold sameAccount, setPassword. cbn. tauto. Qed.

(** How a call changes the User collection: not at all, by one new
    account that is neither verified nor an admin and whose address was
    free, or by overwriting the first account of an address with the same
    account, verified or with a new password. *)
Lemma authStep_users (env : AuthEnv) (st : Accounts) (c : AuthCall) :
  Users (authStep env st c) = Users st
  \/ (exists u, Users (authStep env st c) = Users st ++ [u]
                /\ Account.isAdmin u = false /\ Account.isVerified u = false
                /\ ~ In (Account.email u) (map Account.email (Users st)))
  \/ (exists mail f, Users (authStep env st c)
                     = updateFirst (fun u => String.eqb (Account.email u) mail)
                                   f (Users st)
                     /\ forall u, sameAccount u (f u)).
Proof.
  destruct c; cbn [authStep].
  - unfold register.
    destruct (validateEmailBody _); [left; reflexivity|].
    destruct (_ || _ || _); [left; reflexivity|].
    destruct (_ <? 6); [left; reflexivity|].
    destruct (findUser _ _); [left; reflexivity|].
    cbv zeta. destruct (negb _ || Js.mem _ _) eqn:Hval; [left; reflexivity|].
    apply orb_false_iff in Hval. destruct Hval as [_ Hmem].
    right. left. eexists.
    split; [destruct (createOtp _ _ _ _ _); [|destruct (sendOtpEmail _ _ _ _)];
            reflexivity|].
    cbn [Account.isAdmin Account.isVerified Account.email].
    split; [reflexivity|]. split; [reflexivity|].
    intros Hin. apply mem_In in Hin. cbn [Account.email] in Hmem.
    rewrite Hin in Hmem. discriminate Hmem.
  - unfold verifyOtp.
    destruct (validateEmailBody _); [left; reflexivity|].
    destruct (_ || _); [left; reflexivity|].
    destruct (findOtp _ _ _ _); [|left; reflexivity].
    destruct (_ <? _)%Z; [left; reflexivity|].
    destruct (findUser _ _); [|left; reflexivity].
    right. right. exists mail, verifyAccount.
    split; [reflexivity|exact sameAccount_verify].
  - unfold login.
    destruct (validateEmailBody _); [left; reflexivity|].
    destruct (_ || _); [left; reflexivity|].
    destruct (findUser _ _); [|left; reflexivity].
    destruct (negb _); [left; reflexivity|].
    destruct (negb _); left; reflexivity.
  - unfold forgotPassword.
    destruct (validateEmailBody _); [left; reflexivity|].
    destruct (negb _); [left; reflexivity|].
    destruct (findUser _ _); [|left; reflexivity].
    destruct (createOtp _ _ _ _ _); [left; reflexivity|].
    destruct (sendOtpEmail _ _ _ _); left; reflexivity.
  - unfold resetPassword.
    destruct (validateEmailBody _); [left; reflexivity|].
    destruct (_ || _ || _); [left; reflexivity|].
    destruct (_ <? 6); [left; reflexivity|].
    destruct (findOtp _ _ _ _); [|left; reflexivity].
    destruct (_ <? _)%Z; [left; reflexivity|].
    destruct (findUser _ _); [|left; reflexivity].
    cbv zeta. destruct (negb _); [left; reflexivity|].
    right. right. exists mail, (setPassword (bcryptHash env newPassword salt)).
    split; [reflexivity|apply sameAccount_setPassword].
  - left. reflexivity.
Qed.

(** How a call changes the Otp collection: every record it leaves was
    stored before or is a new record for the address of an account. *)
Lemma authStep_otps (env : AuthEnv) (st : Accounts) (c : AuthCall) (r : Otp.t) :
  In r (Otps (authStep env st c)) ->
  In r (Otps st)
  \/ In (Otp.email r) (map Account.email (Users (authStep env st c))).
Proof.
  destruct c; cbn [authStep].
  - unfold register.
    destruct (validateEmailBody _); [left; assumption|].
    destruct (_ || _ || _); [left; assumption|].
    destruct (_ <? 6); [left; assumption|].
    destruct (findUser _ _); [left; assumption|].
    cbv zeta. destruct (negb _ || Js.mem _ _); [left; assumption|].
    destruct (createOtp _ _ _ _ _) as [e|otps] eqn:Hc; [left; assumption|].
    apply createOtp_inr in Hc. subst otps.
    assert (Hgoal : In r (Otps st ++ [{| Otp.email := Js.trim (ReqAuth.email b);
                                         Otp.otp := code;
                                         Otp.expiresAt := (now + 5 * 60 * 1000)%Z;
                                         Otp.type := ForRegister |}]) ->
                    In r (Otps st)
                    \/ In (Otp.email r)
                          (map Account.email
                               (Users st
                                ++ [{| Account._id := newId;
                                       Account.name := Js.trim (ReqAuth.name b);
                                       Account.email := Js.trim (ReqAuth.email b);
                                       Account.password :=
                                         bcryptHash env (ReqAuth.password b) salt;
                                       Account.isVerified := false;
                                       Account.isAdmin := false |}]))).
    { intros Hin. apply in_app_or in Hin. destruct Hin as [Hin|[<-|[]]];
        [left; exact Hin|].
      right. rewrite map_app. apply in_or_app. right. left. reflexivity. }
    destruct (sendOtpEmail _ _ _ _); exact Hgoal.
  - unfold verifyOtp.
    destruct (validateEmailBody _); [left; assumption|].
    destruct (_ || _); [left; assumption|].
    destruct (findOtp _ _ _ _); [|left; assumption].
    destruct (_ <? _)%Z; [left; assumption|].
    destruct (findUser _ _); [|left; assumption].
    cbn [fst Otps]. intros Hin. left. exact (removeFirst_incl _ _ _ Hin).
  - unfold login.
    destruct (validateEmailBody _); [left; assumption|].
    destruct (_ || _); [left; assumption|].
    destruct (findUser _ _); [|left; assumption].
    destruct (negb _); [left; assumption|].
    destruct (negb _); left; assumption.
  - unfold forgotPassword.
    destruct (validateEmailBody _) eqn:Hv; [left; assumption|].
    destruct (negb _) eqn:Ht; [left; assumption|].
    destruct (findUser _ _) as [u|] eqn:Hfu; [|left; assumption].
    destruct (createOtp _ _ _ _ _) as [e|otps] eqn:Hc; [left; assumption|].
    apply createOtp_inr in Hc. subst otps.
    apply negb_false_iff in Ht.
    rewrite (emailRe_trim _ (validateEmailBody_None _ Hv Ht)).
    assert (Hgoal : In r (Otps st ++ [{| Otp.email := mail;
                                         Otp.otp := code;
                                         Otp.expiresAt := (now + 5 * 60 * 1000)%Z;
                                         Otp.type := ForResetPassword |}]) ->
                    In r (Otps st)
                    \/ In (Otp.email r) (map Account.email (Users st))).
    { intros Hin. apply in_app_or in Hin. destruct Hin as [Hin|[<-|[]]];
        [left; exact Hin|].
      right. cbn [Otp.email]. apply findUser_Some in Hfu.
      destruct Hfu as [Hin <-]. apply in_map. exact Hin. }
    destruct (sendOtpEmail _ _ _ _); exact Hgoal.
  - unfold resetPassword.
    destruct (validateEmailBody _); [left; assumption|].
    destruct (_ || _ || _); [left; assumption|].
    destruct (_ <? 6); [left; assumption|].
    destruct (findOtp _ _ _ _); [|left; assumption].
    destruct (_ <? _)%Z; [left; assumption|].
    destruct (findUser _ _); [|left; assumption].
    cbv zeta. destruct (negb _); [left; assumption|].
    cbn [fst Otps]. intros Hin. left. exact (removeFirst_incl _ _ _ Hin).
  - cbn [Otps]. intros Hin. apply filter_In in Hin. left. tauto.
Qed.

Lemma authStep_emails (env : AuthEnv) (st : Accounts) (c : AuthCall) :
  incl (map Account.email (Users st))
       (map Account.email (Users (authStep env st c))).
Proof.
  destruct (authStep_users env st c) as [->|[(u & -> & _)|(m & f & -> & Hf)]].
  - apply incl_refl.
  - rewrite map_app. apply incl_appl, incl_refl.
  - rewrite updateFirst_map; [apply incl_refl|].
    intros y. apply (Hf y).
Qed.

Lemma authStep_consistent (env : AuthEnv) (st : Accounts) (c : AuthCall) :
  NoDup (map Account.email (Users st)) /\ otpsOfAccounts st ->
  NoDup (map Account.email (Users (authStep env st c)))
  /\ otpsOfAccounts (authStep env st c).
Proof.
  intros [Hnd Hinv]. split.
  - destruct (authStep_users env st c)
      as [->|[(u & -> & _ & _ & Hnew)|(m & f & -> & Hf)]].
    + exact Hnd.
    + rewrite map_app. apply NoDup_app; [exact Hnd|repeat constructor; intros []|].
      intros x Hx [<-|[]]. exact (Hnew Hx).
    + rewrite updateFirst_map; [exact Hnd|]. intros y. apply (Hf y).
  - intros r Hr. destruct (authStep_otps env st c r Hr) as [Hold|Hnew];
      [|exact Hnew].
    apply (authStep_emails env st c). apply Hinv. exact Hold.
Qed.

(** X21. The account store stays consistent. Over every run of account
    calls and expiries, no two accounts share an address and every
    one-time password stored belongs to an account. *)
Theorem accounts_stay_consistent (env : AuthEnv) (cs : list AuthCall)
        (st : Accounts) :
  NoDup (map Account.email (Users st)) ->
  otpsOfAccounts st ->
  NoDup (map Account.email (Users (authRun env st cs)))
  /\ otpsOfAccounts (authRun env st cs).
Proof.
  intros Hnd Hinv. assert (H := conj Hnd Hinv). clear Hnd Hinv.
  revert st H. unfold authRun.
  induction cs as [|c cs IH]; intros st H; [exact H|].
  cbn [fold_left]. apply IH. apply authStep_consistent. exact H.
Qed.

Lemma authStep_accounts (env : AuthEnv) (st : Accounts) (c : AuthCall) :
  (forall u0, In u0 (Users st) ->
              exists u, In u (Users (authStep env st c)) /\ sameAccount u0 u)
  /\ (forall u, In u (Users (authStep env st c)) ->
                (exists u0, In u0 (Users st) /\ sameAccount u0 u)
                \/ Account.isAdmin u = false).
Proof.
  destruct (authStep_users env st c)
    as [->|[(x & -> & Hadm & _)|(m & f & -> & Hf)]].
  - split.
    + intros u0 H. exists u0. split; [exact H|apply sameAccount_refl].
    + intros u H. left. exists u. split; [exact H|apply sameAccount_refl].
  - split.
    + intros u0 H. exists u0. split; [apply in_or_app; left; exact H|].
      apply sameAccount_refl.
    + intros u H. apply in_app_or in H. destruct H as [H|[<-|[]]].
      * left. exists u. split; [exact H|apply sameAccount_refl].
      * right. exact Hadm.
  - split.
    + intros u0 H.
      destruct (updateFirst_In_keep
                  (fun u => String.eqb (Account.email u) m) f _ _ H) as [Hin|Hin].
      * exists u0. split; [exact Hin|apply sameAccount_refl].
      * exists (f u0). split; [exact Hin|apply Hf].
    + intros u H. left. destruct (updateFirst_In_inv _ _ _ _ H)
        as [Hin|(y & Hy & _ & ->)].
      * exists u. split; [exact Hin|apply sameAccount_refl].
      * exists y. split; [exact Hy|apply Hf].
Qed.

(** X20. No account route grants admin rights or removes an account. Over
    every run of account calls and expiries, every account stored at the
    start is still stored with its id, name, address and admin flag, and
    verified if it was; every admin account of the end was an admin
    account at the start; so a token that passes the admin check after
    the run belongs to an account that was an admin before it. *)
Theorem account_routes_grant_no_admin (env : AuthEnv) (cs : list AuthCall)
        (st : Accounts) :
  (forall u0, In u0 (Users st) ->
              exists u, In u (Users (authRun env st cs)) /\ sameAccount u0 u)
  /\ (forall u, In u (Users (authRun env st cs)) -> Account.isAdmin u = true ->
                exists u0, In u0 (Users st) /\ sameAccount u0 u
                           /\ Account.isAdmin u0 = true)
  /\ (forall now token,
         authStatus (isAdminRoute env now (authRun env st cs) token) = 200 ->
         exists u0 u, In u0 (Users st) /\ Account.isAdmin u0 = true
                      /\ sameAccount u0 u
                      /\ authenticateToken env now (authRun env st cs) token
                         = inr u).
Proof.
  assert (Hrun : forall cs st,
             (forall u0, In u0 (Users st) ->
                         exists u, In u (Users (authRun env st cs))
                                   /\ sameAccount u0 u)
             /\ (forall u, In u (Users (authRun env st cs)) ->
                           (exists u0, In u0 (Users st) /\ sameAccount u0 u)
                           \/ Account.isAdmin u = false)).
  { clear cs st. unfold authRun.
    induction cs as [|c cs IH]; intros st; cbn [fold_left].
    - split.
      + intros u0 H. exists u0. split; [exact H|apply sameAccount_refl].
      + intros u H. left. exists u. split; [exact H|apply sameAccount_refl].
    - destruct (authStep_accounts env st c) as [Hs1 Hs2].
      destruct (IH (authStep env st c)) as [Hr1 Hr2]. split.
      + intros u0 H. destruct (Hs1 u0 H) as (u1 & Hu1 & S1).
        destruct (Hr1 u1 Hu1) as (u & Hu & S2).
        exists u. split; [exact Hu|exact (sameAccount_trans _ _ _ S1 S2)].
      + intros u H. destruct (Hr2 u H) as [(u1 & Hu1 & S2)|Hna]; [|right; exact Hna].
        destruct (Hs2 u1 Hu1) as [(u0 & Hu0 & S1)|Hna].
        * left. exists u0. split; [exact Hu0|exact (sameAccount_trans _ _ _ S1 S2)].
        * right. destruct S2 as (_ & _ & _ & E & _). congruence. }
  destruct (Hrun cs st) as [H1 H2].
  assert (Hadm : forall u, In u (Users (authRun env st cs)) ->
                           Account.isAdmin u = true ->
                           exists u0, In u0 (Users st) /\ sameAccount u0 u
                                      /\ Account.isAdmin u0 = true).
  { intros u Hu Hadm. destruct (H2 u Hu) as [(u0 & Hu0 & S)|Hna]; [|congruence].
    exists u0. split; [exact Hu0|]. split; [exact S|].
    destruct S as (_ & _ & _ & E & _). congruence. }
  split; [exact H1|]. split; [exact Hadm|].
  intros now token H. unfold isAdminRoute in H.
  destruct (authenticateToken env now (authRun env st cs) token) as [r|u] eqn:Ha.
  - exfalso. unfold authenticateToken in Ha.
    destruct (negb (Js.truthy token)); [injection Ha as <-; discriminate H|].
    destruct (jwtVerify env token now); [injection Ha as <-; discriminate H|].
    destruct (negb (validUserId env _)); [injection Ha as <-; discriminate H|].
    destruct (findUserById _ _); [|injection Ha as <-; discriminate H].
    destruct (negb _); [injection Ha as <-; discriminate H|discriminate Ha].
  - destruct (Account.isAdmin u) eqn:Hu; [|discriminate H].
    assert (Hin : In u (Users (authRun env st cs))).
    { unfold authenticateToken in Ha.
      destruct (negb (Js.truthy token)); [discriminate Ha|].
      destruct (jwtVerify env token now); [discriminate Ha|].
      destruct (negb (validUserId env _)); [discriminate Ha|].
      destruct (findUserById _ _) as [x|] eqn:Hf; [|discriminate Ha].
      destruct (negb _); [discriminate Ha|]. injection Ha as <-.
      unfold findUserById, Js.find in Hf. apply find_some in Hf. tauto. }
    destruct (Hadm u Hin Hu) as (u0 & Hu0 & S & Hadm0).
    exists u0, u. auto.
Qed.

(** ** A registration that was not verified in time *)

Lemma lapsed_keep (t0 : Z) (mail : string) (U U2 : list Account.t)
      (O O2 : list Otp.t) :
  lapsed t0 mail {| Users := U; Otps := O |} ->
  incl (map Account.email U) (map Account.email U2) ->
  (forall u2, In u2 U2 -> Account.email u2 = mail ->
              exists y, In y U /\ Account.email y = mail
                        /\ Account.isVerified u2 = Account.isVerified y) ->
  (forall r, In r O2 -> Otp.email r = mail -> Otp.type r = ForRegister -> In r O) ->
  lapsed t0 mail {| Users := U2; Otps := O2 |}.
Proof.
  intros (H1 & H2 & H3) Hincl Husers Hotps. cbn [Users Otps] in *.
  split; [|split]; cbn [Users Otps].
  - destruct H1 as (u & Hu & He).
    assert (Hin : In mail (map Account.email U2)).
    { apply Hincl. rewrite <- He. apply in_map. exact Hu. }
    apply in_map_iff in Hin. destruct Hin as (u2 & He2 & Hu2). eauto.
  - intros u2 Hu2 He2. destruct (Husers u2 Hu2 He2) as (y & Hy & Hey & ->).
    apply H2; assumption.
  - intros r Hr He Hty. apply H3; auto.
Qed.

Lemma authStep_lapsed (env : AuthEnv) (t0 : Z) (mail : string) (st : Accounts)
      (c : AuthCall) :
  lapsed t0 mail st -> (t0 <= callTime c)%Z ->
  lapsed t0 mail (authStep env st c).
Proof.
  destruct st as [U O]. intros Hl Ht.
  assert (Hself : forall u2, In u2 U -> Account.email u2 = mail ->
                    exists y, In y U /\ Account.email y = mail
                              /\ Account.isVerified u2 = Account.isVerified y)
    by (intros u2 H2 E2; exists u2; auto).
  destruct c; cbn [authStep callTime] in *.
  - unfold register. cbn [Users Otps].
    destruct (validateEmailBody _) eqn:Hv; [exact Hl|].
    destruct (_ || _ || _) eqn:Hreq; [exact Hl|].
    destruct (_ <? 6); [exact Hl|].
    destruct (findUser _ _) eqn:Hfu; [exact Hl|].
    cbv zeta. destruct (negb _ || Js.mem _ _); [exact Hl|].
    apply orb_false_iff in Hreq. destruct Hreq as [Hreq _].
    apply orb_false_iff in Hreq. destruct Hreq as [_ Hte].
    apply negb_false_iff in Hte.
    pose proof (emailRe_trim _ (validateEmailBody_None _ Hv Hte)) as Htrim.
    rewrite Htrim.
    assert (Hne : ReqAuth.email b <> mail).
    { intros E. apply (findUser_None _ _ Hfu). rewrite E.
      destruct Hl as ((u & Hu & He) & _). cbn [Users] in Hu.
      rewrite <- He. apply in_map. exact Hu. }
    assert (Husers : forall u2,
               In u2 (U ++ [{| Account._id := newId;
                               Account.name := Js.trim (ReqAuth.name b);
                               Account.email := ReqAuth.email b;
                               Account.password :=
                                 bcryptHash env (ReqAuth.password b) salt;
                               Account.isVerified := false;
                               Account.isAdmin := false |}]) ->
               Account.email u2 = mail ->
               exists y, In y U /\ Account.email y = mail
                         /\ Account.isVerified u2 = Account.isVerified y).
    { intros u2 H2 E2. apply in_app_or in H2. destruct H2 as [H2|[<-|[]]].
      - apply Hself; assumption.
      - cbn [Account.email] in E2. contradiction. }
    destruct (createOtp _ _ _ _ _) as [e|otps] eqn:Hc.
    + cbn [fst]. apply (lapsed_keep t0 mail U _ O O Hl).
      * rewrite map_app. apply incl_appl, incl_refl.
      * exact Husers.
      * auto.
    + apply createOtp_inr in Hc. subst otps. rewrite Htrim.
      assert (Hgoal : lapsed t0 mail
                        {| Users := U ++ [{| Account._id := newId;
                                            Account.name := Js.trim (ReqAuth.name b);
                                            Account.email := ReqAuth.email b;
                                            Account.password :=
                                              bcryptHash env (ReqAuth.password b) salt;
                                            Account.isVerified := false;
                                            Account.isAdmin := false |}];
                           Otps := O ++ [{| Otp.email := ReqAuth.email b;
                                           Otp.otp := code;
                                           Otp.expiresAt := (now + 5 * 60 * 1000)%Z;
                                           Otp.type := ForRegister |}] |}).
      { apply (lapsed_keep t0 mail U _ O _ Hl).
        - rewrite map_app. apply incl_appl, incl_refl.
        - exact Husers.
        - intros r Hr He _. apply in_app_or in Hr.
          destruct Hr as [Hr|[<-|[]]]; [exact Hr|].
          cbn [Otp.email] in He. contradiction. }
      destruct (sendOtpEmail _ _ _ _); exact Hgoal.
  - unfold verifyOtp. cbn [Users Otps].
    destruct (validateEmailBody _); [exact Hl|].
    destruct (_ || _); [exact Hl|].
    destruct (findOtp _ _ _ _) as [record|] eqn:Hfo; [|exact Hl].
    destruct (_ <? _)%Z eqn:Hexp; [exact Hl|].
    destruct (findUser _ _); [|exact Hl].
    cbn [fst].
    assert (Hne : mail0 <> mail).
    { intros ->. unfold findOtp, Js.find in Hfo. apply find_some in Hfo.
      destruct Hfo as [Hin Hq].
      apply andb_true_iff in Hq. destruct Hq as [Hq Hty].
      apply andb_true_iff in Hq. destruct Hq as [He _].
      apply String.eqb_eq in He.
      assert (Hreg : Otp.type record = ForRegister)
        by (destruct (Otp.type record); [reflexivity|discriminate Hty]).
      destruct Hl as (_ & _ & H3). specialize (H3 record Hin He Hreg).
      apply Z.ltb_ge in Hexp. lia. }
    apply (lapsed_keep t0 mail U _ O _ Hl).
    + rewrite updateFirst_map; [apply incl_refl|reflexivity].
    + intros u2 H2 E2.
      destruct (updateFirst_In_inv _ _ _ _ H2) as [Hin|(y & Hy & Hp & ->)].
      * apply Hself; assumption.
      * apply String.eqb_eq in Hp. cbn [verifyAccount Account.email] in E2.
        congruence.
    + intros r Hr _ _. exact (removeFirst_incl _ _ _ Hr).
  - unfold login. cbn [Users Otps].
    destruct (validateEmailBody _); [exact Hl|].
    destruct (_ || _); [exact Hl|].
    destruct (findUser _ _); [|exact Hl].
    destruct (negb _); [exact Hl|].
    destruct (negb _); exact Hl.
  - unfold forgotPassword. cbn [Users Otps].
    destruct (validateEmailBody _); [exact Hl|].
    destruct (negb _); [exact Hl|].
    destruct (findUser _ _); [|exact Hl].
    destruct (createOtp _ _ _ _ _) as [e|otps] eqn:Hc; [exact Hl|].
    apply createOtp_inr in Hc. subst otps.
    assert (Hgoal : lapsed t0 mail
                      {| Users := U;
                         Otps := O ++ [{| Otp.email := Js.trim mail0;
                                         Otp.otp := code;
                                         Otp.expiresAt := (now + 5 * 60 * 1000)%Z;
                                         Otp.type := ForResetPassword |}] |}).
    { apply (lapsed_keep t0 mail U _ O _ Hl); [apply incl_refl|exact Hself|].
      intros r Hr _ Hty. apply in_app_or in Hr.
      destruct Hr as [Hr|[<-|[]]]; [exact Hr|discriminate Hty]. }
    destruct (sendOtpEmail _ _ _ _); exact Hgoal.
  - unfold resetPassword. cbn [Users Otps].
    destruct (validateEmailBody _); [exact Hl|].
    destruct (_ || _ || _); [exact Hl|].
    destruct (_ <? 6); [exact Hl|].
    destruct (findOtp _ _ _ _); [|exact Hl].
    destruct (_ <? _)%Z; [exact Hl|].
    destruct (findUser _ _); [|exact Hl].
    cbv zeta. destruct (negb _); [exact Hl|].
    cbn [fst]. apply (lapsed_keep t0 mail U _ O _ Hl).
    + rewrite updateFirst_map; [apply incl_refl|reflexivity].
    + intros u2 H2 E2.
      destruct (updateFirst_In_inv _ _ _ _ H2) as [Hin|(y & Hy & Hp & ->)].
      * apply Hself; assumption.
      * exists y. cbn [setPassword Account.email Account.isVerified] in *. auto.
    + intros r Hr _ _. exact (removeFirst_incl _ _ _ Hr).
  - cbn [Users Otps]. apply (lapsed_keep t0 mail U _ O _ Hl);
      [apply incl_refl|exact Hself|].
    intros r Hr _ _. apply filter_In in Hr. tauto.
Qed.

Lemma lapsed_answers (env : AuthEnv) (t0 now : Z) (mail : string) (st : Accounts) :
  lapsed t0 mail st -> (t0 <= now)%Z ->
  (forall newId salt code b,
      ReqAuth.email b = mail ->
      fst (register env now newId salt code st b) = st
      /\ authStatus (snd (register env now newId salt code st b)) = 400)
  /\ (forall code,
         fst (verifyOtp env now st mail code) = st
         /\ authStatus (snd (verifyOtp env now st mail code)) = 400)
  /\ (forall pass,
         fst (login env now st mail pass) = st
         /\ (authStatus (snd (login env now st mail pass)) = 400
             \/ authStatus (snd (login env now st mail pass)) = 401)).
Proof.
  intros ((u & Hu & He) & H2 & H3) Ht.
  assert (Hfind : exists x, findUser mail (Users st) = Some x).
  { apply findUser_In. rewrite <- He. apply in_map. exact Hu. }
  destruct Hfind as [x Hx].
  split; [|split].
  - intros newId salt code b Hb. unfold register. rewrite Hb.
    unfold validateEmailBody.
    destruct (Js.truthy mail && negb (Js.test emailRe mail)); [split; reflexivity|].
    destruct (_ || _ || _); [split; reflexivity|].
    destruct (_ <? 6); [split; reflexivity|].
    rewrite Hx. split; reflexivity.
  - intros code. unfold verifyOtp, validateEmailBody.
    destruct (Js.truthy mail && negb (Js.test emailRe mail)); [split; reflexivity|].
    destruct (_ || _); [split; reflexivity|].
    destruct (findOtp _ _ _ _) as [record|] eqn:Hfo; [|split; reflexivity].
    unfold findOtp, Js.find in Hfo. apply find_some in Hfo.
    destruct Hfo as [Hin Hq].
    apply andb_true_iff in Hq. destruct Hq as [Hq Hty].
    apply andb_true_iff in Hq. destruct Hq as [Hem _].
    apply String.eqb_eq in Hem.
    assert (Hreg : Otp.type record = ForRegister)
      by (destruct (Otp.type record); [reflexivity|discriminate Hty]).
    specialize (H3 record Hin Hem Hreg).
    destruct (Z.ltb_spec (Otp.expiresAt record) now) as [_|Hge]; [|lia].
    split; reflexivity.
  - intros pass. unfold login, validateEmailBody.
    destruct (Js.truthy mail && negb (Js.test emailRe mail)); [split; auto|].
    destruct (_ || _); [split; auto|].
    rewrite Hx. apply findUser_Some in Hx. destruct Hx as [Hin Hex].
    rewrite (H2 x Hin Hex). split; auto.
Qed.

(** X18. A registration that was not verified in time is a dead end. When
    an address has an account, none of its accounts is verified and every
    registration password stored for it has expired, then through every
    run of account calls and expiries made from then on this stays so,
    and at any later time a registration for the address is turned away
    with 400, a verification for it with 400 whatever the password
    submitted, and a login with 400 or 401; none of them changes the
    store. No route issues a new registration password for a registered
    address. *)
Theorem lapsed_registration_is_a_dead_end (env : AuthEnv) (t0 : Z)
        (mail : string) (st : Accounts) (cs : list AuthCall) :
  lapsed t0 mail st ->
  Forall (fun c => (t0 <= callTime c)%Z) cs ->
  lapsed t0 mail (authRun env st cs)
  /\ forall now, (t0 <= now)%Z ->
       (forall newId salt code b,
           ReqAuth.email b = mail ->
           fst (register env now newId salt code (authRun env st cs) b)
           = authRun env st cs
           /\ authStatus (snd (register env now newId salt code
                                        (authRun env st cs) b)) = 400)
       /\ (forall code,
              fst (verifyOtp env now (authRun env st cs) mail code)
              = authRun env st cs
              /\ authStatus (snd (verifyOtp env now (authRun env st cs) mail code))
                 = 400)
       /\ (forall pass,
              fst (login env now (authRun env st cs) mail pass)
              = authRun env st cs
              /\ (authStatus (snd (login env now (authRun env st cs) mail pass))
                  = 400
                  \/ authStatus (snd (login env now (authRun env st cs) mail pass))
                     = 401)).
Proof.
  intros Hl Hcs.
  assert (Hrun : lapsed t0 mail (authRun env st cs)).
  { revert st Hl. unfold authRun.
    induction Hcs as [|c cs Hc _ IH]; intros st Hl; [exact Hl|].
    cbn [fold_left]. apply IH. apply authStep_lapsed; assumption. }
  split; [exact Hrun|].
  intros now Hnow. apply (lapsed_answers env t0 now mail _ Hrun Hnow).
Qed.

(** X22. A registration whose mail fails strands the address. When the
    request passes every check and the transport rejects the mail, the
    route answers 500 with the account and its one-time password stored,
    the account neither verified nor an admin; on a store where one-time
    passwords belong to accounts, from five minutes later on the address
    is in the state X18 describes. *)
Theorem failed_registration_mail_strands_address (env : AuthEnv) (now t0 : Z)
        (newId salt code msg : string) (st : Accounts) (b : ReqAuth.Register) :
  otpsOfAccounts st ->
  Js.test emailRe (ReqAuth.email b) = true ->
  Js.truthy (Js.trim (ReqAuth.name b)) = true ->
  6 <= Js.length (ReqAuth.password b) ->
  Js.truthy (bcryptHash env (ReqAuth.password b) salt) = true ->
  Js.truthy code = true ->
  findUser (ReqAuth.email b) (Users st) = None ->
  otpTransport env (ReqAuth.email b) code ForRegister = Some msg ->
  (now + 5 * 60 * 1000 < t0)%Z ->
  register env now newId salt code st b
  = ({| Users := Users st
                 ++ [{| Account._id := newId;
                        Account.name := Js.trim (ReqAuth.name b);
                        Account.email := ReqAuth.email b;
                        Account.password := bcryptHash env (ReqAuth.password b) salt;
                        Account.isVerified := false;
                        Account.isAdmin := false |}];
        Otps := Otps st
                ++ [{| Otp.email := ReqAuth.email b;
                       Otp.otp := code;
                       Otp.expiresAt := (now + 5 * 60 * 1000)%Z;
                       Otp.type := ForRegister |}] |},
     authError 500 "Failed to register")
  /\ lapsed t0 (ReqAuth.email b) (fst (register env now newId salt code st b)).
Proof.
  intros Hinv Hre Hname Hlen Hhash Hcode Hfu Hmail Ht.
  assert (Hnew : ~ In (ReqAuth.email b) (map Account.email (Users st)))
    by (apply findUser_None; exact Hfu).
  assert (Hnonempty : forall s, Js.truthy (Js.trim s) = true -> Js.truthy s = true).
  { intros s. destruct s; [intros H; discriminate H|reflexivity]. }
  assert (Hpass : Js.truthy (ReqAuth.password b) = true)
    by (destruct (ReqAuth.password b); [cbn in Hlen; lia|reflexivity]).
  assert (Hte : Js.truthy (ReqAuth.email b) = true).
  { destruct (ReqAuth.email b); [discriminate Hre|reflexivity]. }
  assert (Hreg : register env now newId salt code st b
                 = ({| Users := Users st
                                ++ [{| Account._id := newId;
                                       Account.name := Js.trim (ReqAuth.name b);
                                       Account.email := ReqAuth.email b;
                                       Account.password :=
                                         bcryptHash env (ReqAuth.password b) salt;
                                       Account.isVerified := false;
                                       Account.isAdmin := false |}];
                       Otps := Otps st
                               ++ [{| Otp.email := ReqAuth.email b;
                                      Otp.otp := code;
                                      Otp.expiresAt := (now + 5 * 60 * 1000)%Z;
                                      Otp.type := ForRegister |}] |},
                    authError 500 "Failed to register")).
  { unfold register, validateEmailBody.
    rewrite Hre, Hte, (Hnonempty _ Hname), Hpass. cbn [negb andb orb].
    destruct (Nat.ltb_spec (Js.length (ReqAuth.password b)) 6) as [Hlt|_]; [lia|].
    rewrite Hfu. cbv zeta. unfold validUser.
    cbn [Account.name Account.email Account.password].
    rewrite (emailRe_trim _ Hre), Hname, Hte, Hhash. cbn [andb negb orb].
    destruct (Js.mem (ReqAuth.email b) (map Account.email (Users st))) eqn:Hmem;
      [exfalso; apply Hnew, mem_In; exact Hmem|].
    unfold createOtp, throwIf, bind, sendOtpEmail. cbv zeta.
    cbn [Otp.email Otp.otp]. rewrite (emailRe_trim _ Hre), Hte, Hcode, Hmail.
    reflexivity. }
  split; [exact Hreg|]. rewrite Hreg. cbn [fst].
  split; [|split]; cbn [Users Otps].
  - eexists. split; [apply in_or_app; right; left; reflexivity|reflexivity].
  - intros u Hu He. apply in_app_or in Hu. destruct Hu as [Hu|[<-|[]]];
      [|reflexivity].
    exfalso. apply Hnew. rewrite <- He. apply in_map. exact Hu.
  - intros r Hr He _. apply in_app_or in Hr. destruct Hr as [Hr|[<-|[]]].
    + exfalso. apply Hnew. rewrite <- He. apply Hinv. exact Hr.
    + cbn [Otp.expiresAt]. exact Ht.
Qed.

(** ** Resetting a password *)

Lemma find_updateFirst {A} (p : A -> bool) (f : A -> A) (l : list A) (x : A) :
  List.find p l = Some x -> p (f x) = true ->
  List.find p (updateFirst p f l) = Some (f x).
Proof.
  induction l as [|a l IH]; intros H Hf; [discriminate|].
  cbn [find updateFirst] in *. destruct (p a) eqn:Hp.
  - injection H as ->. cbn [find]. rewrite Hf. reflexivity.
  - cbn [find]. rewrite Hp. apply IH; assumption.
Qed.

(** X19. Password reset round trip. After a reset was requested for an
    address and answered 200, on a store holding no one-time password
    with that address and code before, resetting with the mailed code
    within its five minutes and a new password of six characters or more
    answers 200, stores the hash of the new password on the account of
    the address and uses the code up: the store of one-time passwords is
    as before the request, and resetting again with the same code is
    answered 400. A login with the new password then answers 200 when the
    account is verified; when it is not, the login is still answered 401:
    resetting a password does not verify an account. *)
Theorem password_reset_round_trip (env : AuthEnv) (now now2 now3 : Z)
        (salt code mail newPassword : string) (st : Accounts) :
  librariesBehave env ->
  authStatus (snd (forgotPassword env now code st mail)) = 200 ->
  (forall r, In r (Otps st) -> Otp.email r = mail -> Otp.otp r <> code) ->
  (now2 <= now + 5 * 60 * 1000)%Z ->
  6 <= Js.length newPassword ->
  exists u,
    findUser mail (Users st) = Some u
    /\ let hashed := bcryptHash env newPassword salt in
       let st2 := {| Users := updateFirst
                                (fun x => String.eqb (Account.email x) mail)
                                (setPassword hashed) (Users st);
                     Otps := Otps st |} in
       resetPassword env now2 salt (fst (forgotPassword env now code st mail))
                     mail code newPassword
       = (st2, authMessage 200 "Password reset successfully")
       /\ findUser mail (Users st2) = Some (setPassword hashed u)
       /\ (Account.isVerified u = true ->
           login env now3 st2 mail newPassword
           = (st2, loggedIn env now3 "Login successful" (setPassword hashed u)))
       /\ (Account.isVerified u = false ->
           login env now3 st2 mail newPassword
           = (st2, authError 401 "Please verify your email first"))
       /\ forall now4 salt2 pass,
            resetPassword env now4 salt2 st2 mail code pass
            = (st2, snd (resetPassword env now4 salt2 st2 mail code pass))
            /\ authStatus (snd (resetPassword env now4 salt2 st2 mail code pass))
               = 400.
Proof.
  intros (Hcmp & Hhash & _) H200 Hfresh Ht2 Hlen.
  assert (Hpass : Js.truthy newPassword = true)
    by (destruct newPassword; [cbn in Hlen; lia|reflexivity]).
  unfold forgotPassword in *.
  destruct (validateEmailBody mail) eqn:Hv.
  { unfold validateEmailBody in Hv. destruct (_ && _); [|discriminate Hv].
    injection Hv as <-. discriminate H200. }
  destruct (Js.truthy mail) eqn:Hte; [|discriminate H200]. cbn [negb] in *.
  destruct (findUser mail (Users st)) as [u|] eqn:Hfu; [|discriminate H200].
  destruct (createOtp now mail code ForResetPassword (Otps st)) as [e|otps] eqn:Hc;
    [discriminate H200|].
  assert (Hcode : Js.truthy code = true).
  { unfold createOtp, throwIf, bind in Hc. cbv zeta in Hc.
    cbn [Otp.email Otp.otp] in Hc.
    destruct (Js.truthy code); [reflexivity|].
    rewrite andb_false_r in Hc. discriminate Hc. }
  apply createOtp_inr in Hc. subst otps.
  pose proof (validateEmailBody_None _ Hv Hte) as Hre.
  rewrite (emailRe_trim _ Hre) in *.
  destruct (sendOtpEmail env mail code ForResetPassword); [discriminate H200|].
  cbn [fst] in *. exists u. split; [reflexivity|]. cbv zeta.
  assert (Hnone : forall r, In r (Otps st) ->
                    String.eqb (Otp.email r) mail && String.eqb (Otp.otp r) code
                    = false).
  { intros r Hr. destruct (String.eqb_spec (Otp.email r) mail) as [E|_];
      [|reflexivity].
    cbn [andb]. apply String.eqb_neq. apply Hfresh; assumption. }
  assert (Hfu2 : findUser mail
                   (updateFirst (fun x => String.eqb (Account.email x) mail)
                                (setPassword (bcryptHash env newPassword salt))
                                (Users st))
                 = Some (setPassword (bcryptHash env newPassword salt) u)).
  { unfold findUser, Js.find. apply find_updateFirst; [exact Hfu|].
    cbn [setPassword Account.email].
    apply findUser_Some in Hfu. destruct Hfu as [_ E]. rewrite E.
    apply String.eqb_refl. }
  split; [|split; [exact Hfu2|split; [|split]]].
  - unfold resetPassword. rewrite Hv, Hte, Hcode, Hpass. cbn [negb orb].
    destruct (Nat.ltb_spec (Js.length newPassword) 6) as [Hlt|_]; [lia|].
    cbn [Otps Users]. unfold findOtp, Js.find.
    rewrite find_app_none.
    2:{ apply find_none_iff. intros r Hr. rewrite (Hnone r Hr). reflexivity. }
    cbn [find Otp.email Otp.otp Otp.type otpTypeEqb].
    rewrite !String.eqb_refl. cbn [andb Otp.expiresAt].
    destruct (Z.ltb_spec (now + 5 * 60 * 1000) now2) as [Hlt|_]; [lia|].
    rewrite Hfu. cbv zeta. rewrite Hhash. cbn [negb].
    unfold deleteOtp. rewrite removeFirst_app_last; [reflexivity|exact Hnone|].
    cbn [Otp.email Otp.otp]. rewrite !String.eqb_refl. reflexivity.
  - intros Hver. unfold login. rewrite Hv, Hte, Hpass. cbn [negb orb Users].
    rewrite Hfu2. cbn [setPassword Account.isVerified Account.password].
    rewrite Hver, Hcmp. reflexivity.
  - intros Hver. unfold login. rewrite Hv, Hte, Hpass. cbn [negb orb Users].
    rewrite Hfu2. cbn [setPassword Account.isVerified].
    rewrite Hver. reflexivity.
  - intros now4 salt2 pass. unfold resetPassword. rewrite Hv, Hte, Hcode.
    cbn [negb orb Otps].
    destruct (negb (Js.truthy pass)); [split; reflexivity|].
    destruct (_ <? 6); [split; reflexivity|].
    unfold findOtp, Js.find. rewrite find_none_iff; [split; reflexivity|].
    intros r Hr. rewrite (Hnone r Hr). reflexivity.
Qed.

(** ** The default accounts at startup *)

Lemma saveNewUser_inr (u : Account.t) (users : list Account.t) :
  Js.trim (Account.email u) = Account.email u ->
  Js.truthy (Js.trim (Account.name u)) = true ->
  Js.truthy (Account.email u) = true ->
  Js.truthy (Account.password u) = true ->
  findUser (Account.email u) users = None ->
  exists doc,
    saveNewUser u users = inr (users ++ [doc])
    /\ Account.email doc = Account.email u
    /\ Account.isAdmin doc = Account.isAdmin u.
Proof.
  intros He Hn Hte Hp Hf. unfold saveNewUser, throwIf, bind. cbv zeta.
  unfold validUser. cbn [Account.name Account.email Account.password].
  rewrite He, Hn, Hte, Hp. cbn [andb negb].
  destruct (Js.mem (Account.email u) (map Account.email users)) eqn:Hmem.
  - exfalso. apply (findUser_None _ _ Hf). apply mem_In. exact Hmem.
  - eexists. split; [reflexivity|]. split; reflexivity.
Qed.

Lemma keptAccount_refl (u : Account.t) : keptAccount u u.
Proof. unfold keptAccount. tauto. Qed.

Lemma keptAccount_makeAdmin (u : Account.t) : keptAccount u (makeAdmin u).
Proof. unfold keptAccount, makeAdmin. cbn. tauto. Qed.

Lemma NoDup_emails_snoc (users : list Account.t) (doc : Account.t) :
  NoDup (map Account.email users) ->
  findUser (Account.email doc) users = None ->
  NoDup (map Account.email (users ++ [doc])).
Proof.
  intros Hnd Hf. rewrite map_app.
  apply NoDup_app; [exact Hnd|repeat constructor; intros []|].
  intros x Hx [<-|[]]. exact (findUser_None _ _ Hf Hx).
Qed.

(** The second half of the start-up routine on any user list. *)
Lemma ensureAdmin (env : AuthEnv) (cfg : Config) (id2 salt2 : string)
      (V : list Account.t) :
  librariesBehave env -> wellConfigured cfg ->
  NoDup (map Account.email V) ->
  exists W,
    match findUser (ADMIN_EMAIL cfg) V with
    | None =>
        saveNewUser {| Account._id := id2;
                       Account.name := "Admin";
                       Account.email := ADMIN_EMAIL cfg;
                       Account.password :=
                         bcryptHash env (ADMIN_PASSWORD cfg) salt2;
                       Account.isVerified := true;
                       Account.isAdmin := true |} V
    | Some existingAdmin =>
        if negb (Account.isAdmin existingAdmin)
        then ret (updateFirst
                    (fun u => String.eqb (Account.email u) (ADMIN_EMAIL cfg))
                    makeAdmin V)
        else ret V
    end = inr W
    /\ (exists a, findUser (ADMIN_EMAIL cfg) W = Some a
                  /\ Account.isAdmin a = true)
    /\ (forall v, In v V -> exists w, In w W /\ keptAccount v w)
    /\ incl (map Account.email V) (map Account.email W)
    /\ NoDup (map Account.email W).
Proof.
  intros (_ & Hhash & _) (_ & _ & Hta & Htrim & _) Hnd.
  destruct (findUser (ADMIN_EMAIL cfg) V) as [a|] eqn:Hf.
  - destruct (Account.isAdmin a) eqn:Hadm; cbn [negb].
    + exists V. split; [reflexivity|]. split; [eauto|].
      split; [|split; [apply incl_refl|exact Hnd]].
      intros v Hv. exists v. split; [exact Hv|apply keptAccount_refl].
    + eexists. split; [reflexivity|]. split; [|split; [|split]].
      * exists (makeAdmin a). split; [|reflexivity].
        unfold findUser, Js.find. apply find_updateFirst; [exact Hf|].
        cbn [makeAdmin Account.email]. apply findUser_Some in Hf.
        destruct Hf as [_ E]. rewrite E. apply String.eqb_refl.
      * intros v Hv.
        destruct (updateFirst_In_keep
                    (fun u => String.eqb (Account.email u) (ADMIN_EMAIL cfg))
                    makeAdmin _ _ Hv) as [Hin|Hin].
        -- exists v. split; [exact Hin|apply keptAccount_refl].
        -- exists (makeAdmin v). split; [exact Hin|apply keptAccount_makeAdmin].
      * rewrite updateFirst_map; [apply incl_refl|reflexivity].
      * rewrite updateFirst_map; [exact Hnd|reflexivity].
  - destruct (saveNewUser_inr
                {| Account._id := id2;
                   Account.name := "Admin";
                   Account.email := ADMIN_EMAIL cfg;
                   Account.password := bcryptHash env (ADMIN_PASSWORD cfg) salt2;
                   Account.isVerified := true;
                   Account.isAdmin := true |} V Htrim eq_refl Hta (Hhash _ _) Hf)
      as (doc & Hsave & He & Hadm).
    cbn [Account.email Account.isAdmin] in He, Hadm.
    exists (V ++ [doc]). split; [exact Hsave|]. split; [|split; [|split]].
    + exists doc. split; [|exact Hadm].
      unfold findUser, Js.find. rewrite find_app_none by exact Hf.
      cbn [find]. rewrite He, String.eqb_refl. reflexivity.
    + intros v Hv. exists v.
      split; [apply in_or_app; left; exact Hv|apply keptAccount_refl].
    + rewrite map_app. apply incl_appl, incl_refl.
    + apply NoDup_emails_snoc; [exact Hnd|]. rewrite He. exact Hf.
Qed.

(** X23. The default accounts at startup. With both addresses configured
    without surrounding white space and a user name that is not blank,
    on a store where no two accounts share an address the start-up
    routine does not throw; afterwards the default address has an account
    and the admin address has an account that is an admin; every account
    stored before is still stored with its id, name, address, password
    and verification state, an admin if it was one (an account already
    registered under the admin address is made an admin as it is); the
    one-time passwords are untouched, addresses stay unique, and running
    the routine again changes nothing. *)
Theorem startup_provisions_default_accounts (env : AuthEnv) (cfg : Config)
        (id1 id2 salt1 salt2 : string) (st : Accounts) :
  librariesBehave env -> wellConfigured cfg ->
  NoDup (map Account.email (Users st)) ->
  exists st2,
    initializeDefaultUser env cfg id1 id2 salt1 salt2 st = inr st2
    /\ Otps st2 = Otps st
    /\ (exists u, findUser (USER_EMAIL cfg) (Users st2) = Some u)
    /\ (exists a, findUser (ADMIN_EMAIL cfg) (Users st2) = Some a
                  /\ Account.isAdmin a = true)
    /\ (forall u0, In u0 (Users st) ->
                   exists u, In u (Users st2) /\ keptAccount u0 u)
    /\ NoDup (map Account.email (Users st2))
    /\ forall id3 id4 salt3 salt4,
         initializeDefaultUser env cfg id3 id4 salt3 salt4 st2 = inr st2.
Proof.
  intros Hlib Hcfg Hnd.
  assert (Hlib2 := Hlib). destruct Hlib2 as (_ & Hhash & _).
  assert (Hcfg2 := Hcfg). destruct Hcfg2 as (Htu & Htrimu & _ & _ & Hname).
  assert (Hstage1 : exists V,
             match findUser (USER_EMAIL cfg) (Users st) with
             | None =>
                 saveNewUser {| Account._id := id1;
                                Account.name := USER_NAME cfg;
                                Account.email := USER_EMAIL cfg;
                                Account.password :=
                                  bcryptHash env (USER_PASSWORD cfg) salt1;
                                Account.isVerified := true;
                                Account.isAdmin :=
                                  String.eqb (USER_EMAIL cfg) (ADMIN_EMAIL cfg) |}
                             (Users st)
             | Some _ => ret (Users st)
             end = inr V
             /\ In (USER_EMAIL cfg) (map Account.email V)
             /\ incl (Users st) V
             /\ NoDup (map Account.email V)).
  { destruct (findUser (USER_EMAIL cfg) (Users st)) as [x|] eqn:Hf.
    - exists (Users st). split; [reflexivity|]. split; [|split].
      + apply findUser_Some in Hf. destruct Hf as [Hin <-].
        apply in_map. exact Hin.
      + apply incl_refl.
      + exact Hnd.
    - destruct (saveNewUser_inr
                  {| Account._id := id1;
                     Account.name := USER_NAME cfg;
                     Account.email := USER_EMAIL cfg;
                     Account.password := bcryptHash env (USER_PASSWORD cfg) salt1;
                     Account.isVerified := true;
                     Account.isAdmin :=
                       String.eqb (USER_EMAIL cfg) (ADMIN_EMAIL cfg) |}
                  (Users st) Htrimu Hname Htu (Hhash _ _) Hf)
        as (doc & Hsave & He & _).
      cbn [Account.email] in He.
      exists (Users st ++ [doc]). split; [exact Hsave|]. split; [|split].
      + rewrite map_app. apply in_or_app. right. left. exact He.
      + apply incl_appl, incl_refl.
      + apply NoDup_emails_snoc; [exact Hnd|]. rewrite He. exact Hf. }
  destruct Hstage1 as (V & HV & Huser & Hincl & HndV).
  destruct (ensureAdmin env cfg id2 salt2 V Hlib Hcfg HndV)
    as (W & HW & Hadmin & Hkept & Hemails & HndW).
  assert (Huser2 : exists u, findUser (USER_EMAIL cfg) W = Some u)
    by (apply findUser_In, Hemails; exact Huser).
  exists {| Users := W; Otps := Otps st |}.
  split; [|split; [reflexivity|split; [exact Huser2|split; [exact Hadmin|split;
           [|split; [exact HndW|]]]]]].
  - unfold initializeDefaultUser. cbv zeta. unfold bind at 1. rewrite HV.
    unfold bind. rewrite HW. reflexivity.
  - intros u0 H0. apply Hkept. apply Hincl. exact H0.
  - intros id3 id4 salt3 salt4. unfold initializeDefaultUser. cbv zeta.
    cbn [Users Otps]. destruct Huser2 as [u Hu]. rewrite Hu.
    unfold bind at 1. cbn [ret]. unfold bind.
    destruct Hadmin as (a & Ha & Hadm). rewrite Ha, Hadm. reflexivity.
Qed.

(** * The properties on sample data *)

Lemma dbJune_registryOk : registryOk dbJune.
Proof.
  split; [exact dbJune_wellFormed|]. split; [|split].
  - repeat constructor. intros [].
  - intros e [<-|[]]. split; vm_compute; repeat constructor.
  - intros e [<-|[]]. reflexivity.
Qed.

Lemma dbBooked_registryOk : registryOk dbBooked.
Proof.
  apply (run_registryOk sampleEnv "letmein"
           [Core (Book "2025-05-01" (batch eventJune "Asha" ["A1"]) member)]
           dbJune dbJune_registryOk).
  split; exact I.
Qed.

Lemma dbBooked_A1 : bookedOn (_id eventJune) "A1" "2025-06-01" (Seats dbBooked).
Proof.
  apply (book_succeeded_booked sampleEnv "2025-05-01" dbJune
           (batch eventJune "Asha" ["A1"]) member "A1" "2025-06-01").
  - exact (proj1 dbJune_wellFormed).
  - eexists. vm_compute. reflexivity.
  - exists (request "Asha" "2025-06-01" "A1"). simpl. auto.
Qed.

Lemma substring_all (s : string) : String.substring 0 (String.length s) s = s.
Proof. induction s as [|c s IH]; [reflexivity|]. cbn. rewrite IH. reflexivity. Qed.

Lemma sampleAuthEnv_behaves : librariesBehave sampleAuthEnv.
Proof.
  split; [|split; [|split]].
  - intros pass salt. cbn. apply String.eqb_refl.
  - intros pass salt. reflexivity.
  - intros id t. reflexivity.
  - intros id t t2 _. cbn [jwtVerify jwtSign sampleAuthEnv].
    change (Js.startsWith "jwt." ("jwt." ++ id)) with true. cbv iota.
    f_equal. cbn [String.append String.length Nat.sub String.substring].
    rewrite Nat.sub_0_r. apply substring_all.
Qed.

(** White space as [trim] and [\s] read it, and [.length] in code
    units, on characters outside ASCII. *)
Lemma trim_unicode_white_space :
  Js.trim (nbsp ++ "Asha") = "Asha"
  /\ Js.trim (bom ++ " Asha Rao" ++ lineSeparator ++ nbsp) = "Asha Rao"
  /\ Js.trim (zeroWidthSpace ++ "Asha") = (zeroWidthSpace ++ "Asha")%string
  /\ Js.trim (nbsp ++ lineSeparator) = "".
Proof. repeat split; vm_compute; reflexivity. Qed.

Lemma length_in_code_units :
  Js.length (utf8 [112; 195; 164; 115; 115; 49]) = 5
  /\ String.length (utf8 [112; 195; 164; 115; 115; 49]) = 6
  /\ Js.length (utf8 [240; 159; 153; 130]) = 2.
Proof. repeat split; vm_compute; reflexivity. Qed.

Lemma phoneRe_unicode_separator :
  Js.test phoneRe ("+91" ++ nbsp ++ "9876543210") = true
  /\ Js.test phoneRe ("+91" ++ zeroWidthSpace ++ "9876543210") = false.
Proof. split; vm_compute; reflexivity. Qed.

(** A name sent with a leading no-break space is stored without it. *)
Lemma book_trims_no_break_space :
  exists docs,
    snd (book sampleEnv "2025-05-01" dbJune
              (batch eventJune (nbsp ++ "Asha") ["A1"]) member)
    = Some {| statusCode := 200;
              body := BookedBody "Seats booked successfully" docs |}
    /\ map (fun s => map (fun bkg => name (bookedBy bkg)) (bookings s)) docs
       = [["Asha"]].
Proof. eexists. split; vm_compute; reflexivity. Qed.

(** A password of five characters, one of them of two bytes, is turned
    away. *)
Lemma register_counts_code_units :
  register sampleAuthEnv 0%Z ashaId "salt" "A1B2C3" noAccounts
           {| ReqAuth.name := "Asha";
              ReqAuth.email := "asha@x.com";
              ReqAuth.password := utf8 [112; 195; 164; 115; 115; 49] |}
  = (noAccounts, authError 400 "Password must be at least 6 characters").
Proof. vm_compute. reflexivity. Qed.

(** X1 on the time "9:99", which the creation route accepts. *)
Lemma timeRe_accepts_leading_digit_witness : Js.test timeRe "9:99" = true.
Proof. exact (timeRe_accepts_leading_digit "9" ":99" eq_refl). Defined.

(** X3 on the July show created beside the June event. *)
Lemma createEvent_seats_witness :
  map seatId
      (filter (ofEvent julyId)
              (Seats (fst (createEvent "letmein" "2025-05-01" julyId dbJune
                                       admin julyShow))))
  = firstn 15 rowMajorSeatIds.
Proof.
  refine (proj1 (createEvent_seats "letmein" "2025-05-01" julyId dbJune admin
                   julyShow (newEvent julyId julyShow) _ _)).
  - intros s Hs.
    assert (H : forallb (fun x => negb (String.eqb (eventId x) julyId))
                        (Seats dbJune) = true) by (vm_compute; reflexivity).
    pose proof (proj1 (forallb_forall _ _) H s Hs) as Hx.
    apply negb_true_iff in Hx. apply String.eqb_neq. exact Hx.
  - vm_compute. reflexivity.
Defined.

(** X5 on the two sample events, seen on the first of May. *)
Lemma listings_partition_events_witness :
  Sorted (fun a b => String.leb (eventDate a) (eventDate b) = true)
         [eventJune; eventJuly].
Proof.
  refine (proj2 (proj2 (proj2 (proj2
            (listings_partition_events "2025-05-01" dbTwoEvents admin
               [eventJune; eventJuly] [] _ _ _))))).
  - reflexivity.
  - vm_compute. reflexivity.
  - vm_compute. reflexivity.
Defined.

(** X6 on the June event, its identifier sent in capitals. *)
Lemma closeRegistration_retires_event_witness :
  listed (listPast "2025-05-01"
                   (fst (closeRegistration sampleEnv dbJune
                                           "64B7F3A2C1D4E5F6A7B8C9D0"))
                   admin)
         (closeEvent eventJune).
Proof.
  refine (proj1 (proj2 (proj2 (proj2
            (closeRegistration_retires_event sampleEnv "2025-05-01" dbJune admin
               "64B7F3A2C1D4E5F6A7B8C9D0" eventJune _ _ _ _ _ _))))).
  - repeat constructor. intros [].
  - reflexivity.
  - vm_compute. reflexivity.
  - vm_compute. reflexivity.
  - reflexivity.
  - vm_compute. reflexivity.
Defined.

(** X7 on the July show, read on the day it takes place. *)
Lemma getEvent_after_createEvent_witness :
  getEvent sampleEnv "2025-07-01"
           (fst (createEvent "letmein" "2025-05-01" julyId dbJune admin julyShow))
           julyId
  = eventError 400 "Cannot access event scheduled for today".
Proof.
  refine (proj1 (proj2
            (getEvent_after_createEvent sampleEnv "letmein" "2025-05-01" julyId
               dbJune admin julyShow (newEvent julyId julyShow) "2025-07-01"
               _ _ _ _)) _).
  - intros [H|[]]. discriminate H.
  - reflexivity.
  - vm_compute. reflexivity.
  - vm_compute. reflexivity.
  - reflexivity.
Defined.

(** X8 over the sample day. *)
Lemma event_dates_stay_unique_witness :
  NoDup (map eventDate (Events (runOps sampleEnv "letmein" dbJune sampleOps))).
Proof.
  refine (proj1 (event_dates_stay_unique sampleEnv "letmein" sampleOps dbJune _)).
  repeat constructor. intros [].
Defined.

(** X9 over the sample day. *)
Lemma getSeats_reads_only_witness :
  fst (getSeats "2025-05-03" (runOps sampleEnv "letmein" dbJune sampleOps)
                "2025-06-01")
  = runOps sampleEnv "letmein" dbJune sampleOps.
Proof.
  refine (proj2 (getSeats_reads_only sampleEnv "letmein" sampleOps dbJune
                   dbJune_registryOk _) "2025-05-03" "2025-06-01").
  unfold sampleOps. cbn [runOk opOk]. repeat split.
  - cbn. lia.
  - intros H. vm_compute in H. destruct H as [H|[]]. discriminate H.
Defined.

(** X10 on seat A1 of the June event over the sample day, at the end of
    which the event itself is gone. *)
Lemma booked_seat_stays_booked_witness :
  bookedOn (_id eventJune) "A1" "2025-06-01"
           (Seats (runOps sampleEnv "letmein" dbBooked sampleOps)).
Proof.
  refine (proj1
            (booked_seat_stays_booked sampleEnv "letmein" sampleOps dbBooked
               (_id eventJune) "A1" "2025-06-01"
               dbBooked_registryOk _ _ dbBooked_A1)).
  - unfold sampleOps. cbn [runOk opOk]. repeat split.
    + cbn. lia.
    + intros H. vm_compute in H. destruct H as [H|[]]. discriminate H.
  - reflexivity.
Defined.

(** X11 on a booking of A1 under a name with a leading blank. *)
Lemma bookings_listed_after_book_witness :
  exists rows,
    getEventBookings sampleEnv
      (fst (book sampleEnv "2025-05-01" dbJune
                 (batch eventJune " Asha" ["A1"]) member))
      admin (castObjectId (Req.eventId (batch eventJune " Asha" ["A1"])))
    = {| eventStatus := 200; eventBody := BookingRows rows |}
    /\ forall bk, In bk (Req.bookings (batch eventJune " Asha" ["A1"])) ->
                  In (rosterRow bk) rows.
Proof.
  refine (bookings_listed_after_book sampleEnv "2025-05-01" dbJune
            (batch eventJune " Asha" ["A1"]) member admin _ _ _ _).
  - exact (proj1 dbJune_wellFormed).
  - eexists. vm_compute. reflexivity.
  - reflexivity.
  - vm_compute. reflexivity.
Defined.

(** X12 on a booking of A1 and A2 under one address. *)
Lemma confirmations_grouped_by_email_witness :
  exists c event,
    bookTransaction sampleEnv dbJune (batch eventJune "Asha" ["A1"; "A2"]) member = inr c
    /\ findById (_id eventJune) (Events dbJune) = Some event
    /\ NoDup (map fst (emailToSeats c)).
Proof.
  destruct (confirmations_grouped_by_email sampleEnv "2025-05-01" dbJune
              (batch eventJune "Asha" ["A1"; "A2"]) member)
    as (c & event & Htx & Hev & Hnd & _).
  - exact (proj1 dbJune_wellFormed).
  - eexists. vm_compute. reflexivity.
  - exists c, event. auto.
Defined.

(** X13 on a second booking of A1. *)
Lemma book_rejection_statuses_witness :
  book sampleEnv "2025-05-02" dbBooked (batch eventJune "Ravi" ["A1"]) member
  = (dbBooked, Some (jsonError 400 "Seat A1 is already booked for this date")).
Proof.
  destruct (book_rejection_statuses sampleEnv "2025-05-02" dbBooked
              (batch eventJune "Ravi" ["A1"]) member
              "Seat A1 is already booked for this date")
    as [[H _]|[[H _]|[H _]]].
  - reflexivity.
  - vm_compute. reflexivity.
  - vm_compute. reflexivity.
  - exact H.
  - exfalso. vm_compute in H. discriminate H.
  - exact H.
Defined.

(** X15 on a booking of A1. *)
Lemma validated_contact_stored_as_supplied_witness :
  exists s,
    In s (Seats dbBooked) /\ eventId s = _id eventJune /\ seatId s = "A1"
    /\ In {| date := "2025-06-01";
             bookedBy := {| name := "Asha"; email := "a@x.com"; phone := None |};
             status := booked |}
          (bookings s).
Proof.
  refine (validated_contact_stored_as_supplied sampleEnv "2025-05-01" dbJune
            (batch eventJune "Asha" ["A1"]) member
            (request "Asha" "2025-06-01" "A1") _ _ _).
  - exact (proj1 dbJune_wellFormed).
  - eexists. vm_compute. reflexivity.
  - left. reflexivity.
Defined.

(** X16 on the seats A2 and A1 of the June event, asked for in this
    order. *)
Lemma getSeatsByIds_one_row_per_id_witness :
  NoDup (splitComma "A2,A1")
  /\ Permutation ["A1"; "A2"] (splitComma "A2,A1").
Proof.
  destruct (getSeatsByIds_one_row_per_id "2025-05-01" dbJune dbJune
              (Req.One "A2,A1") "2025-06-01"
              (map (withStatus "2025-06-01")
                   (filter (inBatch ["A2"; "A1"] (_id eventJune)) (Seats dbJune))))
    as (_ & Hnd & Hperm & _).
  - exact (proj1 dbJune_wellFormed).
  - vm_compute. reflexivity.
  - split; [exact Hnd|exact Hperm].
Defined.

(** X17 on Asha's registration. *)
Lemma registration_round_trip_witness :
  login sampleAuthEnv 2000%Z ashaVerified "asha@x.com" "secret1"
  = (ashaVerified,
     loggedIn sampleAuthEnv 2000%Z "Login successful"
              {| Account._id := ashaId;
                 Account.name := "Asha";
                 Account.email := "asha@x.com";
                 Account.password := "h:secret1";
                 Account.isVerified := true;
                 Account.isAdmin := false |}).
Proof.
  refine (proj1 (proj2
            (registration_round_trip sampleAuthEnv 0%Z 1000%Z 2000%Z 3000%Z
               ashaId "salt" "A1B2C3" noAccounts asha
               sampleAuthEnv_behaves _ _ _ _ _ _ _))).
  - reflexivity.
  - vm_compute. reflexivity.
  - intros r [].
  - intros [].
  - vm_compute. reflexivity.
  - lia.
  - lia.
Defined.

(** X18 on Asha's registration, five minutes after the mail failed. *)
Lemma lapsed_registration_is_a_dead_end_witness :
  lapsed 300001%Z "asha@x.com"
         (authRun mailDownEnv ashaStranded sampleAuthCalls).
Proof.
  refine (proj1 (lapsed_registration_is_a_dead_end mailDownEnv 300001%Z
                   "asha@x.com" ashaStranded sampleAuthCalls _ _)).
  - split; [|split].
    + eexists. split; [left; reflexivity|reflexivity].
    + intros u [<-|[]] _. reflexivity.
    + intros r [<-|[]] _ _. cbn. lia.
  - repeat constructor; cbn; lia.
Defined.

(** X19 on Asha's verified account. *)
Lemma password_reset_round_trip_witness :
  exists u, findUser "asha@x.com" (Users ashaVerified) = Some u.
Proof.
  destruct (password_reset_round_trip sampleAuthEnv 5000%Z 6000%Z 7000%Z
              "salt2" "C0FFEE" "asha@x.com" "secret2" ashaVerified
              sampleAuthEnv_behaves)
    as (u & Hu & _).
  - vm_compute. reflexivity.
  - intros r Hr. vm_compute in Hr. destruct Hr.
  - lia.
  - vm_compute. repeat constructor.
  - exists u. exact Hu.
Defined.

(** X21 over Asha's stranded registration and the later calls. *)
Lemma accounts_stay_consistent_witness :
  NoDup (map Account.email
             (Users (authRun mailDownEnv ashaStranded sampleAuthCalls))).
Proof.
  refine (proj1 (accounts_stay_consistent mailDownEnv sampleAuthCalls
                   ashaStranded _ _)).
  - vm_compute. repeat constructor. intros [].
  - intros r [<-|[]]. left. reflexivity.
Defined.

(** X22 on Asha's registration with the mail transport down. *)
Lemma failed_registration_mail_strands_address_witness :
  lapsed 300001%Z "asha@x.com" ashaStranded.
Proof.
  refine (proj2 (failed_registration_mail_strands_address mailDownEnv 0%Z
                   300001%Z ashaId "salt" "A1B2C3" "connect ETIMEDOUT"
                   noAccounts asha _ _ _ _ _ _ _ _ _)).
  - intros r [].
  - vm_compute. reflexivity.
  - vm_compute. reflexivity.
  - vm_compute. repeat constructor.
  - reflexivity.
  - reflexivity.
  - reflexivity.
  - reflexivity.
  - lia.
Defined.

(** X23 on a store where Asha registered under the admin address. *)
Lemma startup_provisions_default_accounts_witness :
  exists st2,
    initializeDefaultUser sampleAuthEnv sampleConfig
                          "64b7f3a2c1d4e5f6a7b8c9e1" "64b7f3a2c1d4e5f6a7b8c9e2"
                          "salt1" "salt2" ashaVerified
    = inr st2
    /\ exists a, findUser "asha@x.com" (Users st2) = Some a
                 /\ Account.isAdmin a = true.
Proof.
  destruct (startup_provisions_default_accounts sampleAuthEnv sampleConfig
              "64b7f3a2c1d4e5f6a7b8c9e1" "64b7f3a2c1d4e5f6a7b8c9e2"
              "salt1" "salt2" ashaVerified sampleAuthEnv_behaves)
    as (st2 & Hinit & _ & _ & Hadmin & _).
  - repeat split; vm_compute; reflexivity.
  - vm_compute. repeat constructor. intros [].
  - exists st2. split; [exact Hinit|exact Hadmin].
Defined.
